(** * Excel File Processing App: the ingestion, deduplication, persistence
      and retrieval core of the ASP.NET backend

    The development embeds [LegacyDataConverter] and [ExcelDataService]
    (Services/LegacyJsonConverter.cs) together with the entity and DTO
    classes they use.  .NET strings are modelled by [string]; a character is
    a code unit in the range U+0000..U+00FF.  [int] and [long] values are
    modelled by [Z], [double] by the binary64 primitive [float]. *)

From Stdlib Require Import ZArith NArith QArith Qround List String Ascii Bool Lia Arith.
From Stdlib Require Import Sorting.Sorted Sorting.Permutation.
From Stdlib Require Import Floats.PrimFloat Floats.SpecFloat Floats.FloatOps.
Import ListNotations.

Local Open Scope list_scope.
Local Open Scope string_scope.

(** ** Characters and strings *)

Definition dquote : ascii := "034"%char.
Definition backslash : ascii := "092"%char.

Definition str1 (c : ascii) : string := String c EmptyString.

(** [quoted s] is [s] between two double quotes, with no escaping. *)
Definition quoted (s : string) : string :=
  String dquote (s ++ str1 dquote).

Fixpoint concat_with (sep : string) (l : list string) : string :=
  match l with
  | [] => ""
  | [x] => x
  | x :: rest => x ++ sep ++ concat_with sep rest
  end.

(** ** SHA-256 (FIPS 180-4), as computed by [SHA256.ComputeHash] *)

Module SHA256.

Local Open Scope N_scope.
Local Open Scope list_scope.

Definition w32 : N := 4294967296.
Definition add32 (a b : N) : N := (a + b) mod w32.
Definition rotr (n x : N) : N :=
  N.lor (N.shiftr x n) ((N.shiftl x (32 - n)) mod w32).
Definition shr (n x : N) : N := N.shiftr x n.
Definition not32 (x : N) : N := N.lxor x (w32 - 1).

Definition Ch (x y z : N) : N := N.lxor (N.land x y) (N.land (not32 x) z).
Definition Maj (x y z : N) : N :=
  N.lxor (N.lxor (N.land x y) (N.land x z)) (N.land y z).
Definition Sigma0 (x : N) : N := N.lxor (N.lxor (rotr 2 x) (rotr 13 x)) (rotr 22 x).
Definition Sigma1 (x : N) : N := N.lxor (N.lxor (rotr 6 x) (rotr 11 x)) (rotr 25 x).
Definition sigma0 (x : N) : N := N.lxor (N.lxor (rotr 7 x) (rotr 18 x)) (shr 3 x).
Definition sigma1 (x : N) : N := N.lxor (N.lxor (rotr 17 x) (rotr 19 x)) (shr 10 x).

(** The round constants are the first 32 fractional bits of the cube roots
    of the first 64 primes, the initial hash value those of the square roots
    of the first 8 primes. *)
Fixpoint cube_root_bits (bits : nat) (x acc : N) : N :=
  match bits with
  | O => acc
  | S b =>
      let cand := acc + N.shiftl 1 (N.of_nat b) in
      if cand * cand * cand <=? x then cube_root_bits b x cand
      else cube_root_bits b x acc
  end.

Definition is_prime (n : N) : bool :=
  (1 <? n) && forallb (fun d => negb (n mod d =? 0))
                      (map N.of_nat (seq 2 (N.to_nat (N.sqrt n) - 1))).

Definition primes (count : nat) : list N :=
  firstn count (filter is_prime (map N.of_nat (seq 2 310))).

Definition K : list N :=
  Eval vm_compute in
    map (fun p => cube_root_bits 36 (N.shiftl p 96) 0 mod w32) (primes 64).

Definition H0 : list N :=
  Eval vm_compute in
    map (fun p => N.sqrt (N.shiftl p 64) mod w32) (primes 8).

(** Padding: a 1 bit, zero bytes up to 56 mod 64, the bit length on 8 bytes. *)
Definition be_bytes (n : nat) (x : N) : list N :=
  map (fun i => (N.shiftr x (8 * N.of_nat i)) mod 256) (rev (seq 0 n)).

Definition pad (msg : list N) : list N :=
  let len := List.length msg in
  let zeros := ((64 - ((len + 9) mod 64)) mod 64)%nat in
  msg ++ [128] ++ repeat 0 zeros ++ be_bytes 8 (8 * N.of_nat len).

Fixpoint words (fuel : nat) (bs : list N) : list N :=
  match fuel, bs with
  | S f, a :: b :: c :: d :: rest =>
      (N.shiftl a 24 + N.shiftl b 16 + N.shiftl c 8 + d) :: words f rest
  | _, _ => []
  end.

Fixpoint chunks {A} (fuel n : nat) (l : list A) : list (list A) :=
  match fuel, l with
  | S f, _ :: _ => firstn n l :: chunks f n (skipn n l)
  | _, _ => []
  end.

(** The message schedule, kept newest-first: [w] holds W(t-1), W(t-2), ... *)
Definition next_w (w : list N) : N :=
  add32 (add32 (sigma1 (nth 1 w 0)) (nth 6 w 0))
        (add32 (sigma0 (nth 14 w 0)) (nth 15 w 0)).

Fixpoint extend (n : nat) (w : list N) : list N :=
  match n with
  | O => w
  | S n' => extend n' (next_w w :: w)
  end.

Definition schedule (block : list N) : list N :=
  rev (extend 48 (rev block)).

Definition round (st : list N) (kw : N * N) : list N :=
  match st with
  | [a; b; c; d; e; f; g; h] =>
      let t1 := add32 (add32 (add32 h (Sigma1 e)) (add32 (Ch e f g) (fst kw))) (snd kw) in
      let t2 := add32 (Sigma0 a) (Maj a b c) in
      [add32 t1 t2; a; b; c; add32 d t1; e; f; g]
  | _ => st
  end.

Definition compress (h : list N) (block : list N) : list N :=
  let st := fold_left round (combine K (schedule block)) h in
  map (fun p => add32 (fst p) (snd p)) (combine h st).

Definition ComputeHash (msg : list N) : list N :=
  let ws := words (List.length (pad msg)) (pad msg) in
  let bl := chunks (List.length ws) 16 ws in
  flat_map (be_bytes 4) (fold_left compress bl H0).

End SHA256.

(** [Convert.ToHexString]: two upper-case hexadecimal digits per byte. *)
Definition hex_digit (n : N) : ascii :=
  if (n <? 10)%N then ascii_of_N (48 + n) else ascii_of_N (55 + n).

Fixpoint ToHexString (bs : list N) : string :=
  match bs with
  | [] => ""
  | b :: rest => String (hex_digit (b / 16)%N) (String (hex_digit (b mod 16)%N) (ToHexString rest))
  end.

(** [Encoding.UTF8.GetBytes] on code units below U+0100: one byte for ASCII,
    two bytes otherwise. *)
Fixpoint UTF8_GetBytes (s : string) : list N :=
  match s with
  | EmptyString => []
  | String c rest =>
      let n := N_of_ascii c in
      if (n <? 128)%N then n :: UTF8_GetBytes rest
      else (192 + n / 64)%N :: (128 + n mod 64)%N :: UTF8_GetBytes rest
  end.

(** ** Exceptions and results *)

Inductive Exception : Type :=
| InvalidCastException
| FormatException
| OverflowException
| JsonReaderException
| IndexOutOfRangeException
| NullReferenceException
| DbException (code : Z).

Inductive Exc (A : Type) : Type :=
| Ok (a : A)
| Throws (e : Exception).
Arguments Ok {A} a.
Arguments Throws {A} e.

Definition exc_bind {A B} (m : Exc A) (k : A -> Exc B) : Exc B :=
  match m with
  | Ok a => k a
  | Throws e => Throws e
  end.

Notation "'let!' x ':=' m 'in' k" := (exc_bind m (fun x => k))
  (at level 10, x name, m at level 100, k at level 200).

(** [try { body } catch { return handler; }] *)
Definition try_catch_all {A} (body : Exc A) (handler : A) : Exc A :=
  match body with
  | Ok a => Ok a
  | Throws _ => Ok handler
  end.

(** ** JSON values of the two libraries the service uses *)

(** [System.Text.Json.JsonValueKind]; [code] is the underlying integer. *)
Module JsonValueKind.
Inductive t : Type :=
| Undefined | Object | Array | String | Number | True | False | Null.

Definition code (k : t) : Z :=
  match k with
  | Undefined => 0 | Object => 1 | Array => 2 | String => 3
  | Number => 4 | True => 5 | False => 6 | Null => 7
  end%Z.
End JsonValueKind.

(** A [System.Text.Json.JsonElement]: what the request binder stores in an
    [object]-typed cell.  Numbers keep their literal, containers their raw
    text. *)
Inductive JsonElement : Type :=
| JE_Undefined
| JE_Object (raw : string)
| JE_Array (raw : string)
| JE_String (s : string)
| JE_Number (literal : string)
| JE_True
| JE_False
| JE_Null.

Definition ValueKind (e : JsonElement) : JsonValueKind.t :=
  match e with
  | JE_Undefined => JsonValueKind.Undefined
  | JE_Object _ => JsonValueKind.Object
  | JE_Array _ => JsonValueKind.Array
  | JE_String _ => JsonValueKind.String
  | JE_Number _ => JsonValueKind.Number
  | JE_True => JsonValueKind.True
  | JE_False => JsonValueKind.False
  | JE_Null => JsonValueKind.Null
  end.

(** A C# [object] held in a row cell: [null], a boxed primitive, or a
    [JsonElement]. *)
Inductive object : Type :=
| O_null
| O_string (s : string)
| O_long (n : Z)
| O_double (d : float)
| O_bool (b : bool)
| O_JsonElement (e : JsonElement).

(** [Newtonsoft.Json.Linq.JToken] as [JObject.Parse] builds it. *)
#[warnings="-register-all"]
Inductive JToken : Type :=
| JObject (props : list (string * JToken))
| JArray (items : list JToken)
| JConstructor (name : string) (args : list JToken)
| JString (s : string)
| JInteger (n : Z)
| JFloat (d : float)
| JBoolean (b : bool)
| JNull
| JUndefined
| JDate (ticks : Z).

Module JTokenType.
Inductive t : Type :=
| Object | Array | Constructor | String | Integer | Float | Boolean
| Null | Undefined | Date.
End JTokenType.

Definition Type_ (token : JToken) : JTokenType.t :=
  match token with
  | JObject _ => JTokenType.Object
  | JArray _ => JTokenType.Array
  | JConstructor _ _ => JTokenType.Constructor
  | JString _ => JTokenType.String
  | JInteger _ => JTokenType.Integer
  | JFloat _ => JTokenType.Float
  | JBoolean _ => JTokenType.Boolean
  | JNull => JTokenType.Null
  | JUndefined => JTokenType.Undefined
  | JDate _ => JTokenType.Date
  end.

(** ** Dictionaries

    A [Dictionary<string, V>] that is only filled keeps its entries in
    insertion order, and enumeration and serialization follow that order. *)

Definition Dictionary (V : Type) : Type := list (string * V).

Fixpoint TryGetValue {V} (d : Dictionary V) (key : string) : option V :=
  match d with
  | [] => None
  | (k, v) :: rest => if String.eqb k key then Some v else TryGetValue rest key
  end.

(** The indexer setter [d[key] = v]: replace in place, or append. *)
Fixpoint set_Item {V} (d : Dictionary V) (key : string) (v : V) : Dictionary V :=
  match d with
  | [] => [(key, v)]
  | (k, w) :: rest =>
      if String.eqb k key then (k, v) :: rest else (k, w) :: set_Item rest key v
  end.

Definition Keys {V} (d : Dictionary V) : list string := map fst d.
Definition Values {V} (d : Dictionary V) : list V := map snd d.

(** ** The parts of the .NET libraries taken as given

    Parsers, number formatting and the cross-type conversions of
    [System.Convert] are not part of the repository.  Every theorem below
    holds for any behaviour of these routines. *)

Record Library : Type := {
  (** [JObject.Parse]; [Throws] when the text is not a JSON object. *)
  JObject_Parse : string -> Exc (list (string * JToken));
  (** [JToken.ToString()] *)
  JToken_ToString : JToken -> string;
  (** [Convert.ChangeType] to [string], [double] and [int] on a [JValue]
      whose stored value has another type. *)
  ChangeType_string : JToken -> Exc (option string);
  ChangeType_double : JToken -> Exc float;
  ChangeType_int : JToken -> Exc Z;
  (** [JsonElement.GetDouble] on a number literal. *)
  Double_Parse : string -> float;
  (** The text [JsonConvert] writes for a [double]. *)
  Double_ToJson : float -> string;
  (** [JsonConvert.DeserializeObject<List<string>>]: the outer [option] is a
      JSON [null] document, the inner ones are [null] elements. *)
  DeserializeObject_ListString : string -> Exc (option (list (option string)));
  (** [string.Contains] as the database evaluates it under its collation. *)
  sql_Contains : string -> string -> bool
}.

(** ** [JsonConvert.SerializeObject] with [Formatting.None] *)

From Stdlib Require Import DecimalString.

Definition Int64_ToString (n : Z) : string := NilZero.string_of_int (Z.to_int n).

Definition hex_lower (n : N) : ascii :=
  if (n <? 10)%N then ascii_of_N (48 + n) else ascii_of_N (87 + n).

(** The escape of one character inside a double-quoted JSON string. *)
Definition escape_char (c : ascii) : string :=
  let n := N_of_ascii c in
  if (n =? 34)%N then String backslash (str1 dquote)
  else if (n =? 92)%N then String backslash (str1 backslash)
  else if (n =? 8)%N then String backslash "b"
  else if (n =? 9)%N then String backslash "t"
  else if (n =? 10)%N then String backslash "n"
  else if (n =? 12)%N then String backslash "f"
  else if (n =? 13)%N then String backslash "r"
  else if ((n <? 32)%N || (n =? 133)%N)%bool
       then String backslash ("u00" ++ String (hex_lower (n / 16)) (str1 (hex_lower (n mod 16))))
  else str1 c.

Fixpoint escape (s : string) : string :=
  match s with
  | EmptyString => ""
  | String c rest => escape_char c ++ escape rest
  end.

Definition Serialize_string (s : string) : string := quoted (escape s).

Definition Serialize_bool (b : bool) : string := if b then "true" else "false".

Section Serialization.

Variable lib : Library.

(** A [JsonElement] has one public property, [ValueKind]; the serializer
    writes it as an object with that property and nothing else. *)
Definition Serialize_JsonElement (e : JsonElement) : string :=
  "{" ++ quoted "ValueKind" ++ ":" ++ Int64_ToString (JsonValueKind.code (ValueKind e)) ++ "}".

Definition Serialize_object (o : object) : string :=
  match o with
  | O_null => "null"
  | O_string s => Serialize_string s
  | O_long n => Int64_ToString n
  | O_double d => Double_ToJson lib d
  | O_bool b => Serialize_bool b
  | O_JsonElement e => Serialize_JsonElement e
  end.

Definition Serialize_Dictionary {V} (ser : V -> string) (d : Dictionary V) : string :=
  "{" ++ concat_with "," (map (fun kv => Serialize_string (fst kv) ++ ":" ++ ser (snd kv)) d) ++ "}".

Definition Serialize_List {V} (ser : V -> string) (l : list V) : string :=
  "[" ++ concat_with "," (map ser l) ++ "]".

(** A [null] reference is written as the literal [null]. *)
Definition Serialize_nullable {V} (ser : V -> string) (v : option V) : string :=
  match v with
  | Some x => ser x
  | None => "null"
  end.

Definition Serialize_row (row : Dictionary object) : string :=
  Serialize_Dictionary Serialize_object row.

Definition Serialize_headers (headers : list (option string)) : string :=
  Serialize_List (Serialize_nullable Serialize_string) headers.

End Serialization.

(** ** DTOs (Models/DTOs)

    As the request binder hands them over once validation has passed: the
    members marked [Required] are present, but a list may hold [null]
    entries and a dictionary [null] values; the list of excluded sheets
    carries no attribute and is taken as possibly [null] too.  These are the
    [option]s below. *)

Record SheetDataDto : Type := {
  dto_SheetName : string;
  dto_Headers : list (option string);
  dto_Data : list (option (Dictionary object))
}.

Record MetadataDto : Type := {
  meta_ExportedAt : Z;
  meta_ExcludedSheets : option (list string)
}.

Record ExcelUploadDto : Type := {
  up_FileName : string;
  up_ImportedBy : option string;
  up_Metadata : MetadataDto;
  up_Sheets : Dictionary (option SheetDataDto)
}.

Section Fingerprint.

Variable lib : Library.

(** Properties are written in declaration order: SheetName, Headers, Data. *)
Definition Serialize_SheetDataDto (s : SheetDataDto) : string :=
  "{" ++ quoted "SheetName" ++ ":" ++ Serialize_string (dto_SheetName s)
      ++ "," ++ quoted "Headers" ++ ":" ++ Serialize_headers (dto_Headers s)
      ++ "," ++ quoted "Data" ++ ":"
      ++ Serialize_List (Serialize_nullable (Serialize_row lib)) (dto_Data s)
      ++ "}".

Definition Serialize_Sheets (sheets : Dictionary (option SheetDataDto)) : string :=
  Serialize_Dictionary (Serialize_nullable Serialize_SheetDataDto) sheets.

(** [CalculateFileHash]: SHA-256 of the UTF-8 bytes of the serialized sheet
    dictionary, in upper-case hexadecimal. *)
Definition CalculateFileHash (uploadData : ExcelUploadDto) : string :=
  let dataString := Serialize_Sheets (up_Sheets uploadData) in
  let hashBytes := SHA256.ComputeHash (UTF8_GetBytes dataString) in
  ToHexString hashBytes.

End Fingerprint.

(** ** Numeric conversions *)

Local Open Scope Z_scope.

Definition Int32_MinValue : Z := -2147483648.
Definition Int32_MaxValue : Z := 2147483647.
Definition Int64_MinValue : Z := -9223372036854775808.
Definition Int64_MaxValue : Z := 9223372036854775807.

Definition in_Int32 (n : Z) : bool := (Int32_MinValue <=? n) && (n <=? Int32_MaxValue).
Definition in_Int64 (n : Z) : bool := (Int64_MinValue <=? n) && (n <=? Int64_MaxValue).

(** [(double)n] for a [long]: round to nearest, ties to even. *)
Definition double_of_long (n : Z) : float :=
  SF2Prim (binary_normalize 53 1024 n 0 false).

(** Unchecked [int] arithmetic wraps around. *)
Definition wrap32 (n : Z) : Z :=
  (n + 2147483648) mod 4294967296 - 2147483648.

Definition digit_value (c : ascii) : option Z :=
  let n := Z.of_N (N_of_ascii c) in
  if (48 <=? n) && (n <=? 57) then Some (n - 48) else None.

Fixpoint parse_digits (s : string) (acc : Z) : option Z :=
  match s with
  | EmptyString => Some acc
  | String c rest =>
      match digit_value c with
      | Some d => parse_digits rest (10 * acc + d)
      | None => None
      end
  end.

Definition parse_unsigned (s : string) : option Z :=
  match s with
  | EmptyString => None
  | _ => parse_digits s 0
  end.

(** [JsonElement.TryGetInt64]: the whole literal must be a signed run of
    digits whose value fits a [long]. *)
Definition TryGetInt64 (literal : string) : option Z :=
  let signed :=
    match literal with
    | String "-" rest => option_map Z.opp (parse_unsigned rest)
    | String "+" rest => parse_unsigned rest
    | _ => parse_unsigned literal
    end in
  match signed with
  | Some n => if in_Int64 n then Some n else None
  | None => None
  end.

(** ** LegacyDataConverter *)

Section LegacyDataConverter.

Variable lib : Library.

(** [token[key]] on a [JObject]: the property value, or [null]. *)
Definition Item (token : JToken) (key : string) : option JToken :=
  match token with
  | JObject props => TryGetValue props key
  | _ => None
  end.

Definition Value_int (token : JToken) : Exc Z :=
  match token with
  | JObject _ | JArray _ | JConstructor _ _ => Throws InvalidCastException
  | JNull | JUndefined => Throws InvalidCastException
  | JInteger n => if in_Int32 n then Ok n else Throws OverflowException
  | _ => ChangeType_int lib token
  end.

Definition Value_long (token : JToken) : Exc Z :=
  match token with
  | JInteger n => if in_Int64 n then Ok n else Throws OverflowException
  | _ => Throws InvalidCastException
  end.

Definition Value_string (token : JToken) : Exc (option string) :=
  match token with
  | JObject _ | JArray _ | JConstructor _ _ => Throws InvalidCastException
  | JNull | JUndefined => Ok None
  | JString s => Ok (Some s)
  | _ => ChangeType_string lib token
  end.

Definition Value_double (token : JToken) : Exc float :=
  match token with
  | JObject _ | JArray _ | JConstructor _ _ => Throws InvalidCastException
  | JNull | JUndefined => Throws InvalidCastException
  | JFloat d => Ok d
  | JInteger n => if in_Int64 n then Ok (double_of_long n) else Throws InvalidCastException
  | _ => ChangeType_double lib token
  end.

Definition IsNullOrEmpty (s : option string) : bool :=
  match s with
  | None => true
  | Some EmptyString => true
  | Some _ => false
  end.

Definition ConvertLegacyValue (token : JToken) : Exc object :=
  match Type_ token, Item token "ValueKind" with
  | JTokenType.Object, Some vk =>
      let! valueKind := Value_int vk in
      match valueKind with
      | 3 =>
          let! stringValue :=
            match Item token "Value" with
            | Some v => Value_string v
            | None => Ok None
            end in
          if negb (IsNullOrEmpty stringValue)
          then Ok (O_string (match stringValue with Some s => s | None => "" end))
          else Ok (O_string "N/A")
      | 4 =>
          match Item token "Value" with
          | Some v => let! d := Value_double v in Ok (O_double d)
          | None => Ok (O_double 0%float)
          end
      | 5 => Ok (O_bool true)
      | 6 => Ok (O_bool false)
      | 7 => Ok (O_string "N/A")
      | _ => Ok (O_string "N/A")
      end
  | _, _ =>
      match token with
      | JString s => Ok (O_string s)
      | JInteger _ => let! n := Value_long token in Ok (O_long n)
      | JFloat d => Ok (O_double d)
      | JBoolean b => Ok (O_bool b)
      | JNull => Ok O_null
      | _ => Ok (O_string (JToken_ToString lib token))
      end
  end.

Fixpoint convert_properties (props : list (string * JToken)) (result : Dictionary object)
  : Exc (Dictionary object) :=
  match props with
  | [] => Ok result
  | (name, v) :: rest =>
      let! value := ConvertLegacyValue v in
      convert_properties rest (set_Item result name value)
  end.

Definition ConvertLegacyData (jsonString : string) : Exc (Dictionary object) :=
  try_catch_all
    (let! jObject := JObject_Parse lib jsonString in
     convert_properties jObject [])
    [].

End LegacyDataConverter.

(** ** Preparing a row for storage *)

Section ConvertJsonElements.

Variable lib : Library.

(** The arm for numbers is the conditional
    [TryGetInt64(out var longVal) ? longVal : GetDouble()]: its operands are
    a [long] and a [double], so its type is [double] and the [long] is
    converted before it is boxed. *)
Definition ConvertJsonElement (element : JsonElement) : object :=
  match element with
  | JE_String s => O_string s
  | JE_Number literal =>
      O_double (match TryGetInt64 literal with
                | Some longVal => double_of_long longVal
                | None => Double_Parse lib literal
                end)
  | JE_True => O_bool true
  | JE_False => O_bool false
  | JE_Null => O_string "N/A"
  | JE_Undefined => O_string "N/A"
  | JE_Object raw => O_string raw
  | JE_Array raw => O_string raw
  end.

Definition coalesce_NA (value : object) : object :=
  match value with
  | O_null => O_string "N/A"
  | _ => value
  end.

Fixpoint convert_entries (row : list (string * object)) (convertedRow : Dictionary object)
  : Dictionary object :=
  match row with
  | [] => convertedRow
  | (key, v) :: rest =>
      let value :=
        match v with
        | O_JsonElement jsonElement => ConvertJsonElement jsonElement
        | _ => v
        end in
      convert_entries rest (set_Item convertedRow key (coalesce_NA value))
  end.

Definition ConvertJsonElementsToValues (row : Dictionary object) : Dictionary object :=
  convert_entries row [].

End ConvertJsonElements.

(** ** Entities (Models) and the database *)

Definition Guid : Type := Z.
Definition DateTime : Type := Z.

Record ImportSession : Type := {
  s_Id : Guid;
  s_FileName : string;
  s_FileHash : option string;
  s_TotalSheets : Z;
  s_ProcessedSheets : Z;
  s_ExcludedSheets : Z;
  s_TotalRows : Z;
  s_ImportedAt : DateTime;
  s_ImportedBy : option string;
  s_Status : string;
  s_ProcessingTimeMs : option Z
}.

Record Sheet : Type := {
  sh_Id : Guid;
  sh_SessionId : Guid;
  sh_SheetName : string;
  sh_SheetIndex : Z;
  sh_RowCount : Z;
  sh_ColumnCount : Z;
  sh_Headers : string;
  sh_CreatedAt : DateTime
}.

(** The computed column [RowHash] is produced by the database and never read
    by the service; it is not part of the model. *)
Record SheetData : Type := {
  sd_Id : Guid;
  sd_SheetId : Guid;
  sd_RowIndex : Z;
  sd_RowData : string;
  sd_CreatedAt : DateTime
}.

Record ExcludedSheet : Type := {
  ex_Id : Guid;
  ex_SessionId : Guid;
  ex_SheetName : string;
  ex_ExclusionReason : option string
}.

Record Database : Type := {
  ImportSessions : list ImportSession;
  Sheets : list Sheet;
  SheetDataRows : list SheetData;
  ExcludedSheets : list ExcludedSheet
}.

Definition empty_Database : Database :=
  {| ImportSessions := []; Sheets := []; SheetDataRows := []; ExcludedSheets := [] |}.

(** Changes the context tracks until the next [SaveChanges]. *)
Inductive Change : Type :=
| Add_ImportSession (s : ImportSession)
| Add_Sheet (s : Sheet)
| Add_SheetData (r : SheetData)
| Add_ExcludedSheet (e : ExcludedSheet)
| Update_ImportSession (s : ImportSession)
| Remove_ImportSession (id : Guid).

Definition replace_session (s : ImportSession) (l : list ImportSession) : list ImportSession :=
  map (fun x => if s_Id x =? s_Id s then s else x) l.

(** Removing a session cascades to its sheets, their rows and its excluded
    sheets ([OnDelete(DeleteBehavior.Cascade)]).  The table of processing
    errors, which the service neither reads nor writes, is left out of
    [Database]. *)
Definition cascade_delete (id : Guid) (db : Database) : Database :=
  let gone := filter (fun sh => sh_SessionId sh =? id) (Sheets db) in
  let gone_ids := map sh_Id gone in
  {| ImportSessions := filter (fun s => negb (s_Id s =? id)) (ImportSessions db);
     Sheets := filter (fun sh => negb (sh_SessionId sh =? id)) (Sheets db);
     SheetDataRows :=
       filter (fun r => negb (existsb (Z.eqb (sd_SheetId r)) gone_ids)) (SheetDataRows db);
     ExcludedSheets := filter (fun e => negb (ex_SessionId e =? id)) (ExcludedSheets db) |}.

Definition apply_change (db : Database) (c : Change) : Database :=
  match c with
  | Add_ImportSession s =>
      {| ImportSessions := (ImportSessions db ++ [s])%list; Sheets := Sheets db;
         SheetDataRows := SheetDataRows db; ExcludedSheets := ExcludedSheets db |}
  | Add_Sheet s =>
      {| ImportSessions := ImportSessions db; Sheets := (Sheets db ++ [s])%list;
         SheetDataRows := SheetDataRows db; ExcludedSheets := ExcludedSheets db |}
  | Add_SheetData r =>
      {| ImportSessions := ImportSessions db; Sheets := Sheets db;
         SheetDataRows := (SheetDataRows db ++ [r])%list; ExcludedSheets := ExcludedSheets db |}
  | Add_ExcludedSheet e =>
      {| ImportSessions := ImportSessions db; Sheets := Sheets db;
         SheetDataRows := SheetDataRows db; ExcludedSheets := (ExcludedSheets db ++ [e])%list |}
  | Update_ImportSession s =>
      {| ImportSessions := replace_session s (ImportSessions db); Sheets := Sheets db;
         SheetDataRows := SheetDataRows db; ExcludedSheets := ExcludedSheets db |}
  | Remove_ImportSession id => cascade_delete id db
  end.

(** ** The unit of work

    [database] is what the connection sees; inside a transaction [snapshot]
    holds the state to restore on rollback.  [ops] counts the database calls
    the upload and the delete have made so far, their lookups included,
    [entities] the entities constructed. *)

Record DbContext : Type := {
  database : Database;
  snapshot : option Database;
  tracked : list Change;
  ops : nat;
  entities : nat
}.

(** What the service reads from outside: identifiers, clock, stopwatch,
    configuration, and which database call fails with which exception (a
    lost connection, a deadlock, a value the schema rejects).  The batch size
    is the configured value when it is positive, as the shipped value 1000
    is; with a value of zero the batch loop of [SaveSheetDataAsync] does not
    end, and such configurations are outside this development. *)
Record Environment : Type := {
  NewGuid : nat -> Guid;
  UtcNow : nat -> DateTime;
  ElapsedMilliseconds : Z;
  Elapsed : Z;
  BulkInsertBatchSize : positive;
  fault : nat -> option Exception
}.

Definition Db (A : Type) : Type := DbContext -> Exc A * DbContext.

Definition ret {A} (a : A) : Db A := fun ctx => (Ok a, ctx).
Definition throw {A} (e : Exception) : Db A := fun ctx => (Throws e, ctx).
Definition bind {A B} (m : Db A) (k : A -> Db B) : Db B :=
  fun ctx =>
    match m ctx with
    | (Ok a, ctx') => k a ctx'
    | (Throws e, ctx') => (Throws e, ctx')
    end.
Definition catch {A} (m : Db A) (handler : Exception -> Db A) : Db A :=
  fun ctx =>
    match m ctx with
    | (Ok a, ctx') => (Ok a, ctx')
    | (Throws e, ctx') => handler e ctx'
    end.

Notation "x <- m ;; k" := (bind m (fun x => k))
  (at level 61, m at next level, right associativity).
Notation "m ;;; k" := (bind m (fun _ => k))
  (at level 61, right associativity).

Definition with_database (ctx : DbContext) (db : Database) : DbContext :=
  {| database := db; snapshot := snapshot ctx; tracked := tracked ctx;
     ops := ops ctx; entities := entities ctx |}.

Section UnitOfWork.

Variable env : Environment.

(** One database call: it consumes an operation number and fails when the
    environment says so. *)
Definition db_call {A} (action : DbContext -> A * DbContext) : Db A :=
  fun ctx =>
    let ctx1 := {| database := database ctx; snapshot := snapshot ctx;
                   tracked := tracked ctx; ops := S (ops ctx);
                   entities := entities ctx |} in
    match fault env (ops ctx) with
    | Some e => (Throws e, ctx1)
    | None => let (a, ctx2) := action ctx1 in (Ok a, ctx2)
    end.

Definition BeginTransactionAsync : Db unit :=
  db_call (fun ctx =>
    (tt, {| database := database ctx; snapshot := Some (database ctx);
            tracked := tracked ctx; ops := ops ctx; entities := entities ctx |})).

Definition SaveChangesAsync : Db unit :=
  db_call (fun ctx =>
    (tt, {| database := fold_left apply_change (tracked ctx) (database ctx);
            snapshot := snapshot ctx; tracked := []; ops := ops ctx;
            entities := entities ctx |})).

Definition CommitAsync : Db unit :=
  db_call (fun ctx =>
    (tt, {| database := database ctx; snapshot := None;
            tracked := tracked ctx; ops := ops ctx; entities := entities ctx |})).

(** The transaction ends and the database is what it was when it began. *)
Definition Dispose (ctx : DbContext) : DbContext :=
  match snapshot ctx with
  | Some db =>
      {| database := db; snapshot := None; tracked := tracked ctx; ops := ops ctx;
         entities := entities ctx |}
  | None => ctx
  end.

Definition RollbackAsync : Db unit :=
  db_call (fun ctx => (tt, Dispose ctx)).

(** [using var transaction = ...]: when control leaves the block, normally
    or not, a transaction that was neither committed nor rolled back is
    disposed, which rolls it back. *)
Definition using_transaction {A} (body : Db A) : Db A :=
  fun ctx => let (r, ctx') := body ctx in (r, Dispose ctx').

Definition Add (c : Change) : Db unit :=
  fun ctx =>
    (Ok tt, {| database := database ctx; snapshot := snapshot ctx;
               tracked := (tracked ctx ++ [c])%list; ops := ops ctx;
               entities := entities ctx |}).

(** Constructing an entity draws its [Guid.NewGuid()] and [DateTime.UtcNow]. *)
Definition new_entity {A} (make : Guid -> DateTime -> A) : Db A :=
  fun ctx =>
    (Ok (make (NewGuid env (entities ctx)) (UtcNow env (entities ctx))),
     {| database := database ctx; snapshot := snapshot ctx; tracked := tracked ctx;
        ops := ops ctx; entities := S (entities ctx) |}).

(** [FirstOrDefaultAsync] and [FindAsync] on a table: one query. *)
Definition FirstOrDefaultAsync {A} (table : Database -> list A) (predicate : A -> bool)
  : Db (option A) :=
  db_call (fun ctx => (find predicate (table (database ctx)), ctx)).

Definition FindAsync (id : Guid) : Db (option ImportSession) :=
  FirstOrDefaultAsync ImportSessions (fun s => s_Id s =? id).

Fixpoint for_each {A} (l : list A) (body : A -> Db unit) : Db unit :=
  match l with
  | [] => ret tt
  | x :: rest => body x ;;; for_each rest body
  end.

End UnitOfWork.

(** ** Response DTOs *)

Record UploadResponseDto : Type := {
  r_SessionId : Guid;
  r_Message : string;
  r_ProcessedSheets : Z;
  r_TotalRows : Z;
  r_ExcludedSheets : Z;
  r_ProcessingTime : Z
}.

Record SheetSummaryDto : Type := {
  ss_Id : Guid;
  ss_SheetName : string;
  ss_SheetIndex : Z;
  ss_RowCount : Z;
  ss_ColumnCount : Z;
  ss_Headers : list string
}.

Record ExcludedSheetDto : Type := {
  ed_SheetName : string;
  ed_ExclusionReason : option string
}.

Record SessionDataDto : Type := {
  sdd_Id : Guid;
  sdd_FileName : string;
  sdd_ImportedAt : DateTime;
  sdd_TotalSheets : Z;
  sdd_ProcessedSheets : Z;
  sdd_ExcludedSheets : Z;
  sdd_TotalRows : Z;
  sdd_Status : string;
  sdd_Sheets : list SheetSummaryDto;
  sdd_ExcludedSheetsList : list ExcludedSheetDto
}.

Record SheetDetailDto : Type := {
  det_Id : Guid;
  det_SheetName : string;
  det_SheetIndex : Z;
  det_Headers : list string;
  det_Data : list (Dictionary object)
}.

Record SessionListDto : Type := {
  sl_Id : Guid;
  sl_FileName : string;
  sl_ImportedAt : DateTime;
  sl_TotalSheets : Z;
  sl_ProcessedSheets : Z;
  sl_TotalRows : Z;
  sl_Status : string
}.

Record SearchRequestDto : Type := {
  rq_SearchTerm : string;
  rq_SessionId : option Guid;
  rq_PageNumber : Z;
  rq_PageSize : Z
}.

Record SearchResultDto : Type := {
  sr_SheetName : string;
  sr_RowIndex : Z;
  sr_RowData : Dictionary object;
  sr_FileName : string;
  sr_ImportedAt : DateTime;
  sr_SessionId : Guid
}.

Record PagedResponseDto (T : Type) : Type := {
  Data : list T;
  CurrentPage : Z;
  PageSize : Z;
  TotalRecords : Z;
  TotalPages : Z;
  HasNextPage : bool;
  HasPreviousPage : bool
}.
Arguments Data {T}.
Arguments CurrentPage {T}.
Arguments PageSize {T}.
Arguments TotalRecords {T}.
Arguments TotalPages {T}.
Arguments HasNextPage {T}.
Arguments HasPreviousPage {T}.

(** ** Query operators *)

(** [OrderBy]: a stable insertion sort for the order [leb]. *)
Fixpoint insert_sorted {A} (leb : A -> A -> bool) (x : A) (l : list A) : list A :=
  match l with
  | [] => [x]
  | y :: rest => if leb x y then x :: l else y :: insert_sorted leb x rest
  end.

Definition OrderBy {A} (leb : A -> A -> bool) (l : list A) : list A :=
  fold_right (insert_sorted leb) [] l.

(** [Skip(offset).Take(pageSize)] as the SQL Server provider runs it:
    OFFSET must not be negative and FETCH must be positive. *)
Definition SkipTake {A} (offset pageSize : Z) (l : list A) : Exc (list A) :=
  if offset <? 0 then Throws (DbException 10742)
  else if pageSize <=? 0 then Throws (DbException 10744)
  else Ok (firstn (Z.to_nat pageSize) (skipn (Z.to_nat offset) l)).

(** [(int)Math.Ceiling((double)totalRecords / pageSize)]: on 32-bit operands
    the conversions are exact and the quotient is taken here as a rational. *)
Definition Ceiling_div (totalRecords pageSize : Z) : Z :=
  Qceiling (inject_Z totalRecords / inject_Z pageSize).

(** [char.ToLower] on U+0000..U+00FF: the ASCII capitals and the Latin-1
    capitals other than the multiplication sign. *)
Definition ToLower (c : ascii) : ascii :=
  let n := N_of_ascii c in
  if ((65 <=? n) && (n <=? 90))%N then ascii_of_N (n + 32)
  else if ((192 <=? n) && (n <=? 222) && negb (n =? 215))%N then ascii_of_N (n + 32)
  else c.

Fixpoint mapM {A B} (f : A -> Exc B) (l : list A) : Exc (list B) :=
  match l with
  | [] => Ok []
  | x :: rest =>
      let! y := f x in
      let! ys := mapM f rest in
      Ok (y :: ys)
  end.

(** [h => char.ToLower(h[0]) + h.Substring(1)] *)
Definition decapitalize (h : option string) : Exc string :=
  match h with
  | None => Throws NullReferenceException
  | Some EmptyString => Throws IndexOutOfRangeException
  | Some (String c rest) => Ok (String (ToLower c) rest)
  end.

(** ** ExcelDataService *)

Definition lift {A} (m : Exc A) : Db A := fun ctx => (m, ctx).

(** [Enumerable.Sum] with a selector: each element is projected in turn and
    added in checked [int] arithmetic. *)
Fixpoint Sum_checked {A} (selector : A -> Exc Z) (l : list A) (acc : Z) : Exc Z :=
  match l with
  | [] => Ok acc
  | x :: rest =>
      let! v := selector x in
      if in_Int32 (acc + v) then Sum_checked selector rest (acc + v)
      else Throws OverflowException
  end.

Definition Count {A} (l : list A) : Z := Z.of_nat (List.length l).

Definition Guid_ToString (g : Guid) : string := Int64_ToString g.

Definition hash_matches (fileHash : string) (s : ImportSession) : bool :=
  match s_FileHash s with
  | Some h => String.eqb h fileHash
  | None => false
  end.

Section ExcelDataService.

Variable lib : Library.
Variable env : Environment.

(** The rows of one batch: [Select((row, index) => new SheetData {...})].
    The entity is constructed, then its members are assigned; enumerating a
    [null] row in [ConvertJsonElementsToValues] raises. *)
Fixpoint make_batch (sheetId : Guid) (i : nat) (rows : list (option (Dictionary object)))
  (index : nat) : Db (list SheetData) :=
  match rows with
  | [] => ret []
  | row :: rest =>
      created <- new_entity env (fun id now => (id, now)) ;;
      r <- match row with
           | None => throw NullReferenceException
           | Some row =>
               ret {| sd_Id := fst created; sd_SheetId := sheetId;
                      sd_RowIndex := Z.of_nat (i + index);
                      sd_RowData := Serialize_row lib (ConvertJsonElementsToValues lib row);
                      sd_CreatedAt := snd created |}
           end ;;
      rs <- make_batch sheetId i rest (S index) ;;
      ret (r :: rs)
  end.

(** [for (int i = 0; i < Data.Count; i += batchSize)]; the batch size is
    positive, so [fuel = Data.Count] iterations are enough. *)
Fixpoint insert_batches (fuel : nat) (sheetId : Guid)
  (data : list (option (Dictionary object))) (batchSize : nat) (i : nat) : Db unit :=
  match fuel with
  | O => ret tt
  | S fuel' =>
      if (i <? List.length data)%nat then
        batch <- make_batch sheetId i (firstn batchSize (skipn i data)) 0 ;;
        for_each batch (fun r => Add (Add_SheetData r)) ;;;
        SaveChangesAsync env ;;;
        insert_batches fuel' sheetId data batchSize (i + batchSize)
      else ret tt
  end.

Definition SaveSheetDataAsync (sessionId : Guid) (sheetData : option SheetDataDto)
  (sheetIndex : Z) : Db unit :=
  created <- new_entity env (fun id now => (id, now)) ;;
  match sheetData with
  | None => throw NullReferenceException
  | Some sheetData =>
      let sheet :=
        {| sh_Id := fst created; sh_SessionId := sessionId;
           sh_SheetName := dto_SheetName sheetData;
           sh_SheetIndex := sheetIndex;
           sh_RowCount := Count (dto_Data sheetData);
           sh_ColumnCount := Count (dto_Headers sheetData);
           sh_Headers := Serialize_headers (dto_Headers sheetData);
           sh_CreatedAt := snd created |} in
      Add (Add_Sheet sheet) ;;;
      SaveChangesAsync env ;;;
      insert_batches (List.length (dto_Data sheetData)) (sh_Id sheet) (dto_Data sheetData)
                     (Pos.to_nat (BulkInsertBatchSize env)) 0
  end.

Fixpoint save_sheets (sessionId : Guid) (sheets : list (string * option SheetDataDto))
  (sheetIndex : Z) : Db unit :=
  match sheets with
  | [] => ret tt
  | sheetKvp :: rest =>
      SaveSheetDataAsync sessionId (snd sheetKvp) sheetIndex ;;;
      save_sheets sessionId rest (sheetIndex + 1)
  end.

Definition with_completed (session : ImportSession) : ImportSession :=
  {| s_Id := s_Id session; s_FileName := s_FileName session;
     s_FileHash := s_FileHash session; s_TotalSheets := s_TotalSheets session;
     s_ProcessedSheets := s_ProcessedSheets session;
     s_ExcludedSheets := s_ExcludedSheets session;
     s_TotalRows := s_TotalRows session; s_ImportedAt := s_ImportedAt session;
     s_ImportedBy := s_ImportedBy session;
     s_Status := "Completed";
     s_ProcessingTimeMs := Some (wrap32 (ElapsedMilliseconds env)) |}.

(** [new ImportSession { ... }] for an upload, given the two counts its
    initializer computes. *)
Definition new_ImportSession (uploadData : ExcelUploadDto) (fileHash : string)
  (id : Guid) (now : DateTime) (excludedCount totalRows : Z) : ImportSession :=
  {| s_Id := id;
     s_FileName := up_FileName uploadData;
     s_FileHash := Some fileHash;
     s_TotalSheets := wrap32 (Count (up_Sheets uploadData) + excludedCount);
     s_ProcessedSheets := Count (up_Sheets uploadData);
     s_ExcludedSheets := excludedCount;
     s_TotalRows := totalRows;
     s_ImportedAt := now;
     s_ImportedBy := up_ImportedBy uploadData;
     s_Status := "Processing";
     s_ProcessingTimeMs := None |}.

Definition saved_response (session : ImportSession) : UploadResponseDto :=
  {| r_SessionId := s_Id session;
     r_Message := "Excel data saved successfully";
     r_ProcessedSheets := s_ProcessedSheets session;
     r_TotalRows := s_TotalRows session;
     r_ExcludedSheets := s_ExcludedSheets session;
     r_ProcessingTime := Elapsed env |}.

Definition duplicate_response (existingSession : ImportSession) : UploadResponseDto :=
  {| r_SessionId := s_Id existingSession;
     r_Message := "File already exists. Existing session ID: "
                  ++ Guid_ToString (s_Id existingSession);
     r_ProcessedSheets := s_ProcessedSheets existingSession;
     r_TotalRows := s_TotalRows existingSession;
     r_ExcludedSheets := s_ExcludedSheets existingSession;
     r_ProcessingTime :=
       match s_ProcessingTimeMs existingSession with Some ms => ms | None => 0 end |}.

(** [uploadData.Metadata.ExcludedSheets.Count] *)
Definition excluded_count (uploadData : ExcelUploadDto) : Exc Z :=
  match meta_ExcludedSheets (up_Metadata uploadData) with
  | Some names => Ok (Count names)
  | None => Throws NullReferenceException
  end.

(** [s => s.Data.Count] *)
Definition Data_Count (s : option SheetDataDto) : Exc Z :=
  match s with
  | Some s => Ok (Count (dto_Data s))
  | None => Throws NullReferenceException
  end.

(** [uploadData.Sheets.Values.Sum(s => s.Data.Count)] *)
Definition total_rows (uploadData : ExcelUploadDto) : Exc Z :=
  Sum_checked Data_Count (Values (up_Sheets uploadData)) 0.

Definition save_excluded (sessionId : Guid) (names : option (list string)) : Db unit :=
  match names with
  | None => throw NullReferenceException
  | Some names =>
      for_each names (fun excludedSheetName =>
        excludedSheet <- new_entity env (fun id _ =>
                           {| ex_Id := id; ex_SessionId := sessionId;
                              ex_SheetName := excludedSheetName;
                              ex_ExclusionReason := Some "Excluded by user pattern matching" |}) ;;
        Add (Add_ExcludedSheet excludedSheet))
  end.

(** The body of the inner [try] block. *)
Definition import_transaction (uploadData : ExcelUploadDto) (fileHash : string)
  : Db UploadResponseDto :=
  created <- new_entity env (fun id now => (id, now)) ;;
  excludedCount <- lift (excluded_count uploadData) ;;
  totalRows <- lift (total_rows uploadData) ;;
  let session := new_ImportSession uploadData fileHash (fst created) (snd created)
                   excludedCount totalRows in
  Add (Add_ImportSession session) ;;;
  SaveChangesAsync env ;;;
  save_excluded (s_Id session) (meta_ExcludedSheets (up_Metadata uploadData)) ;;;
  save_sheets (s_Id session) (up_Sheets uploadData) 0 ;;;
  Add (Update_ImportSession (with_completed session)) ;;;
  SaveChangesAsync env ;;;
  CommitAsync env ;;;
  ret (saved_response session).

Definition SaveExcelDataAsync (uploadData : ExcelUploadDto) : Db UploadResponseDto :=
  catch
    (let fileHash := CalculateFileHash lib uploadData in
     existingSession <- FirstOrDefaultAsync env ImportSessions (hash_matches fileHash) ;;
     match existingSession with
     | Some existingSession => ret (duplicate_response existingSession)
     | None =>
         BeginTransactionAsync env ;;;
         using_transaction
           (catch (import_transaction uploadData fileHash)
                  (fun e => RollbackAsync env ;;; throw e))
     end)
    (fun ex => throw ex).

(** *** Reads *)

Definition read_headers (text : string) : Exc (list string) :=
  let! parsed := DeserializeObject_ListString lib text in
  match parsed with
  | Some hs => mapM decapitalize hs
  | None => Ok []
  end.

Definition sheet_summary (s : Sheet) : Exc SheetSummaryDto :=
  let! headers := read_headers (sh_Headers s) in
  Ok {| ss_Id := sh_Id s; ss_SheetName := sh_SheetName s;
        ss_SheetIndex := sh_SheetIndex s; ss_RowCount := sh_RowCount s;
        ss_ColumnCount := sh_ColumnCount s; ss_Headers := headers |}.

Definition GetSessionDataAsync (db : Database) (sessionId : Guid) : Exc (option SessionDataDto) :=
  match find (fun s => s_Id s =? sessionId) (ImportSessions db) with
  | None => Ok None
  | Some session =>
      let sheets := filter (fun sh => sh_SessionId sh =? s_Id session) (Sheets db) in
      let excluded := filter (fun e => ex_SessionId e =? s_Id session) (ExcludedSheets db) in
      let! summaries :=
        mapM sheet_summary (OrderBy (fun a b => sh_SheetIndex a <=? sh_SheetIndex b) sheets) in
      Ok (Some {| sdd_Id := s_Id session; sdd_FileName := s_FileName session;
                  sdd_ImportedAt := s_ImportedAt session;
                  sdd_TotalSheets := s_TotalSheets session;
                  sdd_ProcessedSheets := s_ProcessedSheets session;
                  sdd_ExcludedSheets := s_ExcludedSheets session;
                  sdd_TotalRows := s_TotalRows session;
                  sdd_Status := s_Status session;
                  sdd_Sheets := summaries;
                  sdd_ExcludedSheetsList :=
                    map (fun es => {| ed_SheetName := ex_SheetName es;
                                      ed_ExclusionReason := ex_ExclusionReason es |}) excluded |})
  end.

Definition GetSheetDetailAsync (db : Database) (sheetId : Guid) : Exc (option SheetDetailDto) :=
  match find (fun sh => sh_Id sh =? sheetId) (Sheets db) with
  | None => Ok None
  | Some sheet =>
      let rows := filter (fun r => sd_SheetId r =? sh_Id sheet) (SheetDataRows db) in
      let! data :=
        mapM (fun sd => ConvertLegacyData lib (sd_RowData sd))
             (OrderBy (fun a b => sd_RowIndex a <=? sd_RowIndex b) rows) in
      let! headers := read_headers (sh_Headers sheet) in
      Ok (Some {| det_Id := sh_Id sheet; det_SheetName := sh_SheetName sheet;
                  det_SheetIndex := sh_SheetIndex sheet;
                  det_Headers := headers; det_Data := data |})
  end.

Definition session_list_item (s : ImportSession) : SessionListDto :=
  {| sl_Id := s_Id s; sl_FileName := s_FileName s; sl_ImportedAt := s_ImportedAt s;
     sl_TotalSheets := s_TotalSheets s; sl_ProcessedSheets := s_ProcessedSheets s;
     sl_TotalRows := s_TotalRows s; sl_Status := s_Status s |}.

Definition GetSessionsAsync (db : Database) (pageNumber pageSize : Z)
  : Exc (PagedResponseDto SessionListDto) :=
  let query := OrderBy (fun a b => s_ImportedAt b <=? s_ImportedAt a) (ImportSessions db) in
  let totalRecords := Count query in
  let totalPages := Ceiling_div totalRecords pageSize in
  let! sessions := SkipTake (wrap32 (wrap32 (pageNumber - 1) * pageSize)) pageSize query in
  Ok {| Data := map session_list_item sessions;
        CurrentPage := pageNumber;
        PageSize := pageSize;
        TotalRecords := totalRecords;
        TotalPages := totalPages;
        HasNextPage := pageNumber <? totalPages;
        HasPreviousPage := 1 <? pageNumber |}.

(** A row together with its sheet and session, as the two [Include]s join
    them. *)
Record JoinedRow : Type := {
  j_row : SheetData;
  j_sheet : Sheet;
  j_session : ImportSession
}.

Definition join_row (db : Database) (sd : SheetData) : option JoinedRow :=
  match find (fun sh => sh_Id sh =? sd_SheetId sd) (Sheets db) with
  | None => None
  | Some sh =>
      match find (fun s => s_Id s =? sh_SessionId sh) (ImportSessions db) with
      | None => None
      | Some s => Some {| j_row := sd; j_sheet := sh; j_session := s |}
      end
  end.

Fixpoint filter_map {A B} (f : A -> option B) (l : list A) : list B :=
  match l with
  | [] => []
  | x :: rest =>
      match f x with
      | Some y => y :: filter_map f rest
      | None => filter_map f rest
      end
  end.

(** ORDER BY ImportedAt DESC, SheetIndex, RowIndex *)
Definition search_leb (a b : JoinedRow) : bool :=
  let ta := s_ImportedAt (j_session a) in
  let tb := s_ImportedAt (j_session b) in
  if tb <? ta then true
  else if ta <? tb then false
  else
    let ia := sh_SheetIndex (j_sheet a) in
    let ib := sh_SheetIndex (j_sheet b) in
    if ia <? ib then true
    else if ib <? ia then false
    else sd_RowIndex (j_row a) <=? sd_RowIndex (j_row b).

Definition search_query (db : Database) (searchRequest : SearchRequestDto) : list JoinedRow :=
  let matching :=
    filter (fun j => sql_Contains lib (sd_RowData (j_row j)) (rq_SearchTerm searchRequest))
           (filter_map (join_row db) (SheetDataRows db)) in
  match rq_SessionId searchRequest with
  | Some id => filter (fun j => sh_SessionId (j_sheet j) =? id) matching
  | None => matching
  end.

(** The rows of the requested page, before projection. *)
Definition search_page (db : Database) (searchRequest : SearchRequestDto) : Exc (list JoinedRow) :=
  SkipTake (wrap32 (wrap32 (rq_PageNumber searchRequest - 1) * rq_PageSize searchRequest))
           (rq_PageSize searchRequest)
           (OrderBy search_leb (search_query db searchRequest)).

Definition search_result (j : JoinedRow) : Exc SearchResultDto :=
  let! rowData := ConvertLegacyData lib (sd_RowData (j_row j)) in
  Ok {| sr_SheetName := sh_SheetName (j_sheet j);
        sr_RowIndex := sd_RowIndex (j_row j);
        sr_RowData := rowData;
        sr_FileName := s_FileName (j_session j);
        sr_ImportedAt := s_ImportedAt (j_session j);
        sr_SessionId := sh_SessionId (j_sheet j) |}.

Definition SearchDataAsync (db : Database) (searchRequest : SearchRequestDto)
  : Exc (PagedResponseDto SearchResultDto) :=
  let query := search_query db searchRequest in
  let totalRecords := Count query in
  let totalPages := Ceiling_div totalRecords (rq_PageSize searchRequest) in
  let! rows := search_page db searchRequest in
  let! results := mapM search_result rows in
  Ok {| Data := results;
        CurrentPage := rq_PageNumber searchRequest;
        PageSize := rq_PageSize searchRequest;
        TotalRecords := totalRecords;
        TotalPages := totalPages;
        HasNextPage := rq_PageNumber searchRequest <? totalPages;
        HasPreviousPage := 1 <? rq_PageNumber searchRequest |}.

Definition DeleteSessionAsync (sessionId : Guid) : Db bool :=
  session <- FindAsync env sessionId ;;
  match session with
  | None => ret false
  | Some session =>
      Add (Remove_ImportSession (s_Id session)) ;;;
      SaveChangesAsync env ;;;
      ret true
  end.

End ExcelDataService.

(** ** A sample library

    A reader for RFC 8259 texts and the conversions the closed examples of
    this file use; the cases they do not exercise raise an exception.  No
    universally quantified statement depends on it. *)

Module Sample.

Definition is_ws (c : ascii) : bool :=
  let n := N_of_ascii c in ((n =? 32) || (n =? 9) || (n =? 10) || (n =? 13))%N.

Fixpoint skip_ws (s : string) : string :=
  match s with
  | String c rest => if is_ws c then skip_ws rest else s
  | EmptyString => s
  end.

Fixpoint strip_prefix (p s : string) : option string :=
  match p, s with
  | EmptyString, _ => Some s
  | String a p', String b s' => if Ascii.eqb a b then strip_prefix p' s' else None
  | _, EmptyString => None
  end.

Definition hex_value (c : ascii) : option N :=
  let n := N_of_ascii c in
  if ((48 <=? n) && (n <=? 57))%N then Some (n - 48)%N
  else if ((97 <=? n) && (n <=? 102))%N then Some (n - 87)%N
  else if ((65 <=? n) && (n <=? 70))%N then Some (n - 55)%N
  else None.

(** The text after an opening quote, up to the closing one. *)
Fixpoint read_string (s : string) : option (string * string) :=
  match s with
  | EmptyString => None
  | String c rest =>
      if Ascii.eqb c dquote then Some ("", rest)
      else if Ascii.eqb c backslash then
        match rest with
        | String e rest' =>
            let simple (ch : ascii) :=
              match read_string rest' with
              | Some (body, after) => Some (String ch body, after)
              | None => None
              end in
            if Ascii.eqb e dquote then simple dquote
            else if Ascii.eqb e backslash then simple backslash
            else if Ascii.eqb e "/" then simple "/"%char
            else if Ascii.eqb e "b" then simple "008"%char
            else if Ascii.eqb e "f" then simple "012"%char
            else if Ascii.eqb e "n" then simple "010"%char
            else if Ascii.eqb e "r" then simple "013"%char
            else if Ascii.eqb e "t" then simple "009"%char
            else if Ascii.eqb e "u" then
              match rest' with
              | String "0" (String "0" (String h (String l rest''))) =>
                  match hex_value h, hex_value l, read_string rest'' with
                  | Some hv, Some lv, Some (body, after) =>
                      Some (String (ascii_of_N (16 * hv + lv)) body, after)
                  | _, _, _ => None
                  end
              | _ => None
              end
            else None
        | EmptyString => None
        end
      else
        match read_string rest with
        | Some (body, after) => Some (String c body, after)
        | None => None
        end
  end.

Definition is_number_char (c : ascii) : bool :=
  let n := N_of_ascii c in
  (((48 <=? n) && (n <=? 57)) || (n =? 45) || (n =? 43) || (n =? 46) || (n =? 101) || (n =? 69))%N.

Fixpoint read_number (s : string) : string * string :=
  match s with
  | String c rest =>
      if is_number_char c then let (lit, after) := read_number rest in (String c lit, after)
      else ("", s)
  | EmptyString => ("", s)
  end.

Definition parse_integer (literal : string) : option Z :=
  match literal with
  | String "-" rest => option_map Z.opp (parse_unsigned rest)
  | _ => parse_unsigned literal
  end.

Fixpoint split_at_dot (s : string) : string * option string :=
  match s with
  | EmptyString => ("", None)
  | String c rest =>
      if Ascii.eqb c "." then ("", Some rest)
      else let (a, b) := split_at_dot rest in (String c a, b)
  end.

(** A literal [digits.digits] as the quotient of two exactly represented
    integers; anything else reads as zero. *)
Definition parse_double (literal : string) : float :=
  match split_at_dot literal with
  | (whole, None) =>
      match parse_integer whole with Some n => double_of_long n | None => 0%float end
  | (whole, Some frac) =>
      match parse_integer (whole ++ frac) with
      | Some n => PrimFloat.div (double_of_long n) (double_of_long (10 ^ Z.of_nat (String.length frac)))
      | None => 0%float
      end
  end.

Fixpoint parse_value (fuel : nat) (s : string) : option (JToken * string) :=
  match fuel with
  | O => None
  | S fuel' =>
      let s := skip_ws s in
      match s with
      | EmptyString => None
      | String c rest =>
          if Ascii.eqb c "{" then
            match skip_ws rest with
            | String "}" after => Some (JObject [], after)
            | rest' => parse_members fuel' rest' []
            end
          else if Ascii.eqb c "[" then
            match skip_ws rest with
            | String "]" after => Some (JArray [], after)
            | rest' => parse_elements fuel' rest' []
            end
          else if Ascii.eqb c dquote then
            match read_string rest with
            | Some (body, after) => Some (JString body, after)
            | None => None
            end
          else match strip_prefix "true" s, strip_prefix "false" s, strip_prefix "null" s with
               | Some after, _, _ => Some (JBoolean true, after)
               | _, Some after, _ => Some (JBoolean false, after)
               | _, _, Some after => Some (JNull, after)
               | None, None, None =>
                   let (lit, after) := read_number s in
                   match lit with
                   | EmptyString => None
                   | _ =>
                       match parse_integer lit with
                       | Some n => Some (JInteger n, after)
                       | None => Some (JFloat (parse_double lit), after)
                       end
                   end
               end
      end
  end
with parse_members (fuel : nat) (s : string) (acc : list (string * JToken))
  : option (JToken * string) :=
  match fuel with
  | O => None
  | S fuel' =>
      match skip_ws s with
      | String c rest =>
          if Ascii.eqb c dquote then
            match read_string rest with
            | Some (name, after) =>
                match skip_ws after with
                | String ":" after' =>
                    match parse_value fuel' after' with
                    | Some (v, after'') =>
                        let acc' := set_Item acc name v in
                        match skip_ws after'' with
                        | String "," more => parse_members fuel' more acc'
                        | String "}" done => Some (JObject acc', done)
                        | _ => None
                        end
                    | None => None
                    end
                | _ => None
                end
            | None => None
            end
          else None
      | EmptyString => None
      end
  end
with parse_elements (fuel : nat) (s : string) (acc : list JToken)
  : option (JToken * string) :=
  match fuel with
  | O => None
  | S fuel' =>
      match parse_value fuel' s with
      | Some (v, after) =>
          match skip_ws after with
          | String "," more => parse_elements fuel' more (acc ++ [v])%list
          | String "]" done => Some (JArray (acc ++ [v])%list, done)
          | _ => None
          end
      | None => None
      end
  end.

Definition parse_document (s : string) : option JToken :=
  match parse_value (S (String.length s)) s with
  | Some (v, after) =>
      match skip_ws after with
      | EmptyString => Some v
      | _ => None
      end
  | None => None
  end.

Definition parse_object (s : string) : Exc (list (string * JToken)) :=
  match parse_document s with
  | Some (JObject props) => Ok props
  | _ => Throws JsonReaderException
  end.

Definition read_string_list (s : string) : Exc (option (list (option string))) :=
  match parse_document s with
  | Some JNull => Ok None
  | Some (JArray items) =>
      let! l := mapM (fun t => match t with
                               | JString h => Ok (Some h)
                               | JNull => Ok None
                               | _ => Throws JsonReaderException
                               end) items in
      Ok (Some l)
  | _ => Throws JsonReaderException
  end.

Definition digit_char (d : Z) : ascii := ascii_of_N (48 + Z.to_N d).

(** The digits of [frac / 10^k] after the point, up to the last one that is
    not zero. *)
Fixpoint fraction_digits (k : nat) (frac : Z) : string :=
  match k with
  | O => "0"
  | S k' =>
      if frac =? 0 then "0"
      else
        let p := 10 ^ Z.of_nat k' in
        String (digit_char (frac / p))
               (if frac mod p =? 0 then "" else fraction_digits k' (frac mod p))
  end.

(** The exact decimal expansion of a [double], always with a fractional
    part.  This is the text [JsonConvert] writes for values of at most
    fifteen significant digits between 1E-5 and 1E15, the ones the examples
    use. *)
Definition double_to_json (d : float) : string :=
  match Prim2SF d with
  | S754_zero s => if s then "-0.0" else "0.0"
  | S754_infinity s => quoted (if s then "-Infinity" else "Infinity")
  | S754_nan => quoted "NaN"
  | S754_finite s m e =>
      let sign := if s then "-" else "" in
      if 0 <=? e then sign ++ Int64_ToString (Z.pos m * 2 ^ e) ++ ".0"
      else
        let n := Z.pos m * 5 ^ (- e) in
        let p := 10 ^ (- e) in
        sign ++ Int64_ToString (n / p) ++ "." ++ fraction_digits (Z.to_nat (- e)) (n mod p)
  end.

Definition contains (data term : string) : bool :=
  match String.index 0 term data with
  | Some _ => true
  | None => match term with EmptyString => true | _ => false end
  end.

Definition lib : Library :=
  {| JObject_Parse := parse_object;
     JToken_ToString := fun _ => "";
     ChangeType_string := fun _ => Throws InvalidCastException;
     ChangeType_double := fun _ => Throws InvalidCastException;
     ChangeType_int := fun _ => Throws InvalidCastException;
     Double_Parse := parse_double;
     Double_ToJson := double_to_json;
     DeserializeObject_ListString := read_string_list;
     sql_Contains := contains |}.

End Sample.

(** ** Vocabulary of the statements *)

(** The mapping a stored payload decodes to. *)
Definition decoded_row (lib : Library) (jsonString : string) : Dictionary object :=
  match JObject_Parse lib jsonString with
  | Ok jObject =>
      match convert_properties lib jObject [] with
      | Ok result => result
      | Throws _ => []
      end
  | Throws _ => []
  end.

(** The first character lower-cased, every other character unchanged. *)
Definition lower_first (h : string) : string :=
  match h with
  | EmptyString => EmptyString
  | String c rest => String (ToLower c) rest
  end.

(** The header strings stored in a sheet's [Headers] column. *)
Definition stored_headers (lib : Library) (text : string) (stored : list string) : Prop :=
  DeserializeObject_ListString lib text = Ok (Some (map Some stored)).

(** What a returned header list is, relative to the stored column text. *)
Definition headers_out (lib : Library) (text : string) (returned : list string) : Prop :=
  (DeserializeObject_ListString lib text = Ok None /\ returned = [])
  \/ exists stored, stored_headers lib text stored /\ returned = map lower_first stored.

(** ** Sample data for the closed examples

    The end-to-end scenario: sheet "Data" with headers Name and Amount and
    one row, and one excluded sheet "Summary". *)

Definition new_context (db : Database) : DbContext :=
  {| database := db; snapshot := None; tracked := []; ops := 0; entities := 0 |}.

Definition sample_env : Environment :=
  {| NewGuid := fun k => 100 + Z.of_nat k;
     UtcNow := fun k => 5000 + Z.of_nat k;
     ElapsedMilliseconds := 12;
     Elapsed := 13;
     BulkInsertBatchSize := 1000%positive;
     fault := fun _ => None |}.

Definition sample_sheet : SheetDataDto :=
  {| dto_SheetName := "Data";
     dto_Headers := [Some "Name"; Some "Amount"];
     dto_Data := [Some [("Name", O_JsonElement (JE_String "Acme"));
                        ("Amount", O_JsonElement (JE_Number "100"))]] |}.

Definition sample_upload : ExcelUploadDto :=
  {| up_FileName := "book.xlsx";
     up_ImportedBy := None;
     up_Metadata := {| meta_ExportedAt := 0; meta_ExcludedSheets := Some ["Summary"] |};
     up_Sheets := [("Data", Some sample_sheet)] |}.

Definition sample_db : Database :=
  Eval vm_compute in
    database (snd (SaveExcelDataAsync Sample.lib sample_env sample_upload
                     (new_context empty_Database))).

(** An upload whose second column has an empty header. *)
Definition blank_header_upload : ExcelUploadDto :=
  {| up_FileName := "blank.xlsx";
     up_ImportedBy := None;
     up_Metadata := {| meta_ExportedAt := 0; meta_ExcludedSheets := Some [] |};
     up_Sheets := [("Data", Some {| dto_SheetName := "Data";
                                    dto_Headers := [Some "Name"; Some ""];
                                    dto_Data := [] |})] |}.

Definition blank_header_db : Database :=
  Eval vm_compute in
    database (snd (SaveExcelDataAsync Sample.lib sample_env blank_header_upload
                     (new_context empty_Database))).

(** The page metadata of a response over [n] records, for page [p] of size
    [s]: [TotalPages] is the ceiling of [n / s]. *)
Definition page_metadata {T} (n p s : Z) (response : PagedResponseDto T) : Prop :=
  CurrentPage response = p
  /\ PageSize response = s
  /\ TotalRecords response = n
  /\ (TotalPages response - 1) * s < n <= TotalPages response * s
  /\ HasNextPage response = (p <? TotalPages response)
  /\ HasPreviousPage response = (1 <? p).

(** A database holding 105 sessions and nothing else. *)
Definition db_105 : Database :=
  {| ImportSessions :=
       map (fun k => {| s_Id := Z.of_nat k; s_FileName := "f"; s_FileHash := None;
                        s_TotalSheets := 0; s_ProcessedSheets := 0; s_ExcludedSheets := 0;
                        s_TotalRows := 0; s_ImportedAt := Z.of_nat k; s_ImportedBy := None;
                        s_Status := "Completed"; s_ProcessingTimeMs := None |})
           (seq 0 105);
     Sheets := []; SheetDataRows := []; ExcludedSheets := [] |}.

(** Two dictionaries read as mappings: keys are unique and every key looks
    up related values. *)
Definition same_mapping {V} (R : V -> V -> Prop) (d1 d2 : Dictionary V) : Prop :=
  NoDup (Keys d1) /\ NoDup (Keys d2)
  /\ forall key,
       match TryGetValue d1 key, TryGetValue d2 key with
       | Some a, Some b => R a b
       | None, None => True
       | _, _ => False
       end.

(** Both absent, or both present and related. *)
Definition same_nullable {V} (R : V -> V -> Prop) (a b : option V) : Prop :=
  match a, b with
  | Some x, Some y => R x y
  | None, None => True
  | _, _ => False
  end.

Definition same_sheet (s1 s2 : SheetDataDto) : Prop :=
  dto_SheetName s1 = dto_SheetName s2
  /\ dto_Headers s1 = dto_Headers s2
  /\ Forall2 (same_nullable (same_mapping eq)) (dto_Data s1) (dto_Data s2).

(** Same sheets, same per-sheet headers and rows, whatever the insertion
    order of sheets and of the fields of a row. *)
Definition same_sheets (d1 d2 : Dictionary (option SheetDataDto)) : Prop :=
  same_mapping (same_nullable same_sheet) d1 d2.

(** The sheets, and the fields of corresponding rows, were inserted in the
    same order. *)
Definition same_insertion_order (d1 d2 : Dictionary (option SheetDataDto)) : Prop :=
  Keys d1 = Keys d2
  /\ forall key a b,
       TryGetValue d1 key = Some (Some a) -> TryGetValue d2 key = Some (Some b) ->
       Forall2 (same_nullable (fun r1 r2 => Keys r1 = Keys r2)) (dto_Data a) (dto_Data b).

(** Two uploads with the same two sheets, inserted in opposite orders. *)
Definition sheet_A : SheetDataDto :=
  {| dto_SheetName := "A"; dto_Headers := [Some "Name"];
     dto_Data := [Some [("Name", O_JsonElement (JE_String "x"))]] |}.
Definition sheet_B : SheetDataDto :=
  {| dto_SheetName := "B"; dto_Headers := [Some "Qty"];
     dto_Data := [Some [("Qty", O_JsonElement (JE_Number "1"))]] |}.

Definition upload_AB : ExcelUploadDto :=
  {| up_FileName := "ab.xlsx"; up_ImportedBy := None;
     up_Metadata := {| meta_ExportedAt := 0; meta_ExcludedSheets := Some [] |};
     up_Sheets := [("A", Some sheet_A); ("B", Some sheet_B)] |}.

Definition upload_BA : ExcelUploadDto :=
  {| up_FileName := "ab.xlsx"; up_ImportedBy := None;
     up_Metadata := {| meta_ExportedAt := 0; meta_ExcludedSheets := Some [] |};
     up_Sheets := [("B", Some sheet_B); ("A", Some sheet_A)] |}.

(** ** Specifications of units of work

    [triple P m Q R]: from a context satisfying [P], [m] ends normally in a
    context satisfying [Q] or raises [e] in a context satisfying [R e]. *)
Definition triple {A} (P : DbContext -> Prop) (m : Db A)
  (Q : A -> DbContext -> Prop) (R : Exception -> DbContext -> Prop) : Prop :=
  forall ctx, P ctx ->
    match m ctx with
    | (Ok a, ctx') => Q a ctx'
    | (Throws e, ctx') => R e ctx'
    end.

(** No database call numbered in [from, to) fails. *)
Definition clean (env : Environment) (from to : nat) : Prop :=
  forall j, (from <= j < to)%nat -> fault env j = None.

(** [e] is what the first failing database call from [from] on raises. *)
Definition first_fault (env : Environment) (from : nat) (e : Exception) : Prop :=
  exists k, (from <= k)%nat /\ clean env from k /\ fault env k = Some e.

(** A row as the import writer builds it. *)
Definition written_row (lib : Library) (r : SheetData) : Prop :=
  exists row, sd_RowData r = Serialize_row lib (ConvertJsonElementsToValues lib row).

(** The changes made between the first and the last save of an import. *)
Definition child_change (lib : Library) (c : Change) : Prop :=
  match c with
  | Add_Sheet _ | Add_ExcludedSheet _ => True
  | Add_SheetData r => written_row lib r
  | _ => False
  end.

(** A context with no transaction open and nothing tracked, as a request
    scope starts with. *)
Definition idle (ctx : DbContext) : Prop :=
  snapshot ctx = None /\ tracked ctx = [].

(** A sheet that is [null] or holds a [null] row. *)
Definition null_in_sheet (sheetData : option SheetDataDto) : Prop :=
  match sheetData with
  | None => True
  | Some s => In None (dto_Data s)
  end.

Definition null_in_sheets (sheets : list (string * option SheetDataDto)) : Prop :=
  exists kv, In kv sheets /\ null_in_sheet (snd kv).

(** The state of an import between its first and its last save: the
    transaction was opened on [db0], the session table is [sessions], and no
    database call failed since call number [ops0]. *)
Definition in_transaction (lib : Library) (env : Environment) (db0 : Database)
  (sessions : list ImportSession) (ops0 : nat) (ctx : DbContext) : Prop :=
  snapshot ctx = Some db0
  /\ ImportSessions (database ctx) = sessions
  /\ Forall (child_change lib) (tracked ctx)
  /\ Forall (fun r => In r (SheetDataRows db0) \/ written_row lib r)
            (SheetDataRows (database ctx))
  /\ (ops0 <= ops ctx)%nat
  /\ clean env ops0 (ops ctx).

(** The state in which a step of an import fails: the transaction is still
    open; a database call failed, or a [null] was dereferenced, which
    happens only when [nulls] holds of the input. *)
Definition failed (nulls : Prop) (env : Environment) (db0 : Database) (ops0 : nat)
  (e : Exception) (ctx : DbContext) : Prop :=
  snapshot ctx = Some db0
  /\ (first_fault env ops0 e \/ (e = NullReferenceException /\ nulls)).

(** The state an import commits: the new session, completed, joined the
    session table of [db0]; every row is a row of [db0] or a written row. *)
Definition imported (lib : Library) (env : Environment) (db0 : Database)
  (session : ImportSession) (ctx : DbContext) : Prop :=
  snapshot ctx = None
  /\ tracked ctx = []
  /\ ImportSessions (database ctx)
     = replace_session (with_completed env session) (ImportSessions db0 ++ [session])%list
  /\ Forall (fun r => In r (SheetDataRows db0) \/ written_row lib r)
            (SheetDataRows (database ctx)).

(** Why the body of an import fails: a database call failed; the list of
    excluded sheets was [null]; the sum of the row counts met a [null] sheet
    or overflowed; a [null] row or sheet was dereferenced. *)
Definition import_error (env : Environment) (uploadData : ExcelUploadDto) (ops0 : nat)
  (e : Exception) : Prop :=
  first_fault env ops0 e
  \/ excluded_count uploadData = Throws e
  \/ total_rows uploadData = Throws e
  \/ (e = NullReferenceException /\ null_in_sheets (up_Sheets uploadData)).

(** What the caller receives when the import failed with [original] and the
    rollback was database call number [k]: the original exception when the
    rollback succeeded, the exception of the rollback when it failed. *)
Definition after_rollback (env : Environment) (k : nat) (original e : Exception) : Prop :=
  match fault env k with
  | None => e = original
  | Some raised => e = raised
  end.

(** How many sessions carry the fingerprint [fileHash]. *)
Definition option_string_dec (a b : option string) : {a = b} + {a <> b}.
Proof. decide equality. apply string_dec. Defined.

Definition fingerprint_count (fileHash : string) (db : Database) : nat :=
  count_occ option_string_dec (map s_FileHash (ImportSessions db)) (Some fileHash).

(** An upload of five one-row sheets; an environment whose eighth database
    call (the save of the third sheet) fails; and one in which the rollback
    that follows fails as well. *)
Definition one_row_sheet (name : string) : string * option SheetDataDto :=
  (name, Some {| dto_SheetName := name; dto_Headers := [Some "Name"];
                 dto_Data := [Some [("Name", O_JsonElement (JE_String name))]] |}).

Definition five_sheet_upload : ExcelUploadDto :=
  {| up_FileName := "five.xlsx"; up_ImportedBy := None;
     up_Metadata := {| meta_ExportedAt := 0; meta_ExcludedSheets := Some ["Notes"] |};
     up_Sheets := map one_row_sheet ["S1"; "S2"; "S3"; "S4"; "S5"] |}.

Definition failing_env : Environment :=
  {| NewGuid := fun k => 100 + Z.of_nat k;
     UtcNow := fun k => 5000 + Z.of_nat k;
     ElapsedMilliseconds := 12;
     Elapsed := 13;
     BulkInsertBatchSize := 1000%positive;
     fault := fun k => if (k =? 7)%nat then Some (DbException 1205) else None |}.


(** An upload with a [null] row after a good one. *)
Definition null_row_upload : ExcelUploadDto :=
  {| up_FileName := "null.xlsx"; up_ImportedBy := None;
     up_Metadata := {| meta_ExportedAt := 0; meta_ExcludedSheets := Some [] |};
     up_Sheets := [("Data", Some {| dto_SheetName := "Data"; dto_Headers := [Some "Name"];
                                    dto_Data := [Some [("Name", O_string "a")]; None] |})] |}.

(** A value as it is stored in a row payload: a string, a number or a
    boolean, never [null] and never a [JsonElement]. *)
Definition stored_value (v : object) : Prop :=
  match v with
  | O_null | O_JsonElement _ => False
  | _ => True
  end.

(** The text of a JSON object with the given member names and value
    texts. *)
Definition object_text (members : list (string * string)) : string :=
  "{" ++ concat_with "," (map (fun m => Serialize_string (fst m) ++ ":" ++ snd m) members)
      ++ "}".

(** The text of a JSON string, number or boolean. *)
Definition scalar_text (lib : Library) (t : string) : Prop :=
  (exists s, t = Serialize_string s)
  \/ (exists n, t = Int64_ToString n)
  \/ (exists d, t = Double_ToJson lib d)
  \/ t = "true" \/ t = "false".

(** A payload that is a JSON object none of whose members is [null]. *)
Definition payload_without_null (lib : Library) (text : string) : Prop :=
  exists members,
    text = object_text members
    /\ Forall (fun m => scalar_text lib (snd m) /\ snd m <> "null") members.

(** The sort key of a search row: imported-at, sheet index, row index. *)
Definition search_key (j : JoinedRow) : Z * Z * Z :=
  (s_ImportedAt (j_session j), sh_SheetIndex (j_sheet j), sd_RowIndex (j_row j)).

(** [k1] may stand before [k2]: later import first, then smaller sheet
    index, then smaller row index. *)
Definition key_before (k1 k2 : Z * Z * Z) : Prop :=
  let '(t1, i1, r1) := k1 in
  let '(t2, i2, r2) := k2 in
  t2 < t1 \/ (t1 = t2 /\ (i1 < i2 \/ (i1 = i2 /\ r1 <= r2))).

Definition row_before (a b : JoinedRow) : Prop :=
  key_before (search_key a) (search_key b).

(** The same records, stored in another order. *)
Definition same_records (db1 db2 : Database) : Prop :=
  Permutation (ImportSessions db1) (ImportSessions db2)
  /\ Permutation (Sheets db1) (Sheets db2)
  /\ Permutation (SheetDataRows db1) (SheetDataRows db2).

(** Primary keys are unique. *)
Definition unique_ids (db : Database) : Prop :=
  NoDup (map s_Id (ImportSessions db)) /\ NoDup (map sh_Id (Sheets db)).

(** Two sessions imported at different times, their rows stored newest
    last and in reverse row order. *)
Definition two_session_db : Database :=
  let session id t :=
    {| s_Id := id; s_FileName := "f"; s_FileHash := None; s_TotalSheets := 1;
       s_ProcessedSheets := 1; s_ExcludedSheets := 0; s_TotalRows := 2;
       s_ImportedAt := t; s_ImportedBy := None; s_Status := "Completed";
       s_ProcessingTimeMs := None |} in
  let sheet id sid :=
    {| sh_Id := id; sh_SessionId := sid; sh_SheetName := "Data"; sh_SheetIndex := 0;
       sh_RowCount := 2; sh_ColumnCount := 1; sh_Headers := "[]"; sh_CreatedAt := 0 |} in
  let row id shid i :=
    {| sd_Id := id; sd_SheetId := shid; sd_RowIndex := i; sd_RowData := "{}";
       sd_CreatedAt := 0 |} in
  {| ImportSessions := [session 1 1000; session 2 2000];
     Sheets := [sheet 10 1; sheet 20 2];
     SheetDataRows := [row 101 10 1; row 100 10 0; row 201 20 1; row 200 20 0];
     ExcludedSheets := [] |}.

(** ** What a successful import writes

    The records of an import as pure functions of the upload, of the
    identifier and clock supplies, and of the number [e] of entities
    constructed before.  An import succeeds only when no sheet and no row is
    [null] and the list of excluded sheets is there; [present] is then the
    list itself. *)

Fixpoint present {A} (l : list (option A)) : list A :=
  match l with
  | [] => []
  | Some x :: rest => x :: present rest
  | None :: rest => present rest
  end.

Definition all_present {A} (l : list (option A)) : Prop :=
  Forall (fun x => x <> None) l.

(** No [null] where the import dereferences one. *)
Definition no_null (uploadData : ExcelUploadDto) : Prop :=
  meta_ExcludedSheets (up_Metadata uploadData) <> None
  /\ all_present (Values (up_Sheets uploadData))
  /\ Forall (fun s => all_present (dto_Data s)) (present (Values (up_Sheets uploadData))).

Definition uploaded_sheets (uploadData : ExcelUploadDto) : list SheetDataDto :=
  present (Values (up_Sheets uploadData)).

Definition excluded_names (uploadData : ExcelUploadDto) : list string :=
  match meta_ExcludedSheets (up_Metadata uploadData) with
  | Some names => names
  | None => []
  end.

Fixpoint rows_of (lib : Library) (env : Environment) (sheetId : Guid) (e i : nat)
  (rows : list (Dictionary object)) : list SheetData :=
  match rows with
  | [] => []
  | row :: rest =>
      {| sd_Id := NewGuid env e; sd_SheetId := sheetId;
         sd_RowIndex := Z.of_nat i;
         sd_RowData := Serialize_row lib (ConvertJsonElementsToValues lib row);
         sd_CreatedAt := UtcNow env e |}
      :: rows_of lib env sheetId (S e) (S i) rest
  end.

Definition sheet_of (env : Environment) (sessionId : Guid) (sheetData : SheetDataDto)
  (sheetIndex : Z) (e : nat) : Sheet :=
  {| sh_Id := NewGuid env e; sh_SessionId := sessionId;
     sh_SheetName := dto_SheetName sheetData;
     sh_SheetIndex := sheetIndex;
     sh_RowCount := Count (dto_Data sheetData);
     sh_ColumnCount := Count (dto_Headers sheetData);
     sh_Headers := Serialize_headers (dto_Headers sheetData);
     sh_CreatedAt := UtcNow env e |}.

Definition sheet_changes (lib : Library) (env : Environment) (sessionId : Guid)
  (sheetData : SheetDataDto) (sheetIndex : Z) (e : nat) : list Change :=
  Add_Sheet (sheet_of env sessionId sheetData sheetIndex e)
  :: map Add_SheetData
       (rows_of lib env (NewGuid env e) (S e) 0 (present (dto_Data sheetData))).

Fixpoint sheets_changes (lib : Library) (env : Environment) (sessionId : Guid)
  (sheets : list SheetDataDto) (sheetIndex : Z) (e : nat) : list Change :=
  match sheets with
  | [] => []
  | s :: rest =>
      (sheet_changes lib env sessionId s sheetIndex e
       ++ sheets_changes lib env sessionId rest (sheetIndex + 1)
            (S e + List.length (dto_Data s)))%list
  end.

Fixpoint excluded_of (env : Environment) (sessionId : Guid) (names : list string) (e : nat)
  : list ExcludedSheet :=
  match names with
  | [] => []
  | name :: rest =>
      {| ex_Id := NewGuid env e; ex_SessionId := sessionId; ex_SheetName := name;
         ex_ExclusionReason := Some "Excluded by user pattern matching" |}
      :: excluded_of env sessionId rest (S e)
  end.

(** The session record an import of [uploadData] creates when it draws the
    identifier and time number [e0]. *)
Definition session_of (env : Environment) (uploadData : ExcelUploadDto)
  (fileHash : string) (e0 : nat) (totalRows : Z) : ImportSession :=
  new_ImportSession uploadData fileHash (NewGuid env e0) (UtcNow env e0)
    (Count (excluded_names uploadData)) totalRows.

Definition import_changes (lib : Library) (env : Environment) (uploadData : ExcelUploadDto)
  (fileHash : string) (e0 : nat) (totalRows : Z) : list Change :=
  let session := session_of env uploadData fileHash e0 totalRows in
  let names := excluded_names uploadData in
  (Add_ImportSession session
   :: map Add_ExcludedSheet (excluded_of env (s_Id session) names (S e0))
   ++ sheets_changes lib env (s_Id session) (uploaded_sheets uploadData) 0
        (S e0 + List.length names)
   ++ [Update_ImportSession (with_completed env session)])%list.

(** The number of batches the loop of [SaveSheetDataAsync] saves for [n]
    rows. *)
Fixpoint batch_count (fuel batchSize n : nat) : nat :=
  match fuel with
  | O => O
  | S fuel' => if (n =? 0)%nat then O else S (batch_count fuel' batchSize (n - batchSize))
  end.

Definition sheet_calls (env : Environment) (sheetData : SheetDataDto) : nat :=
  S (batch_count (List.length (dto_Data sheetData))
                 (Pos.to_nat (BulkInsertBatchSize env))
                 (List.length (dto_Data sheetData))).

(** The database as the next save will leave it. *)
Definition effective (ctx : DbContext) : Database :=
  fold_left apply_change (tracked ctx) (database ctx).

(** The progress of an import: pending and saved changes amount to [eff],
    [e] entities were constructed, [o] database calls made, none of which
    failed since call [o0]. *)
Definition at_state (env : Environment) (o0 : nat) (snap : option Database)
  (eff : Database) (e o : nat) (ctx : DbContext) : Prop :=
  effective ctx = eff /\ entities ctx = e /\ ops ctx = o /\ snapshot ctx = snap
  /\ (o0 <= o)%nat /\ clean env o0 o.

(** The entities an import constructs for its sheets: one per sheet and one
    per row. *)
Definition sheets_entities (sheets : list SheetDataDto) : nat :=
  fold_right (fun s acc => (S (List.length (dto_Data s)) + acc)%nat) 0%nat sheets.

Definition sheets_calls (env : Environment) (sheets : list SheetDataDto) : nat :=
  fold_right (fun s acc => (sheet_calls env s + acc)%nat) 0%nat sheets.

(** The database calls of a successful import: the duplicate lookup, begin,
    the save of the session, the sheets and their batches, the final save,
    commit. *)
Definition import_calls (env : Environment) (uploadData : ExcelUploadDto) : nat :=
  (3 + sheets_calls env (uploaded_sheets uploadData) + 2)%nat.

(** The sheet record and the row records an import writes for each sheet of
    the upload, in upload order. *)
Fixpoint import_records (lib : Library) (env : Environment) (sessionId : Guid)
  (sheets : list SheetDataDto) (sheetIndex : Z) (e : nat)
  : list (Sheet * list SheetData) :=
  match sheets with
  | [] => []
  | s :: rest =>
      (sheet_of env sessionId s sheetIndex e,
       rows_of lib env (NewGuid env e) (S e) 0 (present (dto_Data s)))
      :: import_records lib env sessionId rest (sheetIndex + 1)
           (S e + List.length (dto_Data s))
  end.

(** The records a list of changes adds to each table. *)
Definition added_sheets (changes : list Change) : list Sheet :=
  flat_map (fun c => match c with Add_Sheet s => [s] | _ => [] end) changes.
Definition added_rows (changes : list Change) : list SheetData :=
  flat_map (fun c => match c with Add_SheetData r => [r] | _ => [] end) changes.
Definition added_excluded (changes : list Change) : list ExcludedSheet :=
  flat_map (fun c => match c with Add_ExcludedSheet x => [x] | _ => [] end) changes.

Definition is_add_child (c : Change) : bool :=
  match c with
  | Add_Sheet _ | Add_SheetData _ | Add_ExcludedSheet _ => true
  | _ => false
  end.

(** What the stored record of one uploaded row must be. *)
Definition row_written (lib : Library) (sheetId : Guid)
  (row : option (Dictionary object)) (r : SheetData) : Prop :=
  exists fields,
    row = Some fields
    /\ sd_SheetId r = sheetId
    /\ sd_RowData r = Serialize_row lib (ConvertJsonElementsToValues lib fields).

(** What the stored record of one uploaded sheet and its rows must be. *)
Definition sheet_written (lib : Library) (sessionId : Guid)
  (uploaded : option SheetDataDto) (rec : Sheet * list SheetData) : Prop :=
  let sheet := fst rec in
  let rows := snd rec in
  exists sheetData,
    uploaded = Some sheetData
    /\ sh_SessionId sheet = sessionId
    /\ sh_SheetName sheet = dto_SheetName sheetData
    /\ sh_RowCount sheet = Count (dto_Data sheetData)
    /\ sh_ColumnCount sheet = Count (dto_Headers sheetData)
    /\ sh_Headers sheet = Serialize_headers (dto_Headers sheetData)
    /\ Forall2 (row_written lib (sh_Id sheet)) (dto_Data sheetData) rows
    /\ map sd_RowIndex rows = map Z.of_nat (seq 0 (List.length (dto_Data sheetData))).

(** ** Vocabulary of the further properties *)

(** Two environments that hand out the same identifiers and times. *)
Definition same_supplies (env1 env2 : Environment) : Prop :=
  (forall k, NewGuid env1 k = NewGuid env2 k)
  /\ (forall k, UtcNow env1 k = UtcNow env2 k)
  /\ ElapsedMilliseconds env1 = ElapsedMilliseconds env2.

Definition with_batch_size (env : Environment) (batchSize : positive) : Environment :=
  {| NewGuid := NewGuid env; UtcNow := UtcNow env;
     ElapsedMilliseconds := ElapsedMilliseconds env; Elapsed := Elapsed env;
     BulkInsertBatchSize := batchSize; fault := fault env |}.

(** The database calls of an import, counted from the sizes: the duplicate
    lookup, begin, the session, per sheet one save and one more per batch,
    the final save, commit. *)
Definition round_trips (batchSize : nat) (sheets : list SheetDataDto) : nat :=
  (5 + fold_right
         (fun s acc =>
            (1 + (List.length (dto_Data s) + batchSize - 1) / batchSize + acc)%nat)
         0%nat sheets)%nat.

(** [g] occurs nowhere in [db] as a session id, a sheet id or a reference to
    one. *)
Definition unused_id (db : Database) (g : Guid) : Prop :=
  ~ In g (map s_Id (ImportSessions db))
  /\ ~ In g (map sh_SessionId (Sheets db))
  /\ ~ In g (map sd_SheetId (SheetDataRows db))
  /\ ~ In g (map ex_SessionId (ExcludedSheets db)).


Definition row_of_session (db : Database) (sessionId : Guid) (r : SheetData) : Prop :=
  exists sh, In sh (Sheets db) /\ sh_SessionId sh = sessionId /\ sh_Id sh = sd_SheetId r.

Definition two_sheet_upload : ExcelUploadDto :=
  {| up_FileName := "two.xlsx"; up_ImportedBy := Some "ops";
     up_Metadata := {| meta_ExportedAt := 0;
                       meta_ExcludedSheets := Some ["Notes"; "Draft"] |};
     up_Sheets :=
       [("Orders",
         Some {| dto_SheetName := "Orders"; dto_Headers := [Some "Item"; Some "Qty"];
                 dto_Data := [Some [("Item", O_JsonElement (JE_String "bolt"));
                                    ("Qty", O_JsonElement (JE_Number "3"))];
                              Some [("Item", O_JsonElement (JE_String "nut"));
                                    ("Qty", O_JsonElement (JE_Number "4"))];
                              Some [("Item", O_JsonElement (JE_String "gear"));
                                    ("Qty", O_JsonElement JE_Null)]] |});
        ("Stock",
         Some {| dto_SheetName := "Stock"; dto_Headers := [Some "Item"];
                 dto_Data := [Some [("Item", O_string "bolt")];
                              Some [("Item", O_null)]] |})] |}.

(** An environment whose identifiers do not occur in [sample_db]. *)
Definition later_env : Environment :=
  {| NewGuid := fun k => 200 + Z.of_nat k;
     UtcNow := fun k => 6000 + Z.of_nat k;
     ElapsedMilliseconds := 7;
     Elapsed := 8;
     BulkInsertBatchSize := 2%positive;
     fault := fun _ => None |}.

(** The context once one more database call has been made that left the
    database as it was. *)
Definition after_call (ctx : DbContext) : DbContext :=
  {| database := database ctx; snapshot := snapshot ctx; tracked := tracked ctx;
     ops := S (ops ctx); entities := entities ctx |}.

(** Whether the character [c] occurs in [s]. *)
Fixpoint has_char (c : ascii) (s : string) : bool :=
  match s with
  | EmptyString => false
  | String a rest => Ascii.eqb a c || has_char c rest
  end.

(** * Properties *)

(** ** The digest on the standard test vectors *)

Example sha256_abc :
  ToHexString (SHA256.ComputeHash (UTF8_GetBytes "abc"))
  = "BA7816BF8F01CFEA414140DE5DAE2223B00361A396177A9CB410FF61F20015AD".
Proof. vm_compute. reflexivity. Qed.

Example sha256_empty :
  ToHexString (SHA256.ComputeHash (UTF8_GetBytes ""))
  = "E3B0C44298FC1C149AFBF4C8996FB92427AE41E4649B934CA495991B7852B855".
Proof. vm_compute. reflexivity. Qed.

(** ** Row codec: legacy tagged values *)

Lemma Item_JObject props key : Item (JObject props) key = TryGetValue props key.
Proof. reflexivity. Qed.

(** A tagged value whose discriminator is the integer [k]. *)
Lemma ConvertLegacyValue_tagged lib props k :
  TryGetValue props "ValueKind" = Some (JInteger k) ->
  in_Int32 k = true ->
  ConvertLegacyValue lib (JObject props) =
  match k with
  | 3 =>
      let! stringValue :=
        match TryGetValue props "Value" with
        | Some v => Value_string lib v
        | None => Ok None
        end in
      if negb (IsNullOrEmpty stringValue)
      then Ok (O_string (match stringValue with Some s => s | None => "" end))
      else Ok (O_string "N/A")
  | 4 =>
      match TryGetValue props "Value" with
      | Some v => let! d := Value_double lib v in Ok (O_double d)
      | None => Ok (O_double 0%float)
      end
  | 5 => Ok (O_bool true)
  | 6 => Ok (O_bool false)
  | _ => Ok (O_string "N/A")
  end.
Proof.
  intros Hk Hr. unfold ConvertLegacyValue. cbn [Type_]. rewrite Item_JObject, Hk.
  cbn [Value_int exc_bind]. rewrite Hr. cbn [exc_bind].
  rewrite !Item_JObject.
  destruct k as [|p|p]; try reflexivity.
  destruct p as [[[?|?|]|[?|?|]|]|[[?|?|]|[?|?|]|]|]; reflexivity.
Qed.

(** C4 (as the code has it).  For a tagged value with an integer
    discriminator: String with a non-empty raw string decodes to that string;
    String with no raw value, a null raw value or an empty raw string decodes
    to "N/A"; Null and Undefined decode to "N/A"; Number decodes to the raw
    number as a double and to 0 when absent; True and False decode to the
    booleans; every other discriminator decodes to "N/A".  A plain string,
    integer, float, boolean or null decodes as itself. *)
Theorem C4_legacy_decode lib props k :
  TryGetValue props "ValueKind" = Some (JInteger k) ->
  in_Int32 k = true ->
  let decoded := ConvertLegacyValue lib (JObject props) in
  (k = 3 -> forall s, TryGetValue props "Value" = Some (JString s) -> s <> "" ->
            decoded = Ok (O_string s))
  /\ (k = 3 -> (TryGetValue props "Value" = None
                \/ TryGetValue props "Value" = Some JNull
                \/ TryGetValue props "Value" = Some (JString "")) ->
      decoded = Ok (O_string "N/A"))
  /\ (k = 7 \/ k = 0 -> decoded = Ok (O_string "N/A"))
  /\ (k = 4 -> (forall d, TryGetValue props "Value" = Some (JFloat d) ->
                          decoded = Ok (O_double d))
               /\ (forall n, TryGetValue props "Value" = Some (JInteger n) ->
                             in_Int64 n = true ->
                             decoded = Ok (O_double (double_of_long n)))
               /\ (TryGetValue props "Value" = None -> decoded = Ok (O_double 0%float)))
  /\ (k = 5 -> decoded = Ok (O_bool true))
  /\ (k = 6 -> decoded = Ok (O_bool false))
  /\ (k <> 3 -> k <> 4 -> k <> 5 -> k <> 6 -> decoded = Ok (O_string "N/A"))
  /\ (forall s, ConvertLegacyValue lib (JString s) = Ok (O_string s))
  /\ (forall n, in_Int64 n = true -> ConvertLegacyValue lib (JInteger n) = Ok (O_long n))
  /\ (forall d, ConvertLegacyValue lib (JFloat d) = Ok (O_double d))
  /\ (forall b, ConvertLegacyValue lib (JBoolean b) = Ok (O_bool b))
  /\ ConvertLegacyValue lib JNull = Ok O_null.
Proof.
  intros Hk Hr decoded. subst decoded.
  rewrite (ConvertLegacyValue_tagged lib props k Hk Hr).
  repeat split.
  - intros -> s Hv Hs. rewrite Hv. cbn. destruct s; [congruence | reflexivity].
  - intros -> [Hv | [Hv | Hv]]; rewrite Hv; reflexivity.
  - intros [-> | ->]; reflexivity.
  - intros d Hv. subst k. rewrite Hv. reflexivity.
  - intros n Hv Hn. subst k. rewrite Hv. cbn. rewrite Hn. reflexivity.
  - intros Hv. subst k. rewrite Hv. reflexivity.
  - intros ->. reflexivity.
  - intros ->. reflexivity.
  - intros H3 H4 H5 H6.
    destruct k as [|p|p]; try reflexivity.
    destruct p as [[[?|?|]|[?|?|]|]|[[?|?|]|[?|?|]|]|]; try reflexivity; congruence.
  - intros n Hn. cbn. rewrite Hn. reflexivity.
Qed.

Lemma C4_legacy_decode_witness :
  ConvertLegacyValue Sample.lib (JObject [("ValueKind", JInteger 4); ("Value", JFloat 12.5%float)])
  = Ok (O_double 12.5%float).
Proof.
  pose proof (C4_legacy_decode Sample.lib
                [("ValueKind", JInteger 4); ("Value", JFloat 12.5%float)] 4
                eq_refl eq_refl) as H.
  cbv zeta in H.
  destruct H as (_ & _ & _ & H4 & _).
  destruct (H4 eq_refl) as (Hd & _).
  exact (Hd 12.5%float eq_refl).
Defined.

(** A String discriminator whose raw value is present and empty does not
    decode to that (empty) string. *)
Lemma C4_counterexample :
  let token := JObject [("ValueKind", JInteger 3); ("Value", JString "")] in
  Item token "Value" = Some (JString "")
  /\ ConvertLegacyValue Sample.lib token = Ok (O_string "N/A")
  /\ ConvertLegacyValue Sample.lib token <> Ok (O_string "").
Proof.
  cbv zeta. split; [reflexivity | split; [reflexivity | discriminate]].
Qed.

(** ** Helper facts on [mapM] and [OrderBy] *)

Lemma mapM_total {A B} (f : A -> Exc B) (g : A -> B) (l : list A) :
  (forall x, In x l -> f x = Ok (g x)) -> mapM f l = Ok (map g l).
Proof.
  induction l as [|x l IH]; intros H; [reflexivity|].
  cbn. rewrite (H x (or_introl eq_refl)). cbn.
  rewrite IH by (intros y Hy; apply H; right; exact Hy). reflexivity.
Qed.

Lemma mapM_Ok_Forall2 {A B} (f : A -> Exc B) (l : list A) (r : list B) :
  mapM f l = Ok r -> Forall2 (fun x y => f x = Ok y) l r.
Proof.
  revert r. induction l as [|x l IH]; intros r H; cbn in H.
  - injection H as <-. constructor.
  - destruct (f x) as [y|e] eqn:Hx; cbn in H; [|discriminate].
    destruct (mapM f l) as [ys|e] eqn:Hl; cbn in H; [|discriminate].
    injection H as <-. constructor; [exact Hx | apply IH; reflexivity].
Qed.

Lemma mapM_Throws_In {A B} (f : A -> Exc B) (l : list A) (x : A) (e : Exception) :
  In x l -> f x = Throws e -> exists e', mapM f l = Throws e'.
Proof.
  induction l as [|y l IH]; intros Hin Hx; [contradiction|].
  cbn. destruct Hin as [-> | Hin].
  - rewrite Hx. eexists; reflexivity.
  - destruct (f y); cbn; [|eexists; reflexivity].
    destruct (IH Hin Hx) as [e' ->]. eexists; reflexivity.
Qed.

Lemma insert_sorted_Permutation {A} (leb : A -> A -> bool) x l :
  Permutation (x :: l) (insert_sorted leb x l).
Proof.
  induction l as [|y l IH]; cbn; [reflexivity|].
  destruct (leb x y); [reflexivity|].
  rewrite perm_swap. constructor. exact IH.
Qed.

Lemma OrderBy_Permutation {A} (leb : A -> A -> bool) l :
  Permutation l (OrderBy leb l).
Proof.
  induction l as [|x l IH]; cbn; [constructor|].
  rewrite <- insert_sorted_Permutation. constructor. exact IH.
Qed.

Lemma OrderBy_In {A} (leb : A -> A -> bool) l x :
  In x (OrderBy leb l) <-> In x l.
Proof.
  split; apply Permutation_in;
    [symmetry|]; apply OrderBy_Permutation.
Qed.

Lemma OrderBy_length {A} (leb : A -> A -> bool) (l : list A) :
  List.length (OrderBy leb l) = List.length l.
Proof. symmetry. apply Permutation_length, OrderBy_Permutation. Qed.

(** ** Row codec: decoding never raises *)

Lemma ConvertLegacyData_decoded lib jsonString :
  ConvertLegacyData lib jsonString = Ok (decoded_row lib jsonString).
Proof.
  unfold ConvertLegacyData, decoded_row.
  destruct (JObject_Parse lib jsonString) as [o|e]; cbn; [|reflexivity].
  destruct (convert_properties lib o []); reflexivity.
Qed.

Lemma search_results_total lib rows :
  mapM (search_result lib) rows =
  Ok (map (fun j => {| sr_SheetName := sh_SheetName (j_sheet j);
                       sr_RowIndex := sd_RowIndex (j_row j);
                       sr_RowData := decoded_row lib (sd_RowData (j_row j));
                       sr_FileName := s_FileName (j_session j);
                       sr_ImportedAt := s_ImportedAt (j_session j);
                       sr_SessionId := sh_SessionId (j_sheet j) |}) rows).
Proof.
  apply mapM_total. intros j _. unfold search_result.
  rewrite ConvertLegacyData_decoded. reflexivity.
Qed.

(** C5.  Row decode returns a mapping for every input string; when the
    string does not parse as a JSON object the mapping is empty.  A search
    whose page query succeeds returns one result per row of the page, each
    carrying the decoded (possibly empty) mapping; a sheet detail whose
    headers read succeeds returns one decoded mapping per stored row. *)
Theorem C5_row_decode_never_raises lib :
  (forall jsonString, exists d, ConvertLegacyData lib jsonString = Ok d)
  /\ (forall jsonString e,
        JObject_Parse lib jsonString = Throws e ->
        ConvertLegacyData lib jsonString = Ok [])
  /\ (forall db searchRequest rows,
        search_page lib db searchRequest = Ok rows ->
        exists response,
          SearchDataAsync lib db searchRequest = Ok response
          /\ map sr_RowData (Data response)
             = map (fun j => decoded_row lib (sd_RowData (j_row j))) rows)
  /\ (forall db sheetId sheet headers,
        find (fun sh => sh_Id sh =? sheetId) (Sheets db) = Some sheet ->
        read_headers lib (sh_Headers sheet) = Ok headers ->
        exists detail,
          GetSheetDetailAsync lib db sheetId = Ok (Some detail)
          /\ det_Data detail
             = map (fun sd => decoded_row lib (sd_RowData sd))
                   (OrderBy (fun a b => sd_RowIndex a <=? sd_RowIndex b)
                      (filter (fun r => sd_SheetId r =? sh_Id sheet) (SheetDataRows db)))).
Proof.
  repeat split.
  - intros s. eexists. apply ConvertLegacyData_decoded.
  - intros s e H. unfold ConvertLegacyData. rewrite H. reflexivity.
  - intros db rq rows H. unfold SearchDataAsync. rewrite H. cbn [exc_bind].
    rewrite search_results_total. cbn [exc_bind].
    eexists; split; [reflexivity|]. cbn [Data].
    rewrite map_map. reflexivity.
  - intros db sheetId sheet headers Hf Hh. unfold GetSheetDetailAsync. rewrite Hf.
    rewrite (mapM_total _ (fun sd => decoded_row lib (sd_RowData sd)))
      by (intros; apply ConvertLegacyData_decoded).
    cbn [exc_bind]. rewrite Hh. cbn [exc_bind].
    eexists; split; reflexivity.
Qed.

Lemma C5_row_decode_never_raises_witness :
  JObject_Parse Sample.lib "not json" = Throws JsonReaderException
  /\ ConvertLegacyData Sample.lib "not json" = Ok [].
Proof.
  split; [reflexivity|].
  exact (proj1 (proj2 (C5_row_decode_never_raises Sample.lib)) "not json"
               JsonReaderException eq_refl).
Defined.

(** ** Headers on the way out *)

Lemma mapM_decapitalize_Ok hs returned :
  mapM decapitalize hs = Ok returned ->
  exists stored, hs = map Some stored
                 /\ Forall (fun h => h <> "") stored
                 /\ returned = map lower_first stored.
Proof.
  revert returned. induction hs as [|h hs IH]; intros returned H; cbn in H.
  - injection H as <-. exists []. repeat split. constructor.
  - destruct h as [[|c rest]|]; cbn in H; try discriminate.
    destruct (mapM decapitalize hs) as [ys|] eqn:E; cbn in H; [|discriminate].
    injection H as <-.
    destruct (IH ys eq_refl) as (stored & -> & Hne & ->).
    exists (String c rest :: stored). repeat split.
    constructor; [discriminate | exact Hne].
Qed.

Lemma mapM_decapitalize_nonempty stored :
  Forall (fun h => h <> "") stored ->
  mapM decapitalize (map Some stored) = Ok (map lower_first stored).
Proof.
  induction 1 as [|h stored Hh _ IH]; [reflexivity|].
  cbn. destruct h as [|c rest]; [congruence|]. cbn. rewrite IH. reflexivity.
Qed.

Lemma read_headers_Ok lib text returned :
  read_headers lib text = Ok returned ->
  (DeserializeObject_ListString lib text = Ok None /\ returned = [])
  \/ exists stored, stored_headers lib text stored
                    /\ Forall (fun h => h <> "") stored
                    /\ returned = map lower_first stored.
Proof.
  unfold read_headers, stored_headers.
  destruct (DeserializeObject_ListString lib text) as [[hs|]|e]; cbn; intros H.
  - right. destruct (mapM_decapitalize_Ok hs returned H) as (stored & -> & Hne & ->).
    exists stored. repeat split. exact Hne.
  - left. injection H as <-. split; reflexivity.
  - discriminate.
Qed.

(** C8.  Every header list returned by get-session-detail or
    get-sheet-detail is the stored list with the first character of each
    header lower-cased and the rest unchanged. *)
Theorem C8_headers_decapitalized lib db :
  (forall sessionId dto,
     GetSessionDataAsync lib db sessionId = Ok (Some dto) ->
     exists session,
       find (fun s => s_Id s =? sessionId) (ImportSessions db) = Some session
       /\ Forall2 (fun sh ss => ss_Id ss = sh_Id sh
                                /\ headers_out lib (sh_Headers sh) (ss_Headers ss))
            (OrderBy (fun a b => sh_SheetIndex a <=? sh_SheetIndex b)
               (filter (fun sh => sh_SessionId sh =? s_Id session) (Sheets db)))
            (sdd_Sheets dto))
  /\ (forall sheetId detail,
        GetSheetDetailAsync lib db sheetId = Ok (Some detail) ->
        exists sheet,
          find (fun sh => sh_Id sh =? sheetId) (Sheets db) = Some sheet
          /\ headers_out lib (sh_Headers sheet) (det_Headers detail))
  /\ lower_first "Name" = "name"
  /\ lower_first "Date Of Birth" = "date Of Birth".
Proof.
  repeat split.
  - intros sessionId dto H. unfold GetSessionDataAsync in H.
    destruct (find _ (ImportSessions db)) as [session|]; [|discriminate].
    exists session. split; [reflexivity|].
    destruct (mapM (sheet_summary lib) _) as [summaries|] eqn:E; cbn in H; [|discriminate].
    injection H as <-. cbn [sdd_Sheets].
    apply mapM_Ok_Forall2 in E.
    eapply Forall2_impl; [|exact E]. cbn beta.
    intros sh ss Hs. unfold sheet_summary in Hs.
    destruct (read_headers lib (sh_Headers sh)) as [hs|] eqn:Hh; cbn in Hs; [|discriminate].
    injection Hs as <-. cbn. split; [reflexivity|].
    destruct (read_headers_Ok _ _ _ Hh) as [Hn | (stored & Hst & _ & Hr)].
    + left; exact Hn.
    + right; exists stored; split; assumption.
  - intros sheetId detail H. unfold GetSheetDetailAsync in H.
    destruct (find _ (Sheets db)) as [sheet|]; [|discriminate].
    exists sheet. split; [reflexivity|].
    destruct (mapM _ _) as [data|]; cbn in H; [|discriminate].
    destruct (read_headers lib (sh_Headers sheet)) as [hs|] eqn:Hh; cbn in H; [|discriminate].
    injection H as <-. cbn.
    destruct (read_headers_Ok _ _ _ Hh) as [Hn | (stored & Hst & _ & Hr)].
    + left; exact Hn.
    + right; exists stored; split; assumption.
Qed.

Lemma C8_headers_decapitalized_witness :
  exists detail,
    GetSheetDetailAsync Sample.lib sample_db 102 = Ok (Some detail)
    /\ det_Headers detail = ["name"; "amount"]
    /\ exists sheet,
         find (fun sh => sh_Id sh =? 102) (Sheets sample_db) = Some sheet
         /\ headers_out Sample.lib (sh_Headers sheet) (det_Headers detail).
Proof.
  eexists. split; [vm_compute; reflexivity|]. split; [reflexivity|].
  refine (proj1 (proj2 (C8_headers_decapitalized Sample.lib sample_db)) 102 _ _).
  vm_compute. reflexivity.
Defined.

(** ** Headers: the unguarded first-character access *)

Lemma mapM_decapitalize_empty stored :
  In "" stored ->
  mapM decapitalize (map Some stored) = Throws IndexOutOfRangeException.
Proof.
  induction stored as [|h stored IH]; intros Hin; [contradiction|].
  cbn. destruct h as [|c rest]; [reflexivity|].
  destruct Hin as [Hin|Hin]; [discriminate|].
  cbn. rewrite (IH Hin). reflexivity.
Qed.

Lemma find_some_In {A} (f : A -> bool) (l : list A) (x : A) :
  find f l = Some x -> In x l /\ f x = true.
Proof. apply find_some. Qed.

(** C10.  The detail reads succeed when every stored header is non-empty,
    and fault as a whole when a stored header list contains the empty
    string: the sheet detail with [IndexOutOfRangeException], the session
    detail as soon as one of its sheets has such a list. *)
Theorem C10_empty_header_faults lib db :
  (forall sheetId sheet stored,
     find (fun sh => sh_Id sh =? sheetId) (Sheets db) = Some sheet ->
     stored_headers lib (sh_Headers sheet) stored ->
     (In "" stored ->
      GetSheetDetailAsync lib db sheetId = Throws IndexOutOfRangeException)
     /\ (Forall (fun h => h <> "") stored ->
         exists detail, GetSheetDetailAsync lib db sheetId = Ok (Some detail)))
  /\ (forall sessionId session sheet stored,
        find (fun s => s_Id s =? sessionId) (ImportSessions db) = Some session ->
        In sheet (Sheets db) ->
        sh_SessionId sheet = s_Id session ->
        stored_headers lib (sh_Headers sheet) stored ->
        In "" stored ->
        exists e, GetSessionDataAsync lib db sessionId = Throws e)
  /\ (forall sessionId session,
        find (fun s => s_Id s =? sessionId) (ImportSessions db) = Some session ->
        (forall sheet, In sheet (Sheets db) -> sh_SessionId sheet = s_Id session ->
                       exists stored, stored_headers lib (sh_Headers sheet) stored
                                      /\ Forall (fun h => h <> "") stored) ->
        exists dto, GetSessionDataAsync lib db sessionId = Ok (Some dto)).
Proof.
  split; [|split].
  - intros sheetId sheet stored Hf Hs.
    unfold GetSheetDetailAsync. rewrite Hf.
    rewrite (mapM_total _ (fun sd => decoded_row lib (sd_RowData sd)))
      by (intros; apply ConvertLegacyData_decoded).
    cbn [exc_bind]. unfold read_headers. unfold stored_headers in Hs. rewrite Hs. cbn [exc_bind]. cbv iota beta.
    split; intros H.
    + rewrite (mapM_decapitalize_empty _ H). reflexivity.
    + rewrite (mapM_decapitalize_nonempty _ H). cbn. eexists; reflexivity.
  - intros sessionId session sheet stored Hf Hin Hsid Hs Hempty.
    unfold GetSessionDataAsync. rewrite Hf.
    assert (Hthrow : sheet_summary lib sheet = Throws IndexOutOfRangeException).
    { unfold sheet_summary, read_headers. unfold stored_headers in Hs. rewrite Hs. cbn [exc_bind]. cbv iota beta.
      rewrite (mapM_decapitalize_empty _ Hempty). reflexivity. }
    assert (Hin' : In sheet (OrderBy (fun a b => sh_SheetIndex a <=? sh_SheetIndex b)
                    (filter (fun sh => sh_SessionId sh =? s_Id session) (Sheets db)))).
    { apply OrderBy_In, filter_In. split; [exact Hin|]. apply Z.eqb_eq, Hsid. }
    destruct (mapM_Throws_In _ _ _ _ Hin' Hthrow) as [e' ->].
    exists e'. reflexivity.
  - intros sessionId session Hf Hall.
    unfold GetSessionDataAsync. rewrite Hf.
    assert (Hok : forall sh,
               In sh (OrderBy (fun a b => sh_SheetIndex a <=? sh_SheetIndex b)
                        (filter (fun sh => sh_SessionId sh =? s_Id session) (Sheets db))) ->
               exists ss, sheet_summary lib sh = Ok ss).
    { intros sh Hin. apply OrderBy_In, filter_In in Hin. destruct Hin as [Hin Hsid].
      destruct (Hall sh Hin (proj1 (Z.eqb_eq _ _) Hsid)) as (stored & Hs & Hne).
      unfold sheet_summary, read_headers. unfold stored_headers in Hs. rewrite Hs. cbn [exc_bind]. cbv iota beta.
      rewrite (mapM_decapitalize_nonempty _ Hne). cbn. eexists; reflexivity. }
    revert Hok. generalize (OrderBy (fun a b => sh_SheetIndex a <=? sh_SheetIndex b)
                   (filter (fun sh => sh_SessionId sh =? s_Id session) (Sheets db))).
    intros l Hok.
    assert (Hm : exists r, mapM (sheet_summary lib) l = Ok r).
    { induction l as [|x l IH]; [eexists; reflexivity|].
      cbn. destruct (Hok x (or_introl eq_refl)) as [ss ->]. cbn.
      destruct IH as [r ->]; [intros; apply Hok; right; assumption|].
      eexists; reflexivity. }
    destruct Hm as [r ->]. cbn. eexists; reflexivity.
Qed.

Lemma C10_empty_header_faults_witness :
  GetSheetDetailAsync Sample.lib blank_header_db 101 = Throws IndexOutOfRangeException
  /\ exists e, GetSessionDataAsync Sample.lib blank_header_db 100 = Throws e.
Proof.
  pose proof (C10_empty_header_faults Sample.lib blank_header_db) as (Hsheet & Hsession & _).
  split.
  - refine (proj1 (Hsheet 101 _ ["Name"; ""] _ _) _).
    + vm_compute. reflexivity.
    + vm_compute. reflexivity.
    + right. left. reflexivity.
  - refine (Hsession 100 _ _ ["Name"; ""] _ _ _ _ _).
    + vm_compute. reflexivity.
    + left. reflexivity.
    + reflexivity.
    + vm_compute. reflexivity.
    + right. left. reflexivity.
Defined.

(** ** Pagination *)

Lemma Ceiling_div_spec n s :
  0 < s -> (Ceiling_div n s - 1) * s < n <= Ceiling_div n s * s.
Proof.
  intros Hs. destruct s as [|p|p]; try lia.
  unfold Ceiling_div, Qceiling, Qfloor, Qdiv, Qmult, Qinv, inject_Z, Qopp. cbn.
  rewrite Z.mul_1_r.
  pose proof (Z.div_mod (- n) (Z.pos p) ltac:(lia)) as Hd.
  pose proof (Z.mod_pos_bound (- n) (Z.pos p) ltac:(lia)) as Hm.
  nia.
Qed.

Lemma wrap32_small n :
  Int32_MinValue <= n <= Int32_MaxValue -> wrap32 n = n.
Proof.
  unfold wrap32, Int32_MinValue, Int32_MaxValue. intros H.
  rewrite Z.mod_small by lia. lia.
Qed.

Lemma SkipTake_Ok {A} offset pageSize (l : list A) :
  0 <= offset -> 0 < pageSize ->
  SkipTake offset pageSize l
  = Ok (firstn (Z.to_nat pageSize) (skipn (Z.to_nat offset) l)).
Proof.
  intros Ho Hs. unfold SkipTake.
  destruct (Z.ltb_spec offset 0); [lia|].
  destruct (Z.leb_spec pageSize 0); [lia|]. reflexivity.
Qed.

Lemma page_offset_valid p s :
  1 <= p -> 0 < s -> (p - 1) * s <= Int32_MaxValue ->
  wrap32 (wrap32 (p - 1) * s) = (p - 1) * s.
Proof.
  intros Hp Hs Hb. unfold Int32_MaxValue in Hb.
  assert (Hp1 : p - 1 <= (p - 1) * s) by nia.
  rewrite (wrap32_small (p - 1)) by (unfold Int32_MinValue, Int32_MaxValue; lia).
  apply wrap32_small. unfold Int32_MinValue, Int32_MaxValue. nia.
Qed.

(** C7.  With a positive page size, the metadata of every returned session
    page and search page has [TotalPages = ceil(n / s)],
    [HasNextPage = (p < TotalPages)] and [HasPreviousPage = (p > 1)]; the
    calls return for every page number from 1 whose offset fits an [int];
    and 105 records in pages of 20 give 6 pages, a next page exactly on
    pages 1 to 5, and no previous page exactly on page 1. *)
Theorem C7_page_metadata lib db :
  (forall p s response,
     0 < s ->
     GetSessionsAsync db p s = Ok response ->
     page_metadata (Count (ImportSessions db)) p s response)
  /\ (forall searchRequest response,
        0 < rq_PageSize searchRequest ->
        SearchDataAsync lib db searchRequest = Ok response ->
        page_metadata (Count (search_query lib db searchRequest))
                      (rq_PageNumber searchRequest) (rq_PageSize searchRequest) response)
  /\ (forall p s,
        1 <= p -> 0 < s -> (p - 1) * s <= Int32_MaxValue ->
        (exists response, GetSessionsAsync db p s = Ok response)
        /\ (forall term sessionId,
              exists response,
                SearchDataAsync lib db {| rq_SearchTerm := term; rq_SessionId := sessionId;
                                          rq_PageNumber := p; rq_PageSize := s |}
                = Ok response))
  /\ (forall p response,
        Count (ImportSessions db) = 105 ->
        1 <= p ->
        GetSessionsAsync db p 20 = Ok response ->
        TotalPages response = 6
        /\ (HasNextPage response = true <-> p <= 5)
        /\ (HasPreviousPage response = false <-> p = 1)).
Proof.
  assert (Hlist : forall p s response, 0 < s ->
            GetSessionsAsync db p s = Ok response ->
            page_metadata (Count (ImportSessions db)) p s response).
  { intros p s response Hs H. unfold GetSessionsAsync in H.
    destruct (SkipTake _ _ _) as [sessions|]; cbn in H; [|discriminate].
    injection H as <-. unfold page_metadata. cbn.
    unfold Count. rewrite OrderBy_length.
    repeat split; try apply Ceiling_div_spec; assumption. }
  split; [exact Hlist|]. split; [|split].
  - intros rq response Hs H. unfold SearchDataAsync in H.
    destruct (search_page lib db rq) as [rows|]; cbn in H; [|discriminate].
    rewrite search_results_total in H. cbn in H.
    injection H as <-. unfold page_metadata. cbn.
    repeat split; try apply Ceiling_div_spec; assumption.
  - intros p s Hp Hs Hb. split.
    + unfold GetSessionsAsync. rewrite page_offset_valid by assumption.
      rewrite SkipTake_Ok by nia. cbn. eexists; reflexivity.
    + intros term sessionId. unfold SearchDataAsync, search_page. cbn [rq_PageNumber rq_PageSize].
      rewrite page_offset_valid by assumption.
      rewrite SkipTake_Ok by nia. cbn [exc_bind].
      rewrite search_results_total. cbn [exc_bind]. eexists; reflexivity.
  - intros p response Hn Hp H.
    destruct (Hlist p 20 response ltac:(lia) H) as (_ & _ & _ & Hc & Hnext & Hprev).
    rewrite Hn in Hc.
    assert (Ht : TotalPages response = 6) by lia.
    split; [exact Ht|]. rewrite Hnext, Hprev, Ht. split.
    + rewrite Z.ltb_lt. lia.
    + rewrite Z.ltb_ge. lia.
Qed.

Lemma C7_page_metadata_witness :
  exists response,
    GetSessionsAsync db_105 6 20 = Ok response
    /\ TotalPages response = 6
    /\ HasNextPage response = false
    /\ HasPreviousPage response = true
    /\ List.length (Data response) = 5%nat.
Proof.
  destruct (proj1 (proj1 (proj2 (proj2 (C7_page_metadata Sample.lib db_105)))
                     6 20 ltac:(lia) ltac:(lia) ltac:(vm_compute; discriminate)))
    as [response H].
  exists response. split; [exact H|].
  vm_compute in H. injection H as <-.
  repeat split.
Defined.

(** ** Fingerprint *)

Lemma TryGetValue_not_In {V} (d : Dictionary V) key :
  ~ In key (Keys d) -> TryGetValue d key = None.
Proof.
  induction d as [|[k v] d IH]; intros H; [reflexivity|].
  cbn in *. destruct (String.eqb_spec k key) as [->|Hne].
  - exfalso. apply H. left. reflexivity.
  - apply IH. intros Hin. apply H. right. exact Hin.
Qed.

(** Equal key sequences and related lookups give entrywise related lists. *)
Lemma same_mapping_same_order {V} (R : V -> V -> Prop) (d1 d2 : Dictionary V) :
  same_mapping R d1 d2 -> Keys d1 = Keys d2 ->
  Forall2 (fun e1 e2 => fst e1 = fst e2 /\ R (snd e1) (snd e2)) d1 d2.
Proof.
  revert d2. induction d1 as [|[k v] d1 IH]; intros [|[k' v'] d2] (N1 & N2 & H) HK;
    try discriminate; [constructor|].
  cbn in HK. injection HK as <- HK.
  cbn in N1, N2. inversion N1 as [|? ? Hk1 N1']; subst. inversion N2 as [|? ? Hk2 N2']; subst.
  constructor.
  - split; [reflexivity|]. specialize (H k). cbn in H. rewrite String.eqb_refl in H. exact H.
  - apply IH; [|exact HK]. split; [exact N1'|split; [exact N2'|]].
    intros key. specialize (H key). cbn in H.
    destruct (String.eqb_spec k key) as [->|Hne]; [|exact H].
    rewrite (TryGetValue_not_In d1 key Hk1), (TryGetValue_not_In d2 key Hk2). exact I.
Qed.

Lemma same_mapping_eq_same_order {V} (d1 d2 : Dictionary V) :
  same_mapping eq d1 d2 -> Keys d1 = Keys d2 -> d1 = d2.
Proof.
  intros H HK. pose proof (same_mapping_same_order eq d1 d2 H HK) as F.
  clear H HK. induction F as [|[k1 v1] [k2 v2] d1 d2 [Hk Hv] _ IH]; [reflexivity|].
  cbn in Hk, Hv. subst. reflexivity.
Qed.

Lemma TryGetValue_In {V} (d : Dictionary V) key v :
  NoDup (Keys d) -> In (key, v) d -> TryGetValue d key = Some v.
Proof.
  induction d as [|[k w] d IH]; intros N Hin; [contradiction|].
  cbn in N. inversion N as [|? ? Hk N']; subst.
  cbn. destruct Hin as [Heq|Hin].
  - injection Heq as -> ->. rewrite String.eqb_refl. reflexivity.
  - destruct (String.eqb_spec k key) as [->|Hne]; [|apply IH; assumption].
    exfalso. apply Hk. apply (in_map fst) in Hin. exact Hin.
Qed.

Lemma Forall2_In_eq {A} (R : A -> A -> Prop) (l1 l2 : list A) :
  Forall2 R l1 l2 ->
  (forall x y, In x l1 -> In y l2 -> R x y -> x = y) ->
  l1 = l2.
Proof.
  induction 1 as [|x y l1 l2 Hxy _ IH]; intros H; [reflexivity|].
  f_equal.
  - apply H; [left; reflexivity | left; reflexivity | exact Hxy].
  - apply IH. intros a b Ha Hb. apply H; right; assumption.
Qed.

Lemma Forall2_both_eq {A} (R1 R2 : A -> A -> Prop) (l1 l2 : list A) :
  Forall2 R1 l1 l2 -> Forall2 R2 l1 l2 ->
  (forall x y, R1 x y -> R2 x y -> x = y) ->
  l1 = l2.
Proof.
  induction 1 as [|x y l1 l2 Hxy _ IH]; intros F2 H; [reflexivity|].
  inversion F2 as [|? ? ? ? Hxy2 F2']; subst.
  f_equal; [apply H; assumption | apply IH; assumption].
Qed.

(** C1 (as the code has it).  The digest is computed from the serialization
    in insertion order: two uploads with the same sheets, headers and rows
    whose sheets and row fields were inserted in the same order have the
    same digest. *)
Theorem C1_fingerprint_same_order lib uploadData1 uploadData2 :
  same_sheets (up_Sheets uploadData1) (up_Sheets uploadData2) ->
  same_insertion_order (up_Sheets uploadData1) (up_Sheets uploadData2) ->
  CalculateFileHash lib uploadData1 = CalculateFileHash lib uploadData2.
Proof.
  intros Hsame [HK Hrows]. unfold CalculateFileHash.
  replace (up_Sheets uploadData2) with (up_Sheets uploadData1); [reflexivity|].
  pose proof (same_mapping_same_order _ _ _ Hsame HK) as F.
  destruct Hsame as (N1 & N2 & _).
  apply (Forall2_In_eq _ _ _ F).
  intros [k1 [a|]] [k2 [b|]] H1 H2 [Hk Hab]; cbn in Hk, Hab; subst k2;
    try contradiction; [|reflexivity].
  destruct Hab as (Hn & Hh & Hd).
  assert (Ho : Forall2 (same_nullable (fun r1 r2 => Keys r1 = Keys r2))
                       (dto_Data a) (dto_Data b)).
  { apply (Hrows k1); apply TryGetValue_In; assumption. }
  destruct a as [n1 h1 r1], b as [n2 h2 r2]. cbn in *. subst.
  f_equal. f_equal. f_equal.
  apply (Forall2_both_eq _ _ _ _ Hd Ho).
  intros [x|] [y|] Hxy Hk; cbn in Hxy, Hk; try contradiction; [|reflexivity].
  f_equal. apply same_mapping_eq_same_order; assumption.
Qed.

Lemma same_sheet_refl s :
  Forall (fun r => match r with Some r => NoDup (Keys r) | None => True end) (dto_Data s) ->
  same_sheet s s.
Proof.
  intros H. repeat split. induction H as [|r rows Hr _ IH]; constructor; [|exact IH].
  destruct r as [r|]; [|exact I]. cbn.
  repeat split; try exact Hr. intros key. destruct (TryGetValue r key); reflexivity.
Qed.

Lemma upload_AB_BA_same_sheets :
  same_sheets (up_Sheets upload_AB) (up_Sheets upload_BA).
Proof.
  assert (HA : same_nullable same_sheet (Some sheet_A) (Some sheet_A)).
  { apply same_sheet_refl. repeat constructor. intros []. }
  assert (HB : same_nullable same_sheet (Some sheet_B) (Some sheet_B)).
  { apply same_sheet_refl. repeat constructor. intros []. }
  split; [|split].
  - repeat constructor; cbn; intuition discriminate.
  - repeat constructor; cbn; intuition discriminate.
  - intros key. unfold upload_AB, upload_BA. cbn [up_Sheets TryGetValue].
    destruct (String.eqb "A" key) eqn:EA; destruct (String.eqb "B" key) eqn:EB;
      try exact HA; try exact HB; try exact I.
    apply String.eqb_eq in EA, EB. congruence.
Qed.

Lemma C1_fingerprint_same_order_witness :
  CalculateFileHash Sample.lib upload_AB
  = CalculateFileHash Sample.lib
      {| up_FileName := "renamed.xlsx"; up_ImportedBy := Some "someone";
         up_Metadata := up_Metadata upload_AB; up_Sheets := up_Sheets upload_AB |}.
Proof.
  apply C1_fingerprint_same_order.
  - assert (HA : same_nullable same_sheet (Some sheet_A) (Some sheet_A)).
    { apply same_sheet_refl. repeat constructor. intros []. }
    assert (HB : same_nullable same_sheet (Some sheet_B) (Some sheet_B)).
    { apply same_sheet_refl. repeat constructor. intros []. }
    split; [|split].
    + repeat constructor; cbn; intuition discriminate.
    + repeat constructor; cbn; intuition discriminate.
    + intros key. unfold upload_AB. cbn [up_Sheets TryGetValue].
      destruct (String.eqb "A" key) eqn:EA; destruct (String.eqb "B" key) eqn:EB;
        try exact HA; try exact HB; exact I.
  - split; [reflexivity|]. unfold upload_AB. cbn [up_Sheets TryGetValue]. intros key a b.
    destruct (String.eqb "A" key); [|destruct (String.eqb "B" key)];
      intros H1 H2; try discriminate;
      injection H1 as <-; injection H2 as <-; repeat constructor.
Defined.

(** The same two sheets inserted in the opposite order give another
    digest. *)
Lemma C1_counterexample :
  same_sheets (up_Sheets upload_AB) (up_Sheets upload_BA)
  /\ CalculateFileHash Sample.lib upload_AB <> CalculateFileHash Sample.lib upload_BA.
Proof.
  split; [exact upload_AB_BA_same_sheets|].
  intros H. vm_compute in H. discriminate H.
Qed.

(** ** Reasoning rules for units of work *)

Lemma triple_ret {A} (P : DbContext -> Prop) (a : A) Q R :
  (forall ctx, P ctx -> Q a ctx) -> triple P (ret a) Q R.
Proof. intros H ctx HP. cbn. apply H, HP. Qed.

Lemma triple_bind {A B} P (m : Db A) (k : A -> Db B) Q' Q R :
  triple P m Q' R ->
  (forall a, triple (Q' a) (k a) Q R) ->
  triple P (bind m k) Q R.
Proof.
  intros Hm Hk ctx HP. unfold bind. specialize (Hm ctx HP).
  destruct (m ctx) as [[a|e] ctx']; [apply Hk, Hm | exact Hm].
Qed.

Lemma triple_catch {A} P (m : Db A) (h : Exception -> Db A) Q R' R :
  triple P m Q R' ->
  (forall e, triple (R' e) (h e) Q R) ->
  triple P (catch m h) Q R.
Proof.
  intros Hm Hh ctx HP. unfold catch. specialize (Hm ctx HP).
  destruct (m ctx) as [[a|e] ctx']; [exact Hm | apply Hh, Hm].
Qed.

Lemma triple_weaken {A} (P P' : DbContext -> Prop) (m : Db A) (Q Q' : A -> DbContext -> Prop)
  (R R' : Exception -> DbContext -> Prop) :
  triple P' m Q' R' ->
  (forall ctx, P ctx -> P' ctx) ->
  (forall a ctx, Q' a ctx -> Q a ctx) ->
  (forall e ctx, R' e ctx -> R e ctx) ->
  triple P m Q R.
Proof.
  intros Hm HP HQ HR ctx Hctx. specialize (Hm ctx (HP ctx Hctx)).
  destruct (m ctx) as [[a|e] ctx']; [apply HQ | apply HR]; exact Hm.
Qed.

Lemma triple_for_each {A} (I : DbContext -> Prop) R (l : list A) (body : A -> Db unit) :
  (forall x, In x l -> triple I (body x) (fun _ => I) R) ->
  triple I (for_each l body) (fun _ => I) R.
Proof.
  induction l as [|x l IH]; intros H.
  - apply triple_ret. auto.
  - cbn [for_each]. eapply triple_bind.
    + apply H. left. reflexivity.
    + intros ?. apply IH. intros y Hy. apply H. right. exact Hy.
Qed.

Lemma clean_step env from to :
  clean env from to -> fault env to = None -> clean env from (S to).
Proof.
  intros Hc Hf j Hj. destruct (Nat.eq_dec j to) as [Heq|Hne]; [subst j; exact Hf|].
  apply Hc. lia.
Qed.

Lemma fold_apply_child_sessions lib changes db :
  Forall (child_change lib) changes ->
  ImportSessions (fold_left apply_change changes db) = ImportSessions db.
Proof.
  intros H. revert db. induction H as [|c changes Hc _ IH]; intros db; [reflexivity|].
  cbn [fold_left]. rewrite IH. destruct c; cbn in Hc; try contradiction; reflexivity.
Qed.

Lemma fold_apply_child_rows lib (G : SheetData -> Prop) changes db :
  Forall (child_change lib) changes ->
  (forall r, written_row lib r -> G r) ->
  Forall G (SheetDataRows db) ->
  Forall G (SheetDataRows (fold_left apply_change changes db)).
Proof.
  intros H HG. revert db. induction H as [|c changes Hc _ IH]; intros db Hdb; [exact Hdb|].
  cbn [fold_left]. apply IH.
  destruct c; cbn in Hc; try contradiction; cbn; try exact Hdb.
  apply Forall_app. split; [exact Hdb|]. constructor; [apply HG, Hc | constructor].
Qed.

Section InTransaction.

Variable lib : Library.
Variable env : Environment.
Variable db0 : Database.
Variable sessions : list ImportSession.
Variable ops0 : nat.

Local Notation "'Inv'" := (in_transaction lib env db0 sessions ops0).
Local Notation "'Failed'" := (fun nulls : Prop => failed nulls env db0 ops0).

Lemma failed_weaken (N N' : Prop) e ctx :
  (N -> N') -> failed N env db0 ops0 e ctx -> failed N' env db0 ops0 e ctx.
Proof.
  intros HN [Hs [Hf | [He Hn]]]; (split; [exact Hs|]); [left; exact Hf | right].
  split; [exact He | apply HN, Hn].
Qed.

Lemma throw_in_transaction {A} (N : Prop) (Q : A -> DbContext -> Prop) :
  N -> triple Inv (throw NullReferenceException) Q (Failed N).
Proof.
  intros HN ctx (Hs & _). cbn. split; [exact Hs|]. right. split; [reflexivity | exact HN].
Qed.

Lemma new_entity_in_transaction {A} (N : Prop) (make : Guid -> DateTime -> A) :
  triple Inv (new_entity env make) (fun _ => Inv) (Failed N).
Proof. intros ctx H. cbn. exact H. Qed.

Lemma Add_in_transaction (N : Prop) c :
  child_change lib c -> triple Inv (Add c) (fun _ => Inv) (Failed N).
Proof.
  intros Hc ctx (Hs & Hi & Ht & Hr & Ho & Hcl). cbn.
  repeat split; try assumption.
  apply Forall_app. split; [exact Ht | constructor; [exact Hc | constructor]].
Qed.

Lemma SaveChangesAsync_in_transaction (N : Prop) :
  triple Inv (SaveChangesAsync env) (fun _ => Inv) (Failed N).
Proof.
  intros ctx (Hs & Hi & Ht & Hr & Ho & Hcl).
  unfold SaveChangesAsync, db_call.
  destruct (fault env (ops ctx)) as [e|] eqn:Hf;
    unfold in_transaction, failed; cbn [database snapshot tracked ops entities].
  - split; [exact Hs|]. left. exists (ops ctx). repeat split; assumption.
  - split; [exact Hs|].
    split; [rewrite (fold_apply_child_sessions lib _ _ Ht); exact Hi|].
    split; [constructor|].
    split; [apply (fold_apply_child_rows lib);
            [exact Ht | intros r Hw; right; exact Hw | exact Hr]|].
    split; [lia | apply clean_step; assumption].
Qed.

Lemma make_batch_in_transaction sheetId i rows index :
  triple Inv (make_batch lib env sheetId i rows index)
         (fun batch ctx => Inv ctx /\ Forall (written_row lib) batch)
         (Failed (In None rows)).
Proof.
  revert index. induction rows as [|row rows IH]; intros index.
  - apply triple_ret. intros ctx H. split; [exact H | constructor].
  - cbn [make_batch].
    eapply triple_bind; [apply new_entity_in_transaction|]. intros created.
    eapply triple_bind with (Q' := fun r ctx => Inv ctx /\ written_row lib r).
    + destruct row as [row|].
      * apply triple_ret. intros ctx H. split; [exact H|]. exists row. reflexivity.
      * apply throw_in_transaction. left. reflexivity.
    + intros r. eapply triple_bind with
        (Q' := fun rs ctx => (Inv ctx /\ Forall (written_row lib) rs) /\ written_row lib r).
      * intros ctx [H Hr]. specialize (IH (S index) ctx H).
        destruct (make_batch lib env sheetId i rows (S index) ctx) as [[rs|e] ctx'].
        -- split; [exact IH | exact Hr].
        -- revert IH. apply failed_weaken. intros Hin. right. exact Hin.
      * intros rs. apply triple_ret. intros ctx [[H Hrs] Hr].
        split; [exact H | constructor; assumption].
Qed.

Lemma skipn_In {A} n (l : list A) x : In x (skipn n l) -> In x l.
Proof.
  revert l. induction n as [|n IH]; intros [|y l]; cbn; auto.
Qed.

Lemma firstn_In {A} n (l : list A) y : In y (firstn n l) -> In y l.
Proof.
  revert l. induction n as [|n IH]; intros [|x l]; cbn; try contradiction.
  intros [H|H]; [left; exact H | right; apply IH, H].
Qed.

Lemma insert_batches_in_transaction fuel sheetId data batchSize i :
  triple Inv (insert_batches lib env fuel sheetId data batchSize i) (fun _ => Inv)
         (Failed (In None data)).
Proof.
  revert i. induction fuel as [|fuel IH]; intros i.
  - apply triple_ret. auto.
  - cbn [insert_batches]. destruct (i <? List.length data)%nat.
    + eapply triple_bind.
      { eapply triple_weaken;
          [apply make_batch_in_transaction | intros ? Hx; exact Hx
           | intros ? ? Hx; exact Hx |].
        intros e ctx. apply failed_weaken. intros Hin.
        apply (skipn_In i), (firstn_In batchSize), Hin. }
      intros batch. cbn beta.
      eapply triple_bind with (Q' := fun _ => Inv).
      * intros ctx [H Hb].
        assert (T : triple Inv (for_each batch (fun r => Add (Add_SheetData r)))
                      (fun _ => Inv) (Failed (In None data))).
        { apply triple_for_each. intros r Hr. apply Add_in_transaction.
          cbn. rewrite Forall_forall in Hb. apply Hb, Hr. }
        apply (T ctx H).
      * intros ?. eapply triple_bind; [apply SaveChangesAsync_in_transaction|].
        intros ?. apply IH.
    + apply triple_ret. auto.
Qed.

Lemma SaveSheetDataAsync_in_transaction sessionId sheetData sheetIndex :
  triple Inv (SaveSheetDataAsync lib env sessionId sheetData sheetIndex)
         (fun _ => Inv) (Failed (null_in_sheet sheetData)).
Proof.
  unfold SaveSheetDataAsync.
  eapply triple_bind; [apply new_entity_in_transaction|]. intros created.
  destruct sheetData as [sheetData|]; [|apply throw_in_transaction; exact I].
  eapply triple_bind; [apply Add_in_transaction; exact I|]. intros ?.
  eapply triple_bind; [apply SaveChangesAsync_in_transaction|]. intros ?.
  apply insert_batches_in_transaction.
Qed.

Lemma save_sheets_in_transaction sessionId sheets sheetIndex :
  triple Inv (save_sheets lib env sessionId sheets sheetIndex) (fun _ => Inv)
         (Failed (null_in_sheets sheets)).
Proof.
  revert sheetIndex. induction sheets as [|kv sheets IH]; intros sheetIndex.
  - apply triple_ret. auto.
  - cbn [save_sheets]. eapply triple_bind.
    + eapply triple_weaken;
        [apply SaveSheetDataAsync_in_transaction | intros ? Hx; exact Hx
         | intros ? ? Hx; exact Hx |].
      intros e ctx. apply failed_weaken. intros Hn. exists kv.
      split; [left; reflexivity | exact Hn].
    + intros ?. eapply triple_weaken;
        [apply IH | intros ? Hx; exact Hx | intros ? ? Hx; exact Hx |].
      intros e ctx. apply failed_weaken. intros (kv' & Hin & Hn). exists kv'.
      split; [right; exact Hin | exact Hn].
Qed.

Lemma save_excluded_in_transaction sessionId names :
  triple Inv (save_excluded env sessionId names) (fun _ => Inv) (Failed (names = None)).
Proof.
  unfold save_excluded. destruct names as [names|];
    [|apply throw_in_transaction; reflexivity].
  apply triple_for_each. intros name _.
  eapply triple_bind; [apply new_entity_in_transaction|].
  intros excludedSheet. apply Add_in_transaction. exact I.
Qed.

Lemma finish_in_transaction (N : Prop) completed (response : UploadResponseDto) :
  triple Inv
         (Add (Update_ImportSession completed) ;;;
          SaveChangesAsync env ;;;
          CommitAsync env ;;;
          ret response)
         (fun r ctx =>
            r = response
            /\ snapshot ctx = None /\ tracked ctx = []
            /\ ImportSessions (database ctx) = replace_session completed sessions
            /\ Forall (fun r => In r (SheetDataRows db0) \/ written_row lib r)
                      (SheetDataRows (database ctx)))
         (Failed N).
Proof.
  intros ctx (Hs & Hi & Ht & Hr & Ho & Hcl).
  unfold bind, Add, SaveChangesAsync, CommitAsync, db_call, ret.
  cbn [database snapshot tracked ops entities].
  destruct (fault env (ops ctx)) as [e|] eqn:Hf1.
  - split; [exact Hs|]. left. exists (ops ctx). repeat split; assumption.
  - cbn [database snapshot tracked ops entities].
    destruct (fault env (S (ops ctx))) as [e|] eqn:Hf2.
    + split; [exact Hs|]. left. exists (S (ops ctx)). split; [lia|].
      split; [apply clean_step; assumption | exact Hf2].
    + cbn [database snapshot tracked ops entities].
      split; [reflexivity|]. split; [reflexivity|]. split; [reflexivity|].
      rewrite fold_left_app. cbn [fold_left apply_change ImportSessions SheetDataRows].
      split.
      * rewrite (fold_apply_child_sessions lib _ _ Ht), Hi. reflexivity.
      * apply (fold_apply_child_rows lib);
          [exact Ht | intros r Hw; right; exact Hw | exact Hr].
Qed.

End InTransaction.

(** ** The import transaction, step by step *)

Section ImportSpec.

Variable lib : Library.
Variable env : Environment.

Lemma import_transaction_spec uploadData fileHash db0 ctx :
  snapshot ctx = Some db0 -> database ctx = db0 -> tracked ctx = [] ->
  forall ops0, (ops0 <= ops ctx)%nat -> clean env ops0 (ops ctx) ->
  match import_transaction lib env uploadData fileHash ctx with
  | (Ok response, ctx') =>
      exists excludedCount totalRows,
        excluded_count uploadData = Ok excludedCount
        /\ total_rows uploadData = Ok totalRows
        /\ response = saved_response env
                        (new_ImportSession uploadData fileHash (NewGuid env (entities ctx))
                           (UtcNow env (entities ctx)) excludedCount totalRows)
        /\ imported lib env db0
             (new_ImportSession uploadData fileHash (NewGuid env (entities ctx))
                (UtcNow env (entities ctx)) excludedCount totalRows) ctx'
  | (Throws e, ctx') => snapshot ctx' = Some db0 /\ import_error env uploadData ops0 e
  end.
Proof.
  intros Hs Hd Ht ops0 Ho Hcl.
  unfold import_transaction.
  unfold bind at 1. unfold new_entity at 1. cbn [fst snd].
  unfold bind at 1. unfold lift at 1.
  destruct (excluded_count uploadData) as [excludedCount|e] eqn:Hex.
  2:{ cbn [snapshot]. split; [exact Hs | right; left; exact Hex]. }
  unfold bind at 1. unfold lift.
  destruct (total_rows uploadData) as [totalRows|e] eqn:Hsum.
  2:{ cbn [snapshot]. split; [exact Hs | right; right; left; exact Hsum]. }
  set (session := new_ImportSession uploadData fileHash (NewGuid env (entities ctx))
                    (UtcNow env (entities ctx)) excludedCount totalRows).
  unfold bind at 1. unfold Add at 1. cbn [database snapshot tracked ops entities].
  unfold bind at 1. unfold SaveChangesAsync at 1. unfold db_call.
  cbn [database snapshot tracked ops entities].
  destruct (fault env (ops ctx)) as [e|] eqn:Hf.
  { cbn [snapshot]. split; [exact Hs|]. left. exists (ops ctx). repeat split; assumption. }
  rewrite Ht. cbn [app fold_left apply_change].
  match goal with
  | |- match ?rest ?c with _ => _ end =>
      assert (T : triple (in_transaction lib env db0 (ImportSessions db0 ++ [session])%list ops0)
                    rest
                    (fun r ctx' =>
                       r = saved_response env session
                       /\ snapshot ctx' = None /\ tracked ctx' = []
                       /\ ImportSessions (database ctx')
                          = replace_session (with_completed env session)
                              (ImportSessions db0 ++ [session])%list
                       /\ Forall (fun r => In r (SheetDataRows db0) \/ written_row lib r)
                                 (SheetDataRows (database ctx')))
                    (failed (null_in_sheets (up_Sheets uploadData)) env db0 ops0));
      [| specialize (T c) ]
  end.
  { eapply triple_bind.
    { eapply triple_weaken;
        [apply save_excluded_in_transaction | intros ? Hx; exact Hx
         | intros ? ? Hx; exact Hx |].
      intros e ctx0. apply failed_weaken. intros Hnone.
      unfold excluded_count in Hex. rewrite Hnone in Hex. discriminate. }
    intros ?.
    eapply triple_bind; [apply save_sheets_in_transaction|]. intros ?.
    apply finish_in_transaction. }
  match type of T with
  | ?P -> _ => assert (HP : P)
  end.
  { unfold in_transaction. cbn [database snapshot tracked ops entities].
    rewrite Hd. cbn [ImportSessions SheetDataRows].
    split; [exact Hs|]. split; [reflexivity|]. split; [constructor|].
    split; [apply Forall_forall; intros r Hr; left; exact Hr|].
    split; [lia | apply clean_step; assumption]. }
  specialize (T HP).
  match type of T with
  | match ?x with _ => _ end => destruct x as [[r|e] ctx']
  end.
  - destruct T as (-> & H1 & H2 & H3 & H4).
    exists excludedCount, totalRows.
    split; [reflexivity|]. split; [reflexivity|]. split; [reflexivity|].
    repeat split; assumption.
  - destruct T as [H1 [H2 | H2]]; (split; [exact H1|]);
      [left; exact H2 | right; right; right; exact H2].
Qed.

End ImportSpec.

(** ** The upload as a whole *)

Section UploadSpec.

Variable lib : Library.
Variable env : Environment.

Lemma SaveExcelDataAsync_lookup_fails uploadData ctx e :
  fault env (ops ctx) = Some e ->
  SaveExcelDataAsync lib env uploadData ctx = (Throws e, after_call ctx).
Proof.
  intros Hf. unfold SaveExcelDataAsync, catch, bind, FirstOrDefaultAsync, db_call.
  rewrite Hf. reflexivity.
Qed.

Lemma SaveExcelDataAsync_duplicate uploadData ctx existingSession :
  fault env (ops ctx) = None ->
  find (hash_matches (CalculateFileHash lib uploadData)) (ImportSessions (database ctx))
  = Some existingSession ->
  SaveExcelDataAsync lib env uploadData ctx
  = (Ok (duplicate_response existingSession), after_call ctx).
Proof.
  intros Hfault Hf. unfold SaveExcelDataAsync, catch, bind, FirstOrDefaultAsync, db_call.
  rewrite Hfault. cbn [database]. rewrite Hf. reflexivity.
Qed.

Lemma SaveExcelDataAsync_new uploadData ctx :
  idle ctx ->
  fault env (ops ctx) = None ->
  find (hash_matches (CalculateFileHash lib uploadData)) (ImportSessions (database ctx))
  = None ->
  match SaveExcelDataAsync lib env uploadData ctx with
  | (Ok response, ctx') =>
      exists excludedCount totalRows,
        excluded_count uploadData = Ok excludedCount
        /\ total_rows uploadData = Ok totalRows
        /\ response = saved_response env
                        (new_ImportSession uploadData (CalculateFileHash lib uploadData)
                           (NewGuid env (entities ctx)) (UtcNow env (entities ctx))
                           excludedCount totalRows)
        /\ imported lib env (database ctx)
             (new_ImportSession uploadData (CalculateFileHash lib uploadData)
                (NewGuid env (entities ctx)) (UtcNow env (entities ctx))
                excludedCount totalRows) ctx'
  | (Throws e, ctx') =>
      database ctx' = database ctx
      /\ snapshot ctx' = None
      /\ (fault env (S (ops ctx)) = Some e
          \/ exists original,
               import_error env uploadData (ops ctx) original
               /\ after_rollback env (pred (ops ctx')) original e)
  end.
Proof.
  intros [Hsnap Htr] Hlookup Hf.
  unfold SaveExcelDataAsync. unfold catch at 1. unfold bind at 1.
  unfold FirstOrDefaultAsync, db_call. rewrite Hlookup.
  cbn [database snapshot tracked ops entities]. rewrite Hf.
  unfold bind at 1. unfold BeginTransactionAsync, db_call.
  cbn [database snapshot tracked ops entities].
  destruct (fault env (S (ops ctx))) as [e|] eqn:Hbegin.
  - cbv beta iota. cbn [database snapshot]. split; [reflexivity|]. split; [exact Hsnap|]. left. reflexivity.
  - unfold using_transaction, catch.
    assert (Hclean : clean env (ops ctx) (S (S (ops ctx)))).
    { apply clean_step; [apply clean_step; [intros j Hj; lia | exact Hlookup] | exact Hbegin]. }
    match goal with
    | |- context [import_transaction lib env uploadData ?h ?c] =>
        pose proof (import_transaction_spec lib env uploadData h (database ctx) c
                      eq_refl eq_refl Htr (ops ctx)) as Hspec;
        cbn [ops entities] in Hspec;
        specialize (Hspec ltac:(lia) Hclean);
        destruct (import_transaction lib env uploadData h c) as [[response|e] ctx'] eqn:Hrun
    end.
    + destruct Hspec as (ec & tr & H1 & H2 & H3 & H4).
      assert (HD : Dispose ctx' = ctx').
      { unfold Dispose. destruct H4 as (Hnone & _). rewrite Hnone. reflexivity. }
      cbv beta iota. rewrite HD. exists ec, tr.
      split; [exact H1|]. split; [exact H2|]. split; [exact H3 | exact H4].
    + destruct Hspec as [Hs He].
      unfold bind, RollbackAsync, db_call, throw.
      destruct (fault env (ops ctx')) as [raised|] eqn:Hroll.
      * cbv beta iota. unfold Dispose. cbn [snapshot database tracked ops entities].
        rewrite Hs. cbn [snapshot database tracked ops entities pred].
        split; [reflexivity|]. split; [reflexivity|]. right. exists e.
        split; [exact He|]. unfold after_rollback. rewrite Hroll. reflexivity.
      * cbv beta iota. unfold Dispose at 2. cbn [snapshot database tracked ops entities].
        rewrite Hs.
        unfold Dispose. cbn [snapshot database tracked ops entities pred].
        split; [reflexivity|]. split; [reflexivity|]. right. exists e.
        split; [exact He|]. unfold after_rollback. rewrite Hroll. reflexivity.
Qed.

End UploadSpec.

(** ** Atomicity *)




(** ** Idempotence *)

Lemma CalculateFileHash_Sheets lib uploadData1 uploadData2 :
  up_Sheets uploadData1 = up_Sheets uploadData2 ->
  CalculateFileHash lib uploadData1 = CalculateFileHash lib uploadData2.
Proof. intros H. unfold CalculateFileHash. rewrite H. reflexivity. Qed.

Lemma replace_session_fresh completed l :
  ~ In (s_Id completed) (map s_Id l) -> replace_session completed l = l.
Proof.
  induction l as [|x l IH]; intros H; [reflexivity|].
  cbn in *. destruct (Z.eqb_spec (s_Id x) (s_Id completed)) as [Heq|Hne].
  - exfalso. apply H. left. exact Heq.
  - f_equal. apply IH. intros Hin. apply H. right. exact Hin.
Qed.

Lemma replace_session_new completed session l :
  s_Id completed = s_Id session ->
  ~ In (s_Id session) (map s_Id l) ->
  replace_session completed (l ++ [session]) = (l ++ [completed])%list.
Proof.
  intros Hid Hfresh. unfold replace_session. rewrite map_app.
  fold (replace_session completed l).
  rewrite replace_session_fresh by (rewrite Hid; exact Hfresh).
  cbn. rewrite Hid, Z.eqb_refl. reflexivity.
Qed.

Lemma find_app_none {A} (f : A -> bool) (l : list A) (x : A) :
  find f l = None -> f x = true -> find f (l ++ [x]) = Some x.
Proof.
  induction l as [|y l IH]; cbn; intros Hn Hx.
  - rewrite Hx. reflexivity.
  - destruct (f y); [discriminate | apply IH; assumption].
Qed.

Lemma hash_matches_spec fileHash s :
  hash_matches fileHash s = true <-> s_FileHash s = Some fileHash.
Proof.
  unfold hash_matches. destruct (s_FileHash s) as [h|].
  - rewrite String.eqb_eq. split; [intros ->; reflexivity | intros H; injection H; auto].
  - split; discriminate.
Qed.

Lemma find_fingerprint fileHash sessions :
  (exists s, In s sessions /\ s_FileHash s = Some fileHash) ->
  exists existing,
    find (hash_matches fileHash) sessions = Some existing
    /\ In existing sessions /\ s_FileHash existing = Some fileHash.
Proof.
  intros (s & Hin & Hs).
  destruct (find (hash_matches fileHash) sessions) as [existing|] eqn:Hf.
  - exists existing. split; [reflexivity|].
    destruct (find_some_In _ _ _ Hf) as [H1 H2].
    split; [exact H1 | apply hash_matches_spec, H2].
  - exfalso. pose proof (find_none _ _ Hf s Hin) as Hn.
    apply hash_matches_spec in Hs. congruence.
Qed.

Lemma fingerprint_count_none fileHash sessions :
  find (hash_matches fileHash) sessions = None ->
  count_occ option_string_dec (map s_FileHash sessions) (Some fileHash) = 0%nat.
Proof.
  intros Hf. apply count_occ_not_In. intros Hin. apply in_map_iff in Hin.
  destruct Hin as (s & Hs & Hin).
  pose proof (find_none _ _ Hf s Hin) as Hn.
  apply hash_matches_spec in Hs. congruence.
Qed.

Lemma fingerprint_count_some fileHash sessions existing :
  find (hash_matches fileHash) sessions = Some existing ->
  (1 <= count_occ option_string_dec (map s_FileHash sessions) (Some fileHash))%nat.
Proof.
  intros Hf. destruct (find_some_In _ _ _ Hf) as [Hin Hm].
  apply hash_matches_spec in Hm.
  apply (count_occ_In option_string_dec). rewrite <- Hm. apply in_map, Hin.
Qed.

(** C2.  When a stored session carries the digest of the upload's sheets and
    the lookup does not fail, the upload returns the id and the stored counts
    of a stored session that carries this digest, and leaves the database,
    the tracked changes and the open transaction, if any, as they were;
    nothing is constructed.  Hence, from an idle context whose database holds
    the digest at most once and for a fresh session identifier, a successful
    upload followed by an upload of the same sheets under any file name
    returns the same session id, changes nothing in the database, and leaves
    exactly one session with that digest. *)
Theorem C2_duplicate_upload lib :
  (forall env uploadData ctx,
     fault env (ops ctx) = None ->
     (exists s, In s (ImportSessions (database ctx))
                /\ s_FileHash s = Some (CalculateFileHash lib uploadData)) ->
     exists response ctx' existing,
       SaveExcelDataAsync lib env uploadData ctx = (Ok response, ctx')
       /\ In existing (ImportSessions (database ctx))
       /\ s_FileHash existing = Some (CalculateFileHash lib uploadData)
       /\ r_SessionId response = s_Id existing
       /\ r_ProcessedSheets response = s_ProcessedSheets existing
       /\ r_TotalRows response = s_TotalRows existing
       /\ r_ExcludedSheets response = s_ExcludedSheets existing
       /\ database ctx' = database ctx
       /\ tracked ctx' = tracked ctx
       /\ snapshot ctx' = snapshot ctx
       /\ entities ctx' = entities ctx)
  /\ (forall env1 env2 uploadData1 uploadData2 ctx response1 ctx1,
        up_Sheets uploadData1 = up_Sheets uploadData2 ->
        idle ctx ->
        (fingerprint_count (CalculateFileHash lib uploadData1) (database ctx) <= 1)%nat ->
        ~ In (NewGuid env1 (entities ctx)) (map s_Id (ImportSessions (database ctx))) ->
        SaveExcelDataAsync lib env1 uploadData1 ctx = (Ok response1, ctx1) ->
        fault env2 (ops ctx1) = None ->
        exists response2 ctx2,
          SaveExcelDataAsync lib env2 uploadData2 ctx1 = (Ok response2, ctx2)
          /\ database ctx2 = database ctx1
          /\ r_SessionId response2 = r_SessionId response1
          /\ fingerprint_count (CalculateFileHash lib uploadData1) (database ctx2)
             = 1%nat).
Proof.
  split.
  - intros env uploadData ctx Hlookup Hex.
    destruct (find_fingerprint _ _ Hex) as (existing & Hf & Hin & Hhash).
    exists (duplicate_response existing), (after_call ctx), existing.
    split; [apply SaveExcelDataAsync_duplicate; assumption|].
    split; [exact Hin|]. split; [exact Hhash|]. repeat split.
  - intros env1 env2 up1 up2 ctx response1 ctx1 Hsheets Hidle Hone Hfresh Hrun Hlookup2.
    pose proof (CalculateFileHash_Sheets lib up1 up2 Hsheets) as Hhash.
    assert (Hlookup1 : fault env1 (ops ctx) = None).
    { destruct (fault env1 (ops ctx)) as [e|] eqn:Hfault; [|reflexivity].
      rewrite (SaveExcelDataAsync_lookup_fails lib env1 up1 ctx e Hfault) in Hrun.
      discriminate. }
    unfold fingerprint_count in *.
    destruct (find (hash_matches (CalculateFileHash lib up1)) (ImportSessions (database ctx)))
      as [existing|] eqn:Hf.
    + rewrite (SaveExcelDataAsync_duplicate lib env1 up1 ctx existing Hlookup1 Hf) in Hrun.
      injection Hrun as <- <-.
      exists (duplicate_response existing), (after_call (after_call ctx)). split.
      * apply SaveExcelDataAsync_duplicate; [exact Hlookup2|].
        rewrite <- Hhash. exact Hf.
      * split; [reflexivity|]. split; [reflexivity|].
        pose proof (fingerprint_count_some _ _ _ Hf) as Hge.
        cbn [after_call database]. lia.
    + pose proof (SaveExcelDataAsync_new lib env1 up1 ctx Hidle Hlookup1 Hf) as H.
      rewrite Hrun in H.
      destruct H as (excludedCount & totalRows & _ & _ & -> & (_ & _ & Hsessions & _)).
      set (session := new_ImportSession up1 (CalculateFileHash lib up1)
                        (NewGuid env1 (entities ctx)) (UtcNow env1 (entities ctx))
                        excludedCount totalRows) in *.
      rewrite (replace_session_new (with_completed env1 session) session) in Hsessions
        by (try reflexivity; exact Hfresh).
      assert (Hm : s_FileHash (with_completed env1 session)
                   = Some (CalculateFileHash lib up1)) by reflexivity.
      exists (duplicate_response (with_completed env1 session)), (after_call ctx1). split.
      * apply SaveExcelDataAsync_duplicate; [exact Hlookup2|].
        rewrite <- Hhash, Hsessions.
        apply find_app_none; [exact Hf | apply hash_matches_spec, Hm].
      * split; [reflexivity|]. split; [reflexivity|].
        cbn [after_call database]. rewrite Hsessions, map_app, count_occ_app.
        rewrite (fingerprint_count_none _ _ Hf). cbn [map].
        rewrite Hm. apply count_occ_cons_eq. reflexivity.
Qed.

Lemma C2_duplicate_upload_witness :
  exists response1 ctx1 response2 ctx2,
    SaveExcelDataAsync Sample.lib later_env two_sheet_upload (new_context sample_db)
    = (Ok response1, ctx1)
    /\ SaveExcelDataAsync Sample.lib sample_env
         {| up_FileName := "copy.xlsx"; up_ImportedBy := Some "someone";
            up_Metadata := up_Metadata sample_upload;
            up_Sheets := up_Sheets two_sheet_upload |}
         ctx1
       = (Ok response2, ctx2)
    /\ database ctx2 = database ctx1
    /\ r_SessionId response2 = r_SessionId response1
    /\ map s_Id (ImportSessions (database ctx2)) = [100; 200]
    /\ r_SessionId response2 = 200
    /\ fingerprint_count (CalculateFileHash Sample.lib two_sheet_upload) (database ctx2)
       = 1%nat.
Proof.
  destruct (SaveExcelDataAsync Sample.lib later_env two_sheet_upload (new_context sample_db))
    as [[response1|e] ctx1] eqn:Hrun.
  2:{ vm_compute in Hrun. discriminate. }
  exists response1, ctx1.
  assert (Hone : (fingerprint_count (CalculateFileHash Sample.lib two_sheet_upload)
                    (database (new_context sample_db)) <= 1)%nat)
    by (vm_compute; lia).
  assert (Hfresh : ~ In (NewGuid later_env (entities (new_context sample_db)))
                        (map s_Id (ImportSessions (database (new_context sample_db)))))
    by (cbn; intros [H|[]]; discriminate).
  assert (Hlookup : fault sample_env (ops ctx1) = None) by reflexivity.
  destruct (proj2 (C2_duplicate_upload Sample.lib) later_env sample_env two_sheet_upload
              {| up_FileName := "copy.xlsx"; up_ImportedBy := Some "someone";
                 up_Metadata := up_Metadata sample_upload;
                 up_Sheets := up_Sheets two_sheet_upload |}
              (new_context sample_db) response1 ctx1
              eq_refl (conj eq_refl eq_refl) Hone Hfresh Hrun Hlookup)
    as (response2 & ctx2 & H2 & Hdb & Hid & Hcount).
  exists response2, ctx2.
  split; [reflexivity|]. split; [exact H2|]. split; [exact Hdb|]. split; [exact Hid|].
  assert (Hfacts : map s_Id (ImportSessions (database ctx1)) = [100; 200]
                   /\ r_SessionId response1 = 200).
  { vm_compute in Hrun. injection Hrun as <- <-. split; reflexivity. }
  destruct Hfacts as [Hids Hr1].
  split; [rewrite Hdb; exact Hids|]. split; [rewrite Hid; exact Hr1 | exact Hcount].
Defined.

(** ** Persisted rows carry no null *)

Lemma set_Item_In {V} (d : Dictionary V) key x k v :
  In (k, v) (set_Item d key x) -> (k, v) = (key, x) \/ In (k, v) d.
Proof.
  induction d as [|[k' w] d IH]; cbn.
  - intros [H|[]]. left. symmetry. exact H.
  - destruct (String.eqb_spec k' key) as [->|Hne]; cbn.
    + intros [H|H]; [left; symmetry; exact H | right; right; exact H].
    + intros [H|H]; [right; left; exact H|].
      destruct (IH H) as [Heq|Hin]; [left; exact Heq | right; right; exact Hin].
Qed.

Lemma set_Item_fresh {V} (d : Dictionary V) key v :
  ~ In key (Keys d) -> set_Item d key v = (d ++ [(key, v)])%list.
Proof.
  induction d as [|[k w] d IH]; intros H; [reflexivity|].
  cbn in *. destruct (String.eqb_spec k key) as [->|Hne].
  - exfalso. apply H. left. reflexivity.
  - f_equal. apply IH. intros Hin. apply H. right. exact Hin.
Qed.

Lemma ConvertJsonElement_stored lib element :
  stored_value (ConvertJsonElement lib element).
Proof. destruct element; exact I. Qed.

Lemma prepared_stored lib v :
  stored_value (coalesce_NA (match v with
                             | O_JsonElement jsonElement => ConvertJsonElement lib jsonElement
                             | _ => v
                             end)).
Proof.
  destruct v; try exact I.
  pose proof (ConvertJsonElement_stored lib e) as Hs.
  destruct (ConvertJsonElement lib e); cbn in *; exact Hs || exact I.
Qed.

Lemma convert_entries_stored lib row acc :
  (forall k v, In (k, v) acc -> stored_value v) ->
  forall k v, In (k, v) (convert_entries lib row acc) -> stored_value v.
Proof.
  revert acc. induction row as [|[key x] row IH]; intros acc Hacc k v Hin; cbn in Hin.
  - apply (Hacc k v Hin).
  - refine (IH _ _ k v Hin). intros k' v' H'.
    destruct (set_Item_In _ _ _ _ _ H') as [Heq|Hold]; [|exact (Hacc k' v' Hold)].
    injection Heq as _ ->. apply prepared_stored.
Qed.

(** With unique field names the prepared row has the fields of the incoming
    row, in the same order, each with its prepared value. *)
Lemma convert_entries_unique lib row acc :
  NoDup (Keys row) ->
  (forall k, In k (Keys row) -> ~ In k (Keys acc)) ->
  convert_entries lib row acc
  = (acc ++ map (fun kv =>
                   (fst kv,
                    coalesce_NA (match snd kv with
                                 | O_JsonElement jsonElement =>
                                     ConvertJsonElement lib jsonElement
                                 | _ => snd kv
                                 end))) row)%list.
Proof.
  revert acc. induction row as [|[key x] row IH]; intros acc Hnd Hfresh.
  - cbn. rewrite app_nil_r. reflexivity.
  - cbn [Keys map fst] in Hnd. inversion Hnd as [|? ? Hnot Hnd']; subst.
    cbn [convert_entries].
    rewrite set_Item_fresh by (apply Hfresh; left; reflexivity).
    rewrite IH.
    + rewrite <- app_assoc. cbn [map app fst snd]. reflexivity.
    + exact Hnd'.
    + intros k Hk Hin. unfold Keys in Hin. rewrite map_app in Hin.
      apply in_app_or in Hin. destruct Hin as [Hin|[Heq|[]]].
      * apply (Hfresh k); [right; exact Hk | exact Hin].
      * cbn in Heq. subst k. apply Hnot, Hk.
Qed.

Lemma ConvertJsonElementsToValues_unique lib row :
  NoDup (Keys row) ->
  ConvertJsonElementsToValues lib row
  = map (fun kv =>
           (fst kv,
            coalesce_NA (match snd kv with
                         | O_JsonElement jsonElement => ConvertJsonElement lib jsonElement
                         | _ => snd kv
                         end))) row.
Proof.
  intros Hnd. unfold ConvertJsonElementsToValues.
  rewrite convert_entries_unique; [reflexivity | exact Hnd | intros k _ []].
Qed.

(** The text of a row. *)
Lemma Serialize_row_text lib d :
  Serialize_row lib d
  = object_text (map (fun kv => (fst kv, Serialize_object lib (snd kv))) d).
Proof.
  unfold Serialize_row, Serialize_Dictionary, object_text. rewrite map_map. reflexivity.
Qed.

Lemma Int64_ToString_not_null n : Int64_ToString n <> "null".
Proof.
  unfold Int64_ToString.
  destruct (Z.to_int n) as [u|u]; destruct u; cbn; discriminate.
Qed.

Lemma stored_value_text lib v :
  (forall d, Double_ToJson lib d <> "null") ->
  stored_value v ->
  scalar_text lib (Serialize_object lib v) /\ Serialize_object lib v <> "null".
Proof.
  intros Hd Hv. destruct v as [|s|n|d|b|e]; cbn in Hv; try contradiction;
    cbn [Serialize_object]; unfold scalar_text.
  - split; [left; exists s; reflexivity|].
    unfold Serialize_string, quoted. discriminate.
  - split; [right; left; exists n; reflexivity | apply Int64_ToString_not_null].
  - split; [right; right; left; exists d; reflexivity | apply Hd].
  - destruct b; cbn; (split; [auto | discriminate]).
Qed.

Lemma prepared_row_text lib row :
  (forall d, Double_ToJson lib d <> "null") ->
  payload_without_null lib (Serialize_row lib (ConvertJsonElementsToValues lib row)).
Proof.
  intros Hd. eexists. split; [apply Serialize_row_text|].
  apply Forall_forall. intros m Hm. apply in_map_iff in Hm.
  destruct Hm as ([k v] & <- & Hin). cbn [snd].
  apply (stored_value_text lib v Hd).
  revert Hin. unfold ConvertJsonElementsToValues.
  apply convert_entries_stored. intros ? ? [].
Qed.

Lemma has_char_app c a b : has_char c (a ++ b) = has_char c a || has_char c b.
Proof.
  induction a as [|x a IH]; [reflexivity|]. cbn. rewrite IH, orb_assoc. reflexivity.
Qed.

(** The sample number writer never writes [null]. *)
Lemma double_to_json_not_null d : Sample.double_to_json d <> "null".
Proof.
  unfold Sample.double_to_json.
  destruct (Prim2SF d) as [s|s| |s m e].
  - destruct s; discriminate.
  - destruct s; unfold quoted; discriminate.
  - unfold quoted; discriminate.
  - intros H. apply (f_equal (has_char ".")) in H. revert H.
    destruct (0 <=? e); rewrite !has_char_app;
      cbn; rewrite ?orb_true_r; discriminate.
Qed.

(** C9.  Provided the number writer never writes [null] for a [double]:
    every value of a row prepared for storage is a string, a number or a
    boolean; with unique field names the prepared row has the field names of
    the incoming row, and a field whose incoming value is [null], or a
    [JsonElement] of kind Null or Undefined, holds "N/A"; the text of a
    prepared row is a JSON object whose member values are texts of strings,
    numbers and booleans, none of them [null]; and after a successful upload
    every row of the database is a row that was there before or has such a
    text as its payload. *)
Theorem C9_persisted_rows_have_no_null lib :
  (forall d, Double_ToJson lib d <> "null") ->
  (forall row key value,
     In (key, value) (ConvertJsonElementsToValues lib row) -> stored_value value)
  /\ (forall row, NoDup (Keys row) ->
        Keys (ConvertJsonElementsToValues lib row) = Keys row)
  /\ (forall row key v,
        NoDup (Keys row) -> In (key, v) row ->
        v = O_null \/ v = O_JsonElement JE_Null \/ v = O_JsonElement JE_Undefined ->
        TryGetValue (ConvertJsonElementsToValues lib row) key = Some (O_string "N/A"))
  /\ (forall row,
        payload_without_null lib (Serialize_row lib (ConvertJsonElementsToValues lib row)))
  /\ (forall env uploadData ctx response ctx',
        idle ctx ->
        SaveExcelDataAsync lib env uploadData ctx = (Ok response, ctx') ->
        forall r, In r (SheetDataRows (database ctx')) ->
          In r (SheetDataRows (database ctx))
          \/ payload_without_null lib (sd_RowData r)).
Proof.
  intros Hd.
  assert (Hkeys : forall row, NoDup (Keys row) ->
            Keys (ConvertJsonElementsToValues lib row) = Keys row).
  { intros row Hnd. rewrite (ConvertJsonElementsToValues_unique lib row Hnd).
    unfold Keys. rewrite map_map. reflexivity. }
  split; [|split; [exact Hkeys|split; [|split]]].
  - intros row key value. unfold ConvertJsonElementsToValues.
    apply convert_entries_stored. intros k v [].
  - intros row key v Hnd Hin Hv. apply TryGetValue_In.
    + rewrite (Hkeys row Hnd). exact Hnd.
    + rewrite (ConvertJsonElementsToValues_unique lib row Hnd).
      apply in_map_iff. exists (key, v). split; [|exact Hin].
      cbn [fst snd]. destruct Hv as [-> | [-> | ->]]; reflexivity.
  - intros row. apply prepared_row_text. exact Hd.
  - intros env uploadData ctx response ctx' Hidle Hrun r Hr.
    destruct (fault env (ops ctx)) as [e|] eqn:Hlookup.
    { rewrite (SaveExcelDataAsync_lookup_fails lib env uploadData ctx e Hlookup) in Hrun.
      discriminate. }
    destruct (find (hash_matches (CalculateFileHash lib uploadData))
                (ImportSessions (database ctx))) as [existing|] eqn:Hf.
    + rewrite (SaveExcelDataAsync_duplicate lib env uploadData ctx existing Hlookup Hf)
        in Hrun.
      injection Hrun as _ <-. left. exact Hr.
    + pose proof (SaveExcelDataAsync_new lib env uploadData ctx Hidle Hlookup Hf) as H.
      rewrite Hrun in H. destruct H as (ec & totalRows & _ & _ & _ & (_ & _ & _ & Hrows)).
      rewrite Forall_forall in Hrows.
      destruct (Hrows r Hr) as [Hold | [row Hrow]]; [left; exact Hold|].
      right. rewrite Hrow. apply prepared_row_text. exact Hd.
Qed.

Lemma C9_persisted_rows_have_no_null_witness :
  exists response ctx',
    SaveExcelDataAsync Sample.lib sample_env two_sheet_upload (new_context empty_Database)
    = (Ok response, ctx')
    /\ map sd_RowData (SheetDataRows (database ctx'))
       = [object_text [("Item", Serialize_string "bolt"); ("Qty", "3.0")];
          object_text [("Item", Serialize_string "nut"); ("Qty", "4.0")];
          object_text [("Item", Serialize_string "gear"); ("Qty", Serialize_string "N/A")];
          object_text [("Item", Serialize_string "bolt")];
          object_text [("Item", Serialize_string "N/A")]]
    /\ Forall (fun r => payload_without_null Sample.lib (sd_RowData r))
              (SheetDataRows (database ctx')).
Proof.
  destruct (SaveExcelDataAsync Sample.lib sample_env two_sheet_upload
              (new_context empty_Database))
    as [[response|e] ctx'] eqn:Hrun.
  2:{ vm_compute in Hrun. discriminate. }
  exists response, ctx'. split; [reflexivity|]. split.
  - vm_compute in Hrun. injection Hrun as _ <-. vm_compute. reflexivity.
  - apply Forall_forall. intros r Hr.
    destruct (proj2 (proj2 (proj2 (proj2
                (C9_persisted_rows_have_no_null Sample.lib double_to_json_not_null))))
                sample_env two_sheet_upload (new_context empty_Database) response ctx'
                (conj eq_refl eq_refl) Hrun r Hr) as [[] | H].
    exact H.
Defined.

(** ** Search ordering *)

Section Sorting.

Context {A : Type} (leb : A -> A -> bool).
Hypothesis leb_total : forall a b, leb a b = true \/ leb b a = true.
Hypothesis leb_trans : forall a b c, leb a b = true -> leb b c = true -> leb a c = true.

Let le (a b : A) : Prop := leb a b = true.

Lemma insert_sorted_HdRel a x l :
  HdRel le a l -> le a x -> HdRel le a (insert_sorted leb x l).
Proof.
  intros Hl Hx. destruct l as [|y l]; cbn; [constructor; exact Hx|].
  destruct (leb x y); constructor; [exact Hx|].
  inversion Hl; assumption.
Qed.

Lemma insert_sorted_Sorted x l :
  Sorted le l -> Sorted le (insert_sorted leb x l).
Proof.
  induction 1 as [|y l Hs IH Hd]; cbn; [repeat constructor|].
  destruct (leb x y) eqn:E.
  - constructor; [constructor; assumption | constructor; exact E].
  - constructor; [exact IH|].
    apply insert_sorted_HdRel; [exact Hd|].
    destruct (leb_total x y) as [H|H]; [congruence | exact H].
Qed.

Lemma OrderBy_Sorted l : Sorted le (OrderBy leb l).
Proof.
  induction l as [|x l IH]; cbn; [constructor | apply insert_sorted_Sorted, IH].
Qed.

Lemma OrderBy_StronglySorted l : StronglySorted le (OrderBy leb l).
Proof.
  apply Sorted_StronglySorted; [|apply OrderBy_Sorted].
  intros a b c. apply leb_trans.
Qed.

End Sorting.

Lemma StronglySorted_skipn {A} (R : A -> A -> Prop) n l :
  StronglySorted R l -> StronglySorted R (skipn n l).
Proof.
  revert l. induction n as [|n IH]; intros l H; [exact H|].
  destruct l as [|x l]; [constructor|]. cbn. apply IH.
  inversion H; assumption.
Qed.

Lemma StronglySorted_firstn {A} (R : A -> A -> Prop) n l :
  StronglySorted R l -> StronglySorted R (firstn n l).
Proof.
  revert l. induction n as [|n IH]; intros l H; [constructor|].
  destruct l as [|x l]; [constructor|]. cbn.
  inversion H as [|? ? Hs Hf]; subst. constructor; [apply IH, Hs|].
  rewrite Forall_forall in *. intros y Hy. apply Hf.
  exact (firstn_In _ _ _ Hy).
Qed.

Lemma search_leb_spec a b : search_leb a b = true <-> row_before a b.
Proof.
  unfold search_leb, row_before, search_key, key_before.
  destruct (Z.ltb_spec (s_ImportedAt (j_session b)) (s_ImportedAt (j_session a)));
    [intuition lia|].
  destruct (Z.ltb_spec (s_ImportedAt (j_session a)) (s_ImportedAt (j_session b)));
    [intuition (lia || discriminate)|].
  destruct (Z.ltb_spec (sh_SheetIndex (j_sheet a)) (sh_SheetIndex (j_sheet b)));
    [intuition lia|].
  destruct (Z.ltb_spec (sh_SheetIndex (j_sheet b)) (sh_SheetIndex (j_sheet a)));
    [intuition (lia || discriminate)|].
  rewrite Z.leb_le. intuition lia.
Qed.

Lemma key_before_total k1 k2 : key_before k1 k2 \/ key_before k2 k1.
Proof. destruct k1 as [[t1 i1] r1], k2 as [[t2 i2] r2]. cbn. lia. Qed.

Lemma key_before_trans k1 k2 k3 :
  key_before k1 k2 -> key_before k2 k3 -> key_before k1 k3.
Proof.
  destruct k1 as [[t1 i1] r1], k2 as [[t2 i2] r2], k3 as [[t3 i3] r3]. cbn. lia.
Qed.

Lemma key_before_antisym k1 k2 : key_before k1 k2 -> key_before k2 k1 -> k1 = k2.
Proof.
  destruct k1 as [[t1 i1] r1], k2 as [[t2 i2] r2]. cbn. intros H1 H2.
  assert (t1 = t2 /\ i1 = i2 /\ r1 = r2) as (-> & -> & ->) by lia. reflexivity.
Qed.

Lemma search_order_sorted l :
  StronglySorted row_before (OrderBy search_leb l).
Proof.
  assert (H : StronglySorted (fun a b => search_leb a b = true) (OrderBy search_leb l)).
  { apply OrderBy_StronglySorted.
    - intros a b. rewrite !search_leb_spec. apply key_before_total.
    - intros a b c. rewrite !search_leb_spec. apply key_before_trans. }
  induction H as [|x l' Hs IH Hf]; constructor; [exact IH|].
  eapply Forall_impl; [|exact Hf]. intros b. apply search_leb_spec.
Qed.

(** Sorted lists of keys that are permutations of each other are equal. *)
Lemma sorted_keys_unique (l1 l2 : list (Z * Z * Z)) :
  StronglySorted key_before l1 -> StronglySorted key_before l2 ->
  Permutation l1 l2 -> l1 = l2.
Proof.
  revert l2. induction l1 as [|x l1 IH]; intros l2 S1 S2 P.
  - apply Permutation_nil in P. subst. reflexivity.
  - destruct l2 as [|y l2]; [symmetry in P; apply Permutation_nil in P; discriminate|].
    inversion S1 as [|? ? S1' F1]; subst. inversion S2 as [|? ? S2' F2]; subst.
    rewrite Forall_forall in F1, F2.
    assert (Hxy : x = y).
    { assert (Hy : In y (x :: l1)) by (eapply Permutation_in; [symmetry; exact P | left; reflexivity]).
      assert (Hx : In x (y :: l2)) by (eapply Permutation_in; [exact P | left; reflexivity]).
      destruct Hy as [Hy|Hy]; [exact Hy|]. destruct Hx as [Hx|Hx]; [symmetry; exact Hx|].
      apply key_before_antisym; [apply F1, Hy | apply F2, Hx]. }
    subst y. f_equal. apply IH; [assumption | assumption |].
    eapply Permutation_cons_inv. exact P.
Qed.

Lemma StronglySorted_map {A B} (f : A -> B) (R : B -> B -> Prop) l :
  StronglySorted (fun a b => R (f a) (f b)) l -> StronglySorted R (map f l).
Proof.
  induction 1 as [|x l Hs IH Hf]; cbn; constructor; [exact IH|].
  rewrite Forall_forall in *. intros y Hy. apply in_map_iff in Hy.
  destruct Hy as (a & <- & Ha). apply Hf, Ha.
Qed.

Lemma Permutation_filter_ {A} (f : A -> bool) l1 l2 :
  Permutation l1 l2 -> Permutation (filter f l1) (filter f l2).
Proof.
  induction 1 as [|x l1 l2 _ IH|x y l|l1 l2 l3 _ IH1 _ IH2]; cbn.
  - constructor.
  - destruct (f x); [constructor|]; exact IH.
  - destruct (f x), (f y); try reflexivity. apply perm_swap.
  - etransitivity; eassumption.
Qed.

Lemma Permutation_filter_map {A B} (f : A -> option B) l1 l2 :
  Permutation l1 l2 -> Permutation (filter_map f l1) (filter_map f l2).
Proof.
  induction 1 as [|x l1 l2 _ IH|x y l|l1 l2 l3 _ IH1 _ IH2]; cbn.
  - constructor.
  - destruct (f x); [constructor|]; exact IH.
  - destruct (f x), (f y); try reflexivity. apply perm_swap.
  - etransitivity; eassumption.
Qed.

Lemma filter_map_ext {A B} (f g : A -> option B) l :
  (forall x, f x = g x) -> filter_map f l = filter_map g l.
Proof.
  intros H. induction l as [|x l IH]; cbn; [reflexivity|].
  rewrite H, IH. reflexivity.
Qed.

(** Looking a record up by a unique key does not depend on storage order. *)
Lemma find_by_id_Permutation {A} (id : A -> Z) (k : Z) (l1 l2 : list A) :
  NoDup (map id l1) -> Permutation l1 l2 ->
  find (fun x => id x =? k) l1 = find (fun x => id x =? k) l2.
Proof.
  intros N P.
  assert (N2 : NoDup (map id l2)) by (eapply Permutation_NoDup; [apply Permutation_map; exact P | exact N]).
  assert (U : forall l, NoDup (map id l) -> forall x y, In x l -> In y l -> id x = id y -> x = y).
  { induction l as [|a l IH]; cbn; intros Hn x y Hx Hy Hid; [contradiction|].
    inversion Hn as [|? ? Ha Hn']; subst.
    destruct Hx as [<-|Hx], Hy as [<-|Hy]; try reflexivity.
    - exfalso. apply Ha. rewrite Hid. apply in_map, Hy.
    - exfalso. apply Ha. rewrite <- Hid. apply in_map, Hx.
    - apply IH; assumption. }
  destruct (find (fun x => id x =? k) l1) as [x|] eqn:E1;
    destruct (find (fun x => id x =? k) l2) as [y|] eqn:E2; try reflexivity.
  - apply find_some in E1, E2. destruct E1 as [Hx Hkx], E2 as [Hy Hky].
    f_equal. apply (U l2 N2); [eapply Permutation_in; eassumption | exact Hy |].
    apply Z.eqb_eq in Hkx, Hky. congruence.
  - apply find_some in E1. destruct E1 as [Hx Hkx].
    pose proof (find_none _ _ E2 x (Permutation_in _ P Hx)) as Hn. cbn in Hn. congruence.
  - apply find_some in E2. destruct E2 as [Hy Hky].
    pose proof (find_none _ _ E1 y (Permutation_in _ (Permutation_sym P) Hy)) as Hn.
    cbn in Hn. congruence.
Qed.

Lemma join_row_same_records db1 db2 sd :
  unique_ids db1 -> same_records db1 db2 -> join_row db1 sd = join_row db2 sd.
Proof.
  intros [Ns Nh] (Ps & Ph & _). unfold join_row.
  rewrite (find_by_id_Permutation sh_Id (sd_SheetId sd) _ _ Nh Ph).
  destruct (find _ (Sheets db2)) as [sh|]; [|reflexivity].
  rewrite (find_by_id_Permutation s_Id (sh_SessionId sh) _ _ Ns Ps). reflexivity.
Qed.

Lemma search_query_same_records lib db1 db2 searchRequest :
  unique_ids db1 -> same_records db1 db2 ->
  Permutation (search_query lib db1 searchRequest) (search_query lib db2 searchRequest).
Proof.
  intros U S. unfold search_query.
  assert (P : Permutation (filter_map (join_row db1) (SheetDataRows db1))
                          (filter_map (join_row db2) (SheetDataRows db2))).
  { rewrite (filter_map_ext (join_row db1) (join_row db2))
      by (intros; apply join_row_same_records; assumption).
    apply Permutation_filter_map. apply S. }
  destruct (rq_SessionId searchRequest); repeat apply Permutation_filter_; exact P.
Qed.

(** C6.  The rows of a search page are ordered by the session's imported-at
    descending, then the sheet's index ascending, then the row index
    ascending; the results returned are these rows, in this order; and with
    unique primary keys the sequence of sort keys on the page is the same
    for every storage order of the same records. *)
Theorem C6_search_order lib db searchRequest rows :
  search_page lib db searchRequest = Ok rows ->
  StronglySorted row_before rows
  /\ (exists response,
        SearchDataAsync lib db searchRequest = Ok response
        /\ Forall2 (fun j r => sr_ImportedAt r = s_ImportedAt (j_session j)
                               /\ sr_SessionId r = sh_SessionId (j_sheet j)
                               /\ sr_SheetName r = sh_SheetName (j_sheet j)
                               /\ sr_RowIndex r = sd_RowIndex (j_row j))
             rows (Data response))
  /\ (forall db',
        unique_ids db -> same_records db db' ->
        exists rows',
          search_page lib db' searchRequest = Ok rows'
          /\ map search_key rows' = map search_key rows).
Proof.
  intros Hpage. unfold search_page, SkipTake in Hpage.
  destruct (_ <? 0) eqn:Eo; [discriminate|].
  destruct (rq_PageSize searchRequest <=? 0) eqn:Es; [discriminate|].
  injection Hpage as <-.
  split; [|split].
  - apply StronglySorted_firstn, StronglySorted_skipn, search_order_sorted.
  - unfold SearchDataAsync, search_page, SkipTake. rewrite Eo, Es. cbn [exc_bind].
    rewrite search_results_total. cbn [exc_bind]. eexists. split; [reflexivity|].
    cbn [Data].
    generalize (firstn (Z.to_nat (rq_PageSize searchRequest))
                  (skipn (Z.to_nat (wrap32 (wrap32 (rq_PageNumber searchRequest - 1)
                                            * rq_PageSize searchRequest)))
                     (OrderBy search_leb (search_query lib db searchRequest)))).
    intros l. induction l as [|j l IH]; cbn; constructor; [repeat split | exact IH].
  - intros db' U S. unfold search_page, SkipTake. rewrite Eo, Es.
    eexists. split; [reflexivity|].
    rewrite <- !firstn_map, <- !skipn_map. do 2 f_equal.
    apply sorted_keys_unique.
    + apply StronglySorted_map. apply search_order_sorted.
    + apply StronglySorted_map. apply search_order_sorted.
    + apply Permutation_map.
      rewrite <- (OrderBy_Permutation search_leb (search_query lib db' searchRequest)).
      rewrite <- (OrderBy_Permutation search_leb (search_query lib db searchRequest)).
      symmetry. apply search_query_same_records; assumption.
Qed.

Lemma C6_search_order_witness :
  exists rows,
    search_page Sample.lib two_session_db
      {| rq_SearchTerm := ""; rq_SessionId := None; rq_PageNumber := 1; rq_PageSize := 50 |}
    = Ok rows
    /\ map search_key rows = [(2000, 0, 0); (2000, 0, 1); (1000, 0, 0); (1000, 0, 1)]
    /\ StronglySorted row_before rows.
Proof.
  eexists. split; [vm_compute; reflexivity|]. split; [reflexivity|].
  refine (proj1 (C6_search_order Sample.lib two_session_db
                   {| rq_SearchTerm := ""; rq_SessionId := None;
                      rq_PageNumber := 1; rq_PageSize := 50 |} _ _)).
  vm_compute. reflexivity.
Defined.

(** ** What a successful import writes, exactly *)

Lemma rows_of_app lib env sheetId e i l1 l2 :
  rows_of lib env sheetId e i (l1 ++ l2)
  = (rows_of lib env sheetId e i l1
     ++ rows_of lib env sheetId (e + List.length l1) (i + List.length l1) l2)%list.
Proof.
  revert e i. induction l1 as [|x l1 IH]; intros e i; cbn.
  - rewrite !Nat.add_0_r. reflexivity.
  - rewrite IH. do 3 f_equal; lia.
Qed.

Lemma rows_of_length lib env sheetId e i l :
  List.length (rows_of lib env sheetId e i l) = List.length l.
Proof.
  revert e i. induction l as [|x l IH]; intros e i; cbn; [reflexivity|].
  rewrite IH. reflexivity.
Qed.

Lemma present_app {A} (l1 l2 : list (option A)) :
  present (l1 ++ l2) = (present l1 ++ present l2)%list.
Proof.
  induction l1 as [|[x|] l1 IH]; cbn; [reflexivity | rewrite IH; reflexivity | exact IH].
Qed.

Lemma present_all {A} (l : list (option A)) :
  all_present l -> map Some (present l) = l.
Proof.
  induction 1 as [|[x|] l Hx _ IH]; cbn; [reflexivity | rewrite IH; reflexivity|].
  exfalso. apply Hx. reflexivity.
Qed.

Lemma present_length {A} (l : list (option A)) :
  all_present l -> List.length (present l) = List.length l.
Proof.
  intros H. rewrite <- (present_all l H) at 2. rewrite List.length_map. reflexivity.
Qed.

Lemma all_present_app {A} (l1 l2 : list (option A)) :
  all_present l1 -> all_present l2 -> all_present (l1 ++ l2).
Proof. intros H1 H2. apply Forall_app. split; assumption. Qed.

Section Exact.

Variable lib : Library.
Variable env : Environment.
Variable o0 : nat.
Variable snap : option Database.

Local Notation "'St'" := (at_state env o0 snap).
Local Notation "'Any'" := (fun (_ : Exception) (_ : DbContext) => True).

Lemma new_entity_exact {A} (make : Guid -> DateTime -> A) eff e o :
  triple (St eff e o) (new_entity env make)
         (fun a ctx => a = make (NewGuid env e) (UtcNow env e) /\ St eff (S e) o ctx) Any.
Proof.
  intros ctx (He & Hn & Ho & Hs & Hle & Hc). cbn.
  split; [rewrite Hn; reflexivity|].
  unfold at_state, effective. cbn. rewrite Hn. repeat split; assumption.
Qed.

Lemma Add_exact c eff e o :
  triple (St eff e o) (Add c) (fun _ => St (apply_change eff c) e o) Any.
Proof.
  intros ctx (He & Hn & Ho & Hs & Hle & Hc). cbn.
  unfold at_state, effective in *. cbn. rewrite fold_left_app, He. cbn.
  repeat split; assumption.
Qed.

Lemma SaveChangesAsync_exact eff e o :
  triple (St eff e o) (SaveChangesAsync env)
         (fun _ ctx => St eff e (S o) ctx /\ tracked ctx = []) Any.
Proof.
  intros ctx (He & Hn & Ho & Hs & Hle & Hc).
  unfold SaveChangesAsync, db_call. rewrite Ho.
  destruct (fault env o) as [ex|] eqn:Hf; cbn; [exact I|].
  unfold at_state, effective in *. cbn.
  split; [|reflexivity].
  split; [exact He|]. split; [exact Hn|]. split; [reflexivity|].
  split; [exact Hs|]. split; [lia | apply clean_step; assumption].
Qed.

Lemma make_batch_exact sheetId i rows index eff e o :
  triple (St eff e o) (make_batch lib env sheetId i rows index)
         (fun batch ctx =>
            all_present rows
            /\ batch = rows_of lib env sheetId e (i + index) (present rows)
            /\ St eff (e + List.length rows) o ctx) Any.
Proof.
  revert index e. induction rows as [|row rows IH]; intros index e.
  - apply triple_ret. intros ctx H. split; [constructor|]. split; [reflexivity|].
    rewrite Nat.add_0_r. exact H.
  - cbn [make_batch]. eapply triple_bind; [apply new_entity_exact|].
    intros created. cbn beta.
    destruct row as [row|]; [|intros ctx _; exact I].
    eapply triple_bind with
      (Q' := fun r ctx => r = {| sd_Id := NewGuid env e; sd_SheetId := sheetId;
                                 sd_RowIndex := Z.of_nat (i + index);
                                 sd_RowData := Serialize_row lib
                                                 (ConvertJsonElementsToValues lib row);
                                 sd_CreatedAt := UtcNow env e |}
                         /\ St eff (S e) o ctx).
    { apply triple_ret. intros ctx [-> H]. split; [reflexivity | exact H]. }
    intros r.
    eapply triple_bind with
      (Q' := fun rs ctx => r = {| sd_Id := NewGuid env e; sd_SheetId := sheetId;
                                  sd_RowIndex := Z.of_nat (i + index);
                                  sd_RowData := Serialize_row lib
                                                  (ConvertJsonElementsToValues lib row);
                                  sd_CreatedAt := UtcNow env e |}
                          /\ all_present rows
                          /\ rs = rows_of lib env sheetId (S e) (i + S index) (present rows)
                          /\ St eff (S e + List.length rows) o ctx).
    + intros ctx [Hr H]. specialize (IH (S index) (S e) ctx H).
      destruct (make_batch lib env sheetId i rows (S index) ctx) as [[rs|ex] ctx'];
        [|exact I].
      destruct IH as (Hall & Hrs & H').
      split; [exact Hr|]. split; [exact Hall|]. split; [exact Hrs | exact H'].
    + intros rs. apply triple_ret. intros ctx (-> & Hall & -> & H).
      split; [constructor; [discriminate | exact Hall]|]. split.
      * cbn [present rows_of]. do 2 f_equal. lia.
      * cbn [List.length]. replace (e + S (List.length rows))%nat
          with (S e + List.length rows)%nat by lia. exact H.
Qed.

Lemma add_rows_exact batch eff e o :
  triple (St eff e o) (for_each batch (fun r => Add (Add_SheetData r)))
         (fun _ => St (fold_left apply_change (map Add_SheetData batch) eff) e o) Any.
Proof.
  revert eff. induction batch as [|r batch IH]; intros eff.
  - apply triple_ret. auto.
  - cbn [for_each map fold_left]. eapply triple_bind; [apply Add_exact|].
    intros ?. apply IH.
Qed.

Lemma skipn_firstn_length {A} b i (data : list A) :
  List.length (firstn b (skipn i data)) = Nat.min b (List.length data - i).
Proof. rewrite List.length_firstn, List.length_skipn. reflexivity. Qed.

Lemma skipn_chunk {A} b i (data : list A) :
  skipn i data = (firstn b (skipn i data) ++ skipn (i + b) data)%list.
Proof.
  rewrite <- (firstn_skipn b (skipn i data)) at 1. rewrite skipn_skipn.
  replace (b + i)%nat with (i + b)%nat by lia. reflexivity.
Qed.

Lemma rows_of_chunk sheetId e i b (data : list (option (Dictionary object))) :
  (0 < b)%nat ->
  all_present (firstn b (skipn i data)) ->
  rows_of lib env sheetId e i (present (skipn i data))
  = (rows_of lib env sheetId e i (present (firstn b (skipn i data)))
     ++ rows_of lib env sheetId (e + List.length (firstn b (skipn i data))) (i + b)
          (present (skipn (i + b) data)))%list.
Proof.
  intros Hb Hall.
  rewrite (skipn_chunk b i data) at 1.
  rewrite present_app, rows_of_app, (present_length _ Hall).
  f_equal.
  destruct (Nat.le_gt_cases b (List.length data - i)) as [Hle|Hgt].
  - rewrite skipn_firstn_length, Nat.min_l by exact Hle. reflexivity.
  - rewrite (@skipn_all2 _ (i + b)%nat data) by lia. reflexivity.
Qed.

Lemma insert_batches_exact fuel sheetId data b i eff e o :
  (0 < b)%nat -> (List.length data - i <= fuel)%nat ->
  triple (St eff e o) (insert_batches lib env fuel sheetId data b i)
         (fun _ ctx =>
            all_present (skipn i data)
            /\ St (fold_left apply_change
                     (map Add_SheetData
                        (rows_of lib env sheetId e i (present (skipn i data)))) eff)
                  (e + (List.length data - i))
                  (o + batch_count fuel b (List.length data - i)) ctx)
         Any.
Proof.
  intros Hb. revert i eff e o. induction fuel as [|fuel IH]; intros i eff e o Hfuel.
  - apply triple_ret. intros ctx H.
    replace (List.length data - i)%nat with 0%nat by lia.
    rewrite (skipn_all2 data) by lia. cbn. rewrite !Nat.add_0_r.
    split; [constructor | exact H].
  - cbn [insert_batches batch_count].
    destruct (Nat.ltb_spec i (List.length data)) as [Hlt|Hge].
    + destruct (Nat.eqb_spec (List.length data - i) 0) as [Hz|_]; [lia|].
      eapply triple_bind; [apply make_batch_exact|]. intros batch. cbn beta.
      eapply triple_bind with
        (Q' := fun _ ctx =>
                 all_present (firstn b (skipn i data))
                 /\ St (fold_left apply_change
                          (map Add_SheetData
                             (rows_of lib env sheetId e i
                                (present (firstn b (skipn i data))))) eff)
                       (e + List.length (firstn b (skipn i data))) o ctx).
      * intros ctx (Hall & Hbatch & H). rewrite Nat.add_0_r in Hbatch.
        pose proof (add_rows_exact batch _ _ _ ctx H) as HA.
        destruct (for_each batch _ ctx) as [[u|ex] ctx']; [|exact I].
        rewrite Hbatch in HA. split; [exact Hall | exact HA].
      * intros ?. eapply triple_bind with
          (Q' := fun _ ctx =>
                   all_present (firstn b (skipn i data))
                   /\ St (fold_left apply_change
                            (map Add_SheetData
                               (rows_of lib env sheetId e i
                                  (present (firstn b (skipn i data))))) eff)
                         (e + List.length (firstn b (skipn i data))) (S o) ctx).
        -- intros ctx [Hall H]. pose proof (SaveChangesAsync_exact _ _ _ ctx H) as HS.
           destruct (SaveChangesAsync env ctx) as [[u|ex] ctx']; [|exact I].
           split; [exact Hall | apply HS].
        -- intros ? ctx [Hall H].
           pose proof (IH (i + b)%nat _ _ _ ltac:(lia) ctx H) as HI.
           destruct (insert_batches lib env fuel sheetId data b (i + b) ctx)
             as [[u|ex] ctx']; [|exact I].
           destruct HI as [Hrest HI]. split.
           { rewrite (skipn_chunk b i data). apply all_present_app; assumption. }
           rewrite (rows_of_chunk sheetId e i b data Hb Hall), map_app, fold_left_app.
           rewrite skipn_firstn_length in *.
           replace (e + (List.length data - i))%nat
             with (e + Nat.min b (List.length data - i) + (List.length data - (i + b)))%nat
             by lia.
           replace (o + S (batch_count fuel b (List.length data - i - b)))%nat
             with (S o + batch_count fuel b (List.length data - (i + b)))%nat
             by (replace (List.length data - i - b)%nat
                   with (List.length data - (i + b))%nat by lia; lia).
           exact HI.
    + apply triple_ret. intros ctx H.
      replace (List.length data - i)%nat with 0%nat by lia.
      rewrite (skipn_all2 data) by lia. cbn. rewrite !Nat.add_0_r.
      split; [constructor | exact H].
Qed.

Lemma SaveSheetDataAsync_exact sessionId sheetData sheetIndex eff e o :
  triple (St eff e o) (SaveSheetDataAsync lib env sessionId sheetData sheetIndex)
         (fun _ ctx =>
            exists s,
              sheetData = Some s
              /\ all_present (dto_Data s)
              /\ St (fold_left apply_change
                       (sheet_changes lib env sessionId s sheetIndex e) eff)
                    (S e + List.length (dto_Data s))
                    (o + sheet_calls env s) ctx)
         Any.
Proof.
  unfold SaveSheetDataAsync.
  eapply triple_bind; [apply new_entity_exact|]. intros created. cbn beta.
  destruct sheetData as [s|]; [|intros ctx _; exact I].
  intros ctx [-> H]. cbn [fst snd].
  unfold bind at 1.
  pose proof (Add_exact (Add_Sheet (sheet_of env sessionId s sheetIndex e)) _ _ _ ctx H)
    as HA.
  unfold sheet_of in HA.
  destruct (Add _ ctx) as [[u|ex] ctx1]; [|exact I].
  unfold bind at 1.
  pose proof (SaveChangesAsync_exact _ _ _ ctx1 HA) as HS.
  destruct (SaveChangesAsync env ctx1) as [[u'|ex] ctx2]; [|exact I].
  destruct HS as [HS _]. cbn [sh_Id].
  pose proof (insert_batches_exact (List.length (dto_Data s)) (NewGuid env e)
                (dto_Data s) (Pos.to_nat (BulkInsertBatchSize env)) 0 _ _ _
                (Pos2Nat.is_pos _) ltac:(lia) ctx2 HS) as HI.
  destruct (insert_batches _ _ _ _ _ _ _ ctx2) as [[u''|ex] ctx']; [|exact I].
  rewrite Nat.sub_0_r in HI. cbn [skipn] in HI. destruct HI as [Hall HI].
  exists s. split; [reflexivity|]. split; [exact Hall|].
  unfold sheet_changes, sheet_calls, sheet_of. cbn [fold_left].
  replace (o + S (batch_count (List.length (dto_Data s))
                    (Pos.to_nat (BulkInsertBatchSize env))
                    (List.length (dto_Data s))))%nat
    with (S o + batch_count (List.length (dto_Data s))
                  (Pos.to_nat (BulkInsertBatchSize env))
                  (List.length (dto_Data s)))%nat by lia.
  exact HI.
Qed.

Lemma save_sheets_exact sessionId sheets sheetIndex eff e o :
  triple (St eff e o) (save_sheets lib env sessionId sheets sheetIndex)
         (fun _ ctx =>
            all_present (Values sheets)
            /\ Forall (fun s => all_present (dto_Data s)) (present (Values sheets))
            /\ St (fold_left apply_change
                     (sheets_changes lib env sessionId (present (Values sheets))
                        sheetIndex e) eff)
                  (e + sheets_entities (present (Values sheets)))
                  (o + sheets_calls env (present (Values sheets))) ctx)
         Any.
Proof.
  revert sheetIndex eff e o. induction sheets as [|kv sheets IH]; intros sheetIndex eff e o.
  - apply triple_ret. intros ctx H. cbn. rewrite !Nat.add_0_r.
    split; [constructor|]. split; [constructor | exact H].
  - cbn [save_sheets]. intros ctx H. unfold bind.
    pose proof (SaveSheetDataAsync_exact sessionId (snd kv) sheetIndex _ _ _ ctx H) as HS.
    destruct (SaveSheetDataAsync lib env sessionId (snd kv) sheetIndex ctx)
      as [[u|ex] ctx1]; [|exact I].
    destruct HS as (s & Hs & Hall & HS).
    pose proof (IH (sheetIndex + 1) _ _ _ ctx1 HS) as HI.
    destruct (save_sheets lib env sessionId sheets (sheetIndex + 1) ctx1)
      as [[u'|ex] ctx']; [|exact I].
    destruct HI as (Hp & Hrows & HI).
    cbn [Values map]. rewrite Hs. cbn [present].
    split; [constructor; [discriminate | exact Hp]|].
    split; [constructor; [exact Hall | exact Hrows]|].
    cbn [sheets_changes sheets_entities sheets_calls fold_right].
    rewrite fold_left_app.
    unfold Values in *.
    match goal with
    | |- at_state _ _ _ ?d ?a ?b _ =>
        match type of HI with
        | at_state _ _ _ _ ?a' ?b' _ =>
            replace a with a' by (unfold sheets_entities; lia);
            replace b with b' by (unfold sheets_calls; lia)
        end
    end.
    exact HI.
Qed.

Lemma save_excluded_exact sessionId names eff e o :
  triple (St eff e o) (save_excluded env sessionId names)
         (fun _ ctx =>
            exists l,
              names = Some l
              /\ St (fold_left apply_change
                       (map Add_ExcludedSheet (excluded_of env sessionId l e)) eff)
                    (e + List.length l) o ctx)
         Any.
Proof.
  unfold save_excluded. destruct names as [names|]; [|intros ctx _; exact I].
  eapply triple_weaken with
    (Q' := fun _ =>
             St (fold_left apply_change
                   (map Add_ExcludedSheet (excluded_of env sessionId names e)) eff)
                (e + List.length names) o);
    [| intros ? Hx; exact Hx | intros ? ctx H; exists names; split; [reflexivity | exact H]
     | intros; exact I].
  revert eff e. induction names as [|name names IH]; intros eff e.
  - apply triple_ret. intros ctx H. cbn. rewrite Nat.add_0_r. exact H.
  - cbn [for_each excluded_of map fold_left List.length].
    eapply triple_bind.
    + eapply triple_bind; [apply new_entity_exact|]. intros x. cbn beta.
      intros ctx [-> H]. apply (Add_exact _ _ _ _ ctx H).
    + intros ?. eapply triple_weaken;
        [apply IH | intros ? Hx; exact Hx | | intros; exact I].
      intros ? ctx H. cbn beta in H.
      replace (e + S (List.length names))%nat with (S e + List.length names)%nat by lia.
      exact H.
Qed.

End Exact.

Section ExactImport.

Variable lib : Library.
Variable env : Environment.

Lemma commit_exact o0 snap eff e o (response : UploadResponseDto) :
  triple (at_state env o0 snap eff e o)
         (SaveChangesAsync env ;;; CommitAsync env ;;; ret response)
         (fun r ctx =>
            r = response /\ database ctx = eff /\ tracked ctx = []
            /\ snapshot ctx = None /\ entities ctx = e /\ ops ctx = (o + 2)%nat
            /\ clean env o0 (o + 2))
         (fun _ _ => True).
Proof.
  intros ctx (He & Hn & Ho & Hs & Hle & Hc).
  unfold bind, SaveChangesAsync, CommitAsync, db_call, ret.
  cbn [database snapshot tracked ops entities]. rewrite Ho.
  destruct (fault env o) as [ex|] eqn:Hf1; [exact I|].
  cbn [database snapshot tracked ops entities].
  destruct (fault env (S o)) as [ex|] eqn:Hf2; [exact I|].
  cbn [database snapshot tracked ops entities].
  split; [reflexivity|]. split; [exact He|]. split; [reflexivity|].
  split; [reflexivity|]. split; [exact Hn|]. split; [lia|].
  replace (o + 2)%nat with (S (S o)) by lia.
  apply clean_step; [apply clean_step; assumption | exact Hf2].
Qed.

Lemma import_transaction_exact uploadData fileHash ctx :
  tracked ctx = [] ->
  forall o0, (o0 <= ops ctx)%nat -> clean env o0 (ops ctx) ->
  match import_transaction lib env uploadData fileHash ctx with
  | (Ok response, ctx') =>
      exists totalRows,
        total_rows uploadData = Ok totalRows
        /\ no_null uploadData
        /\ response = saved_response env
                        (session_of env uploadData fileHash (entities ctx) totalRows)
        /\ database ctx'
           = fold_left apply_change
               (import_changes lib env uploadData fileHash (entities ctx) totalRows)
               (database ctx)
        /\ tracked ctx' = []
        /\ snapshot ctx' = None
        /\ entities ctx'
           = (S (entities ctx) + List.length (excluded_names uploadData)
              + sheets_entities (uploaded_sheets uploadData))%nat
        /\ ops ctx' = (ops ctx + 1 + sheets_calls env (uploaded_sheets uploadData) + 2)%nat
        /\ clean env o0 (ops ctx')
  | (Throws _, _) => True
  end.
Proof.
  intros Ht o0 Ho Hcl.
  unfold import_transaction.
  unfold bind at 1. unfold new_entity at 1. cbn [fst snd].
  unfold bind at 1. unfold lift at 1. unfold excluded_count.
  destruct (meta_ExcludedSheets (up_Metadata uploadData)) as [names|] eqn:Hnames;
    [|exact I].
  unfold bind at 1. unfold lift.
  destruct (total_rows uploadData) as [totalRows|ex] eqn:Hsum; [|exact I].
  assert (Hexcl : excluded_names uploadData = names)
    by (unfold excluded_names; rewrite Hnames; reflexivity).
  set (session := new_ImportSession uploadData fileHash (NewGuid env (entities ctx))
                    (UtcNow env (entities ctx)) (Count names) totalRows).
  assert (Hsession : session_of env uploadData fileHash (entities ctx) totalRows = session)
    by (unfold session_of; rewrite Hexcl; reflexivity).
  set (sheets := uploaded_sheets uploadData).
  match goal with
  | |- match ?rest ?c with _ => _ end =>
      assert (T : triple
                (at_state env o0 (snapshot ctx) (database ctx) (S (entities ctx)) (ops ctx))
                rest
                (fun r ctx' =>
                   r = saved_response env session
                   /\ no_null uploadData
                   /\ database ctx'
                      = fold_left apply_change
                          (import_changes lib env uploadData fileHash (entities ctx) totalRows)
                          (database ctx)
                   /\ tracked ctx' = []
                   /\ snapshot ctx' = None
                   /\ entities ctx'
                      = (S (entities ctx) + List.length names + sheets_entities sheets)%nat
                   /\ ops ctx' = (S (ops ctx) + sheets_calls env sheets + 2)%nat
                   /\ clean env o0 (S (ops ctx) + sheets_calls env sheets + 2))
                (fun _ _ => True));
      [| specialize (T c) ]
  end.
  { eapply triple_bind; [apply Add_exact|]. intros ?.
    eapply triple_bind;
      [eapply triple_weaken;
         [apply SaveChangesAsync_exact | intros ? Hx; exact Hx
          | intros ? c [H _]; exact H | intros; exact I]|].
    intros ?.
    eapply triple_bind; [apply save_excluded_exact|]. intros ?. cbn beta.
    eapply triple_bind with
      (Q' := fun _ ctx1 =>
               (all_present (Values (up_Sheets uploadData))
                /\ Forall (fun s => all_present (dto_Data s)) sheets)
               /\ at_state env o0 (snapshot ctx)
                    (fold_left apply_change
                       (sheets_changes lib env (s_Id session) sheets 0
                          (S (entities ctx) + List.length names))
                       (fold_left apply_change
                          (map Add_ExcludedSheet
                             (excluded_of env (s_Id session) names (S (entities ctx))))
                          (apply_change (database ctx) (Add_ImportSession session))))
                    (S (entities ctx) + List.length names + sheets_entities sheets)
                    (S (ops ctx) + sheets_calls env sheets) ctx1).
    { intros ctx1 (l & Hl & H1). injection Hl as <-.
      pose proof (save_sheets_exact lib env o0 (snapshot ctx) (s_Id session)
                    (up_Sheets uploadData) 0 _ _ _ ctx1 H1) as HS.
      destruct (save_sheets lib env (s_Id session) (up_Sheets uploadData) 0 ctx1)
        as [[u|ex] ctx2]; [|exact I].
      destruct HS as (Hp & Hrows & HS).
      split; [split; [exact Hp | exact Hrows] | exact HS]. }
    intros ?. intros ctx1 [[Hp Hrows] H1]. unfold bind at 1.
    pose proof (Add_exact env o0 (snapshot ctx)
                  (Update_ImportSession (with_completed env session)) _ _ _ ctx1 H1) as HA.
    destruct (Add _ ctx1) as [[u|ex] ctx2]; [|exact I].
    pose proof (commit_exact o0 (snapshot ctx) _ _ _ (saved_response env session) ctx2 HA)
      as HC.
    destruct ((SaveChangesAsync env ;;; CommitAsync env ;;; ret (saved_response env session))
                ctx2) as [[r|ex] ctx3]; [|exact I].
    destruct HC as (Hr & Hdb & Htr & Hsn & Hen & Hop & Hc).
    split; [exact Hr|]. split.
    { unfold no_null. rewrite Hnames. split; [discriminate|].
      split; [exact Hp | exact Hrows]. }
    split.
    { rewrite Hdb. unfold import_changes. rewrite Hsession, Hexcl. fold sheets.
      cbn [fold_left]. rewrite !fold_left_app. cbn [fold_left]. reflexivity. }
    split; [exact Htr|]. split; [exact Hsn|].
    split; [exact Hen|]. split; [exact Hop | exact Hc]. }
  match type of T with
  | ?P -> _ => assert (HP : P)
  end.
  { unfold at_state, effective. cbn [database snapshot tracked ops entities].
    rewrite Ht. cbn [fold_left]. repeat split; assumption. }
  specialize (T HP).
  match type of T with
  | match ?x with _ => _ end => destruct x as [[r|ex] ctx']
  end; [|exact I].
  destruct T as (Hr & Hnn & Hdb & Htr & Hsn & Hen & Hop & Hc).
  exists totalRows. split; [reflexivity|]. split; [exact Hnn|].
  split; [rewrite Hsession; exact Hr|]. split; [exact Hdb|].
  split; [exact Htr|]. split; [exact Hsn|].
  split; [rewrite Hexcl; exact Hen|].
  split; [rewrite Hop; lia|].
  rewrite Hop. exact Hc.
Qed.

End ExactImport.

(** ** The tables after a successful import *)

Lemma fold_apply_adds changes db :
  forallb is_add_child changes = true ->
  fold_left apply_change changes db
  = {| ImportSessions := ImportSessions db;
       Sheets := (Sheets db ++ added_sheets changes)%list;
       SheetDataRows := (SheetDataRows db ++ added_rows changes)%list;
       ExcludedSheets := (ExcludedSheets db ++ added_excluded changes)%list |}.
Proof.
  revert db. induction changes as [|c changes IH]; intros db H.
  - cbn. rewrite !app_nil_r. destruct db; reflexivity.
  - cbn in H. apply andb_true_iff in H. destruct H as [Hc H].
    cbn [fold_left]. rewrite (IH _ H).
    destruct c; try discriminate; cbn; rewrite <- ?app_assoc; reflexivity.
Qed.

Lemma added_sheets_app l1 l2 :
  added_sheets (l1 ++ l2) = (added_sheets l1 ++ added_sheets l2)%list.
Proof. apply flat_map_app. Qed.
Lemma added_rows_app l1 l2 :
  added_rows (l1 ++ l2) = (added_rows l1 ++ added_rows l2)%list.
Proof. apply flat_map_app. Qed.
Lemma added_excluded_app l1 l2 :
  added_excluded (l1 ++ l2) = (added_excluded l1 ++ added_excluded l2)%list.
Proof. apply flat_map_app. Qed.

Lemma added_of_rows rows :
  added_sheets (map Add_SheetData rows) = []
  /\ added_rows (map Add_SheetData rows) = rows
  /\ added_excluded (map Add_SheetData rows) = []
  /\ forallb is_add_child (map Add_SheetData rows) = true.
Proof.
  induction rows as [|r rows (H1 & H2 & H3 & H4)]; cbn; [repeat split|].
  repeat split; try assumption. f_equal. exact H2.
Qed.

Lemma added_of_excluded xs :
  added_sheets (map Add_ExcludedSheet xs) = []
  /\ added_rows (map Add_ExcludedSheet xs) = []
  /\ added_excluded (map Add_ExcludedSheet xs) = xs
  /\ forallb is_add_child (map Add_ExcludedSheet xs) = true.
Proof.
  induction xs as [|x xs (H1 & H2 & H3 & H4)]; cbn; [repeat split|].
  repeat split; try assumption. f_equal. exact H3.
Qed.

Lemma added_of_sheets lib env sessionId sheets sheetIndex e :
  added_sheets (sheets_changes lib env sessionId sheets sheetIndex e)
  = map fst (import_records lib env sessionId sheets sheetIndex e)
  /\ added_rows (sheets_changes lib env sessionId sheets sheetIndex e)
     = flat_map snd (import_records lib env sessionId sheets sheetIndex e)
  /\ added_excluded (sheets_changes lib env sessionId sheets sheetIndex e) = []
  /\ forallb is_add_child (sheets_changes lib env sessionId sheets sheetIndex e) = true.
Proof.
  revert sheetIndex e. induction sheets as [|s sheets IH]; intros sheetIndex e.
  - repeat split.
  - cbn [sheets_changes import_records map flat_map fst snd].
    destruct (IH (sheetIndex + 1) (S e + List.length (dto_Data s))%nat)
      as (H1 & H2 & H3 & H4).
    destruct (added_of_rows (rows_of lib env (NewGuid env e) (S e) 0
                               (present (dto_Data s))))
      as (R1 & R2 & R3 & R4).
    unfold sheet_changes.
    rewrite added_sheets_app, added_rows_app, added_excluded_app, forallb_app.
    cbn [added_sheets added_rows added_excluded flat_map forallb is_add_child app].
    fold (added_sheets (map Add_SheetData (rows_of lib env (NewGuid env e) (S e) 0
                                             (present (dto_Data s))))).
    fold (added_rows (map Add_SheetData (rows_of lib env (NewGuid env e) (S e) 0
                                           (present (dto_Data s))))).
    fold (added_excluded (map Add_SheetData (rows_of lib env (NewGuid env e) (S e) 0
                                               (present (dto_Data s))))).
    rewrite R1, R2, R3, R4, H1, H2, H3, H4. repeat split.
Qed.

Lemma rows_of_written lib env sheetId e i data :
  Forall2 (row_written lib sheetId) (map Some data) (rows_of lib env sheetId e i data)
  /\ map sd_RowIndex (rows_of lib env sheetId e i data)
     = map Z.of_nat (seq i (List.length data)).
Proof.
  revert e i. induction data as [|row data IH]; intros e i; cbn.
  - split; [constructor | reflexivity].
  - destruct (IH (S e) (S i)) as (H1 & H2). rewrite H2. split; [|reflexivity].
    constructor; [|exact H1]. exists row. repeat split.
Qed.

Lemma import_records_written lib env sessionId sheets sheetIndex e :
  Forall (fun s => all_present (dto_Data s)) sheets ->
  Forall2 (sheet_written lib sessionId) (map Some sheets)
          (import_records lib env sessionId sheets sheetIndex e)
  /\ map (fun rec => sh_SheetIndex (fst rec))
         (import_records lib env sessionId sheets sheetIndex e)
     = map (fun k => sheetIndex + Z.of_nat k) (seq 0 (List.length sheets)).
Proof.
  revert sheetIndex e. induction sheets as [|s sheets IH]; intros sheetIndex e Hall.
  - split; [constructor | reflexivity].
  - inversion Hall as [|? ? Hs Hrest]; subst.
    destruct (IH (sheetIndex + 1) (S e + List.length (dto_Data s))%nat Hrest) as [F M].
    cbn [import_records map]. split.
    + constructor; [|exact F].
      unfold sheet_written. cbn [fst snd sheet_of sh_SessionId sh_SheetName sh_RowCount
                                   sh_ColumnCount sh_Headers sh_Id].
      destruct (rows_of_written lib env (NewGuid env e) (S e) 0 (present (dto_Data s)))
        as (H1 & H2).
      rewrite (present_all _ Hs) in H1. rewrite (present_length _ Hs) in H2.
      exists s. repeat split; assumption.
    + cbn [map List.length seq fst sheet_of sh_SheetIndex]. f_equal; [lia|].
      rewrite M, <- seq_shift, map_map. apply map_ext. intros k. lia.
Qed.

Lemma SaveExcelDataAsync_exact lib env uploadData ctx response ctx' :
  idle ctx ->
  find (hash_matches (CalculateFileHash lib uploadData)) (ImportSessions (database ctx))
  = None ->
  SaveExcelDataAsync lib env uploadData ctx = (Ok response, ctx') ->
  exists totalRows,
    total_rows uploadData = Ok totalRows
    /\ no_null uploadData
    /\ response = saved_response env
                    (session_of env uploadData (CalculateFileHash lib uploadData)
                       (entities ctx) totalRows)
    /\ database ctx'
       = fold_left apply_change
           (import_changes lib env uploadData (CalculateFileHash lib uploadData)
              (entities ctx) totalRows)
           (database ctx)
    /\ tracked ctx' = []
    /\ snapshot ctx' = None
    /\ entities ctx'
       = (S (entities ctx) + List.length (excluded_names uploadData)
          + sheets_entities (uploaded_sheets uploadData))%nat
    /\ ops ctx' = (ops ctx + import_calls env uploadData)%nat
    /\ clean env (ops ctx) (ops ctx').
Proof.
  intros [Hsnap Htr] Hf.
  unfold SaveExcelDataAsync. unfold catch at 1. unfold bind at 1.
  unfold FirstOrDefaultAsync, db_call.
  destruct (fault env (ops ctx)) as [e|] eqn:Hlookup; [discriminate|].
  cbn [database snapshot tracked ops entities]. rewrite Hf.
  unfold bind at 1. unfold BeginTransactionAsync, db_call.
  cbn [database snapshot tracked ops entities].
  destruct (fault env (S (ops ctx))) as [e|] eqn:Hbegin; [discriminate|].
  unfold using_transaction, catch.
  assert (Hclean : clean env (ops ctx) (S (S (ops ctx)))).
  { apply clean_step; [apply clean_step; [intros j Hj; lia | exact Hlookup] | exact Hbegin]. }
  match goal with
  | |- context [import_transaction lib env uploadData ?h ?c] =>
      pose proof (import_transaction_exact lib env uploadData h c Htr (ops ctx)) as Hspec;
      cbn [ops entities database] in Hspec;
      specialize (Hspec ltac:(lia) Hclean);
      destruct (import_transaction lib env uploadData h c) as [[r|e] c'] eqn:Hrun
  end.
  - cbv beta iota. intros Heq. injection Heq as <- <-.
    destruct Hspec as (totalRows & Ht & Hnn & Hr & Hdb & Htr' & Hsn & Hen & Hop & Hc).
    exists totalRows. unfold Dispose. rewrite Hsn.
    split; [exact Ht|]. split; [exact Hnn|]. split; [exact Hr|]. split; [exact Hdb|].
    split; [exact Htr'|]. split; [exact Hsn|]. split; [exact Hen|].
    split; [rewrite Hop; unfold import_calls; lia | exact Hc].
  - cbv beta iota. unfold bind, RollbackAsync, db_call, throw.
    destruct (fault env (ops c')); cbv beta iota zeta; discriminate.
Qed.

Lemma import_changes_tables lib env uploadData fileHash e0 totalRows db :
  let session := session_of env uploadData fileHash e0 totalRows in
  let names := excluded_names uploadData in
  let records := import_records lib env (s_Id session) (uploaded_sheets uploadData) 0
                   (S e0 + List.length names) in
  fold_left apply_change (import_changes lib env uploadData fileHash e0 totalRows) db
  = {| ImportSessions :=
         replace_session (with_completed env session) (ImportSessions db ++ [session])%list;
       Sheets := (Sheets db ++ map fst records)%list;
       SheetDataRows := (SheetDataRows db ++ flat_map snd records)%list;
       ExcludedSheets :=
         (ExcludedSheets db ++ excluded_of env (s_Id session) names (S e0))%list |}.
Proof.
  cbv zeta. unfold import_changes. cbn [fold_left]. rewrite app_assoc, fold_left_app.
  cbn [fold_left].
  destruct (added_of_excluded
              (excluded_of env (NewGuid env e0) (excluded_names uploadData) (S e0)))
    as (E1 & E2 & E3 & E4).
  destruct (added_of_sheets lib env (NewGuid env e0) (uploaded_sheets uploadData) 0
              (S e0 + List.length (excluded_names uploadData)))
    as (S1 & S2 & S3 & S4).
  unfold session_of. cbn [s_Id new_ImportSession] in *.
  rewrite fold_apply_adds by (rewrite forallb_app, E4, S4; reflexivity).
  rewrite added_sheets_app, added_rows_app, added_excluded_app.
  rewrite E1, E2, E3, S1, S2, S3.
  cbn [apply_change ImportSessions Sheets SheetDataRows ExcludedSheets app].
  rewrite !app_nil_r. reflexivity.
Qed.

(** ** What an upload stores *)

Lemma excluded_of_written env sessionId names e :
  map ex_SheetName (excluded_of env sessionId names e) = names
  /\ Forall (fun x => ex_SessionId x = sessionId) (excluded_of env sessionId names e).
Proof.
  revert e. induction names as [|name names IH]; intros e; cbn.
  - split; [reflexivity | constructor].
  - destruct (IH (S e)) as [H1 H2]. split; [rewrite H1; reflexivity|].
    constructor; [reflexivity | exact H2].
Qed.

Lemma upload_outcome lib env uploadData ctx response ctx' :
  idle ctx ->
  find (hash_matches (CalculateFileHash lib uploadData)) (ImportSessions (database ctx))
  = None ->
  SaveExcelDataAsync lib env uploadData ctx = (Ok response, ctx') ->
  exists totalRows,
    let session := session_of env uploadData (CalculateFileHash lib uploadData)
                     (entities ctx) totalRows in
    let names := excluded_names uploadData in
    let records := import_records lib env (NewGuid env (entities ctx))
                     (uploaded_sheets uploadData) 0
                     (S (entities ctx) + List.length names) in
    total_rows uploadData = Ok totalRows
    /\ no_null uploadData
    /\ response = saved_response env session
    /\ database ctx'
       = {| ImportSessions :=
              replace_session (with_completed env session)
                (ImportSessions (database ctx) ++ [session])%list;
            Sheets := (Sheets (database ctx) ++ map fst records)%list;
            SheetDataRows := (SheetDataRows (database ctx) ++ flat_map snd records)%list;
            ExcludedSheets :=
              (ExcludedSheets (database ctx)
               ++ excluded_of env (NewGuid env (entities ctx)) names (S (entities ctx)))%list |}
    /\ tracked ctx' = [] /\ snapshot ctx' = None
    /\ ops ctx' = (ops ctx + import_calls env uploadData)%nat
    /\ clean env (ops ctx) (ops ctx').
Proof.
  intros Hidle Hf Hrun.
  destruct (SaveExcelDataAsync_exact lib env uploadData ctx response ctx' Hidle Hf Hrun)
    as (t & Ht & Hnn & Hr & Hdb & Htr & Hsn & _ & Hop & Hc).
  exists t. cbv zeta.
  rewrite import_changes_tables in Hdb. unfold session_of in Hdb at 3 5.
  cbn [s_Id new_ImportSession] in Hdb.
  split; [exact Ht|]. split; [exact Hnn|]. split; [exact Hr|]. split; [exact Hdb|].
  split; [exact Htr|]. split; [exact Hsn|]. split; [exact Hop | exact Hc].
Qed.

(** X1.  A new upload that succeeds extends the three child tables and
    nothing else in them: one sheet record per uploaded sheet, in upload
    order and numbered from 0, carrying its name, its row and column counts
    and its headers; for each sheet one row record per uploaded row, numbered
    from 0 and holding the serialized prepared row; one excluded-sheet record
    per excluded name; all of them attached to the returned session id.  An
    upload that succeeds had no [null] sheet, row or list of excluded
    names. *)
Theorem upload_writes_sheets_and_rows lib env uploadData ctx response ctx' :
  idle ctx ->
  find (hash_matches (CalculateFileHash lib uploadData)) (ImportSessions (database ctx))
  = None ->
  SaveExcelDataAsync lib env uploadData ctx = (Ok response, ctx') ->
  exists records excluded,
    Sheets (database ctx') = (Sheets (database ctx) ++ map fst records)%list
    /\ SheetDataRows (database ctx')
       = (SheetDataRows (database ctx) ++ flat_map snd records)%list
    /\ ExcludedSheets (database ctx') = (ExcludedSheets (database ctx) ++ excluded)%list
    /\ Forall2 (sheet_written lib (r_SessionId response))
               (Values (up_Sheets uploadData)) records
    /\ map (fun rec => sh_SheetIndex (fst rec)) records
       = map Z.of_nat (seq 0 (List.length (up_Sheets uploadData)))
    /\ meta_ExcludedSheets (up_Metadata uploadData) = Some (map ex_SheetName excluded)
    /\ Forall (fun x => ex_SessionId x = r_SessionId response) excluded.
Proof.
  intros Hidle Hf Hrun.
  destruct (upload_outcome lib env uploadData ctx response ctx' Hidle Hf Hrun)
    as (t & _ & (Hnames & Hsheets & Hrows) & Hr & Hdb & _).
  rewrite Hdb, Hr. cbn [Sheets SheetDataRows ExcludedSheets r_SessionId saved_response
                          s_Id new_ImportSession session_of].
  eexists. eexists.
  split; [reflexivity|]. split; [reflexivity|]. split; [reflexivity|].
  destruct (import_records_written lib env (NewGuid env (entities ctx))
              (uploaded_sheets uploadData) 0
              (S (entities ctx) + List.length (excluded_names uploadData))%nat Hrows)
    as [HF HM].
  destruct (excluded_of_written env (NewGuid env (entities ctx))
              (excluded_names uploadData) (S (entities ctx)))
    as [HE1 HE2].
  unfold uploaded_sheets in HF at 1. rewrite (present_all _ Hsheets) in HF.
  split; [exact HF|]. split; [|split; [|exact HE2]].
  - rewrite HM. unfold uploaded_sheets. rewrite (present_length _ Hsheets).
    unfold Values. rewrite List.length_map. apply map_ext. intros k. lia.
  - rewrite HE1. unfold excluded_names.
    destruct (meta_ExcludedSheets (up_Metadata uploadData)) as [names|];
      [reflexivity | exfalso; apply Hnames; reflexivity].
Qed.

Lemma upload_writes_sheets_and_rows_witness :
  exists response ctx',
    SaveExcelDataAsync Sample.lib sample_env two_sheet_upload (new_context sample_db)
    = (Ok response, ctx')
    /\ map sh_SheetName (Sheets (database ctx')) = ["Data"; "Orders"; "Stock"]
    /\ List.length (SheetDataRows (database ctx')) = 6%nat
    /\ map sd_RowIndex (SheetDataRows (database ctx')) = [0; 0; 1; 2; 0; 1]
    /\ map sd_RowData (skipn 1 (SheetDataRows (database ctx')))
       = [object_text [("Item", Serialize_string "bolt"); ("Qty", "3.0")];
          object_text [("Item", Serialize_string "nut"); ("Qty", "4.0")];
          object_text [("Item", Serialize_string "gear"); ("Qty", Serialize_string "N/A")];
          object_text [("Item", Serialize_string "bolt")];
          object_text [("Item", Serialize_string "N/A")]].
Proof.
  destruct (SaveExcelDataAsync Sample.lib sample_env two_sheet_upload (new_context sample_db))
    as [[response|e] ctx'] eqn:Hrun.
  2:{ vm_compute in Hrun. discriminate. }
  exists response, ctx'. split; [reflexivity|].
  assert (Hstored : map sd_RowIndex (SheetDataRows (database ctx')) = [0; 0; 1; 2; 0; 1]
                    /\ map sd_RowData (skipn 1 (SheetDataRows (database ctx')))
                       = [object_text [("Item", Serialize_string "bolt"); ("Qty", "3.0")];
                          object_text [("Item", Serialize_string "nut"); ("Qty", "4.0")];
                          object_text [("Item", Serialize_string "gear");
                                       ("Qty", Serialize_string "N/A")];
                          object_text [("Item", Serialize_string "bolt")];
                          object_text [("Item", Serialize_string "N/A")]]).
  { pose proof Hrun as Hc. vm_compute in Hc. injection Hc as _ <-.
    split; vm_compute; reflexivity. }
  assert (Hfind : find (hash_matches (CalculateFileHash Sample.lib two_sheet_upload))
                    (ImportSessions (database (new_context sample_db))) = None)
    by (vm_compute; reflexivity).
  destruct (upload_writes_sheets_and_rows Sample.lib sample_env two_sheet_upload
              (new_context sample_db) response ctx' (conj eq_refl eq_refl) Hfind Hrun)
    as (records & excluded & HS & HR & _ & HF & _).
  assert (Hn : map (fun rec => sh_SheetName (fst rec)) records = ["Orders"; "Stock"]
               /\ List.length (flat_map snd records) = 5%nat).
  { inversion HF as [|kv1 rec1 l1 l1' H1 HF1]; subst.
    inversion HF1 as [|kv2 rec2 l2 l2' H2 HF2]; subst.
    inversion HF2; subst.
    destruct H1 as (s1 & E1 & _ & N1 & _ & _ & _ & L1 & _).
    destruct H2 as (s2 & E2 & _ & N2 & _ & _ & _ & L2 & _).
    injection E1 as <-. injection E2 as <-.
    cbn [map fst snd flat_map]. rewrite N1, N2. split; [reflexivity|].
    apply Forall2_length in L1, L2.
    rewrite !List.length_app, List.length_nil, <- L1, <- L2. reflexivity. }
  destruct Hn as [Hn1 Hn2].
  split; [rewrite HS, map_app, map_map, Hn1; reflexivity|].
  split; [rewrite HR, List.length_app, Hn2; reflexivity | exact Hstored].
Defined.

(** ** Reported totals *)

Lemma Sum_checked_Ok l acc total :
  Sum_checked Data_Count l acc = Ok total ->
  total = acc + fold_right Z.add 0 (map (fun s => Count (dto_Data s)) (present l)).
Proof.
  revert acc. induction l as [|x l IH]; intros acc H.
  - cbn [Sum_checked] in H. injection H as <-. cbn [present map fold_right]. lia.
  - cbn [Sum_checked] in H.
    destruct x as [s|]; cbn [Data_Count exc_bind] in H; [|discriminate].
    destruct (in_Int32 (acc + Count (dto_Data s))); [|discriminate].
    cbn [present map fold_right]. rewrite (IH _ H). lia.
Qed.

Lemma import_records_row_count lib env sessionId sheets sheetIndex e :
  Forall (fun s => all_present (dto_Data s)) sheets ->
  Z.of_nat (List.length (flat_map snd (import_records lib env sessionId sheets sheetIndex e)))
  = fold_right Z.add 0 (map (fun s => Count (dto_Data s)) sheets).
Proof.
  revert sheetIndex e. induction sheets as [|s sheets IH]; intros sheetIndex e Hall.
  - reflexivity.
  - inversion Hall as [|? ? Hs Hrest]; subst.
    cbn [import_records flat_map snd map fold_right].
    rewrite List.length_app, Nat2Z.inj_add, IH, rows_of_length, (present_length _ Hs)
      by exact Hrest.
    reflexivity.
Qed.

Lemma import_records_length lib env sessionId sheets sheetIndex e :
  List.length (import_records lib env sessionId sheets sheetIndex e) = List.length sheets.
Proof.
  revert sheetIndex e. induction sheets as [|kv sheets IH]; intros sheetIndex e;
    [reflexivity|]. cbn [import_records List.length]. rewrite IH. reflexivity.
Qed.

Lemma excluded_of_length env sessionId names e :
  List.length (excluded_of env sessionId names e) = List.length names.
Proof.
  revert e. induction names as [|n names IH]; intros e; [reflexivity|].
  cbn. rewrite IH. reflexivity.
Qed.

Lemma uploaded_sheets_length uploadData :
  no_null uploadData ->
  List.length (uploaded_sheets uploadData) = List.length (up_Sheets uploadData).
Proof.
  intros (_ & Hsheets & _). unfold uploaded_sheets.
  rewrite (present_length _ Hsheets). unfold Values. apply List.length_map.
Qed.

(** X2.  The counts a successful new upload reports are the numbers of
    records it wrote: [TotalRows] row records, [ProcessedSheets] sheet
    records and [ExcludedSheets] excluded-sheet records were added. *)
Theorem upload_reports_what_it_wrote lib env uploadData ctx response ctx' :
  idle ctx ->
  find (hash_matches (CalculateFileHash lib uploadData)) (ImportSessions (database ctx))
  = None ->
  SaveExcelDataAsync lib env uploadData ctx = (Ok response, ctx') ->
  Count (SheetDataRows (database ctx'))
  = Count (SheetDataRows (database ctx)) + r_TotalRows response
  /\ Count (Sheets (database ctx'))
     = Count (Sheets (database ctx)) + r_ProcessedSheets response
  /\ Count (ExcludedSheets (database ctx'))
     = Count (ExcludedSheets (database ctx)) + r_ExcludedSheets response.
Proof.
  intros Hidle Hf Hrun.
  destruct (upload_outcome lib env uploadData ctx response ctx' Hidle Hf Hrun)
    as (t & Ht & Hnn & Hr & Hdb & _).
  rewrite Hdb, Hr.
  cbn [Sheets SheetDataRows ExcludedSheets r_TotalRows r_ProcessedSheets r_ExcludedSheets
       saved_response s_TotalRows s_ProcessedSheets s_ExcludedSheets new_ImportSession
       session_of].
  unfold Count. rewrite !List.length_app, !Nat2Z.inj_add, List.length_map.
  rewrite import_records_row_count by apply Hnn.
  rewrite import_records_length, excluded_of_length, (uploaded_sheets_length _ Hnn).
  apply Sum_checked_Ok in Ht. rewrite Ht. repeat split; lia.
Qed.

Lemma upload_reports_what_it_wrote_witness :
  exists response ctx',
    SaveExcelDataAsync Sample.lib sample_env two_sheet_upload (new_context sample_db)
    = (Ok response, ctx')
    /\ Count (SheetDataRows (database ctx')) = 1 + r_TotalRows response
    /\ r_TotalRows response = 5.
Proof.
  destruct (SaveExcelDataAsync Sample.lib sample_env two_sheet_upload (new_context sample_db))
    as [[response|e] ctx'] eqn:Hrun.
  2:{ vm_compute in Hrun. discriminate. }
  exists response, ctx'. split; [reflexivity|].
  assert (Hfind : find (hash_matches (CalculateFileHash Sample.lib two_sheet_upload))
                    (ImportSessions (database (new_context sample_db))) = None)
    by (vm_compute; reflexivity).
  destruct (upload_reports_what_it_wrote Sample.lib sample_env two_sheet_upload
              (new_context sample_db) response ctx' (conj eq_refl eq_refl) Hfind Hrun)
    as (HR & _).
  split; [exact HR|].
  vm_compute in Hrun. injection Hrun as <- _. reflexivity.
Defined.

(** ** The batch size is not observable in what is stored *)

Lemma rows_of_ext lib env1 env2 sheetId e i rows :
  same_supplies env1 env2 ->
  rows_of lib env1 sheetId e i rows = rows_of lib env2 sheetId e i rows.
Proof.
  intros (Hg & Hn & _). revert e i.
  induction rows as [|row rows IH]; intros e i; cbn; [reflexivity|].
  rewrite Hg, Hn, IH. reflexivity.
Qed.

Lemma import_records_ext lib env1 env2 sessionId sheets sheetIndex e :
  same_supplies env1 env2 ->
  import_records lib env1 sessionId sheets sheetIndex e
  = import_records lib env2 sessionId sheets sheetIndex e.
Proof.
  intros H. pose proof H as (Hg & Hn & _). revert sheetIndex e.
  induction sheets as [|kv sheets IH]; intros sheetIndex e; cbn; [reflexivity|].
  rewrite IH. unfold sheet_of. rewrite Hg, Hn, (rows_of_ext lib env1 env2) by exact H.
  reflexivity.
Qed.

Lemma excluded_of_ext env1 env2 sessionId names e :
  same_supplies env1 env2 ->
  excluded_of env1 sessionId names e = excluded_of env2 sessionId names e.
Proof.
  intros (Hg & _). revert e.
  induction names as [|n names IH]; intros e; cbn; [reflexivity|].
  rewrite Hg, IH. reflexivity.
Qed.

(** X3.  What a successful new upload stores does not depend on the
    configured batch size: two runs from the same state that draw the same
    identifiers and times, whatever their batch sizes, leave the same
    database and return the same session id. *)
Theorem stored_data_independent_of_batch_size lib env1 env2 uploadData ctx
  response1 ctx1 response2 ctx2 :
  same_supplies env1 env2 ->
  idle ctx ->
  find (hash_matches (CalculateFileHash lib uploadData)) (ImportSessions (database ctx))
  = None ->
  SaveExcelDataAsync lib env1 uploadData ctx = (Ok response1, ctx1) ->
  SaveExcelDataAsync lib env2 uploadData ctx = (Ok response2, ctx2) ->
  database ctx1 = database ctx2
  /\ r_SessionId response1 = r_SessionId response2
  /\ r_TotalRows response1 = r_TotalRows response2.
Proof.
  intros Hs Hidle Hf Hrun1 Hrun2.
  destruct (upload_outcome lib env1 uploadData ctx response1 ctx1 Hidle Hf Hrun1)
    as (t1 & Ht1 & _ & Hr1 & Hdb1 & _).
  destruct (upload_outcome lib env2 uploadData ctx response2 ctx2 Hidle Hf Hrun2)
    as (t2 & Ht2 & _ & Hr2 & Hdb2 & _).
  rewrite Ht1 in Ht2. injection Ht2 as <-.
  pose proof Hs as (Hg & Hn & Hms).
  rewrite Hdb1, Hdb2, Hr1, Hr2.
  rewrite (import_records_ext lib env1 env2) by exact Hs.
  rewrite (excluded_of_ext env1 env2) by exact Hs.
  unfold with_completed, session_of. rewrite !Hg, !Hn, Hms.
  split; [reflexivity|].
  cbn [r_SessionId r_TotalRows saved_response s_Id s_TotalRows new_ImportSession].
  split; reflexivity.
Qed.

Lemma stored_data_independent_of_batch_size_witness :
  exists response1 ctx1 response2 ctx2,
    SaveExcelDataAsync Sample.lib sample_env two_sheet_upload (new_context sample_db)
    = (Ok response1, ctx1)
    /\ SaveExcelDataAsync Sample.lib (with_batch_size sample_env 2) two_sheet_upload
         (new_context sample_db)
       = (Ok response2, ctx2)
    /\ database ctx1 = database ctx2
    /\ ops ctx1 = 9%nat /\ ops ctx2 = 10%nat.
Proof.
  destruct (SaveExcelDataAsync Sample.lib sample_env two_sheet_upload (new_context sample_db))
    as [[response1|e] ctx1] eqn:Hrun1.
  2:{ vm_compute in Hrun1. discriminate. }
  destruct (SaveExcelDataAsync Sample.lib (with_batch_size sample_env 2) two_sheet_upload
              (new_context sample_db))
    as [[response2|e] ctx2] eqn:Hrun2.
  2:{ vm_compute in Hrun2. discriminate. }
  exists response1, ctx1, response2, ctx2.
  split; [reflexivity|]. split; [reflexivity|].
  assert (Hfind : find (hash_matches (CalculateFileHash Sample.lib two_sheet_upload))
                    (ImportSessions (database (new_context sample_db))) = None)
    by (vm_compute; reflexivity).
  assert (Hs : same_supplies sample_env (with_batch_size sample_env 2))
    by (repeat split).
  destruct (stored_data_independent_of_batch_size Sample.lib sample_env
              (with_batch_size sample_env 2) two_sheet_upload (new_context sample_db)
              response1 ctx1 response2 ctx2 Hs (conj eq_refl eq_refl) Hfind Hrun1 Hrun2)
    as (Hdb & _).
  split; [exact Hdb|].
  vm_compute in Hrun1. injection Hrun1 as _ <-.
  vm_compute in Hrun2. injection Hrun2 as _ <-.
  split; reflexivity.
Defined.

(** ** Faults and progress *)

(** X4.  A new upload makes [import_calls] database calls when it succeeds;
    if any one of them fails, the upload raises and leaves the database as it
    was, with no transaction open. *)
Theorem any_failing_call_aborts_upload lib env uploadData ctx k e0 :
  idle ctx ->
  find (hash_matches (CalculateFileHash lib uploadData)) (ImportSessions (database ctx))
  = None ->
  (k < import_calls env uploadData)%nat ->
  fault env (ops ctx + k) = Some e0 ->
  exists e ctx',
    SaveExcelDataAsync lib env uploadData ctx = (Throws e, ctx')
    /\ database ctx' = database ctx
    /\ snapshot ctx' = None.
Proof.
  intros Hidle Hf Hk Hfault.
  destruct (fault env (ops ctx)) as [e1|] eqn:Hlookup.
  - exists e1, (after_call ctx).
    split; [apply SaveExcelDataAsync_lookup_fails; exact Hlookup|].
    split; [reflexivity | apply Hidle].
  - pose proof (SaveExcelDataAsync_new lib env uploadData ctx Hidle Hlookup Hf) as Hn.
    destruct (SaveExcelDataAsync lib env uploadData ctx) as [[response|e] ctx'] eqn:Hrun.
    + exfalso.
      destruct (SaveExcelDataAsync_exact lib env uploadData ctx response ctx' Hidle Hf Hrun)
        as (t & _ & _ & _ & _ & _ & _ & _ & Hop & Hc).
      rewrite (Hc (ops ctx + k)%nat) in Hfault by lia. discriminate.
    + exists e, ctx'. destruct Hn as (Hdb & Hsn & _).
      split; [reflexivity | split; assumption].
Qed.

Lemma any_failing_call_aborts_upload_witness :
  exists e ctx',
    SaveExcelDataAsync Sample.lib failing_env five_sheet_upload (new_context sample_db)
    = (Throws e, ctx')
    /\ database ctx' = sample_db
    /\ snapshot ctx' = None.
Proof.
  assert (Hfind : find (hash_matches (CalculateFileHash Sample.lib five_sheet_upload))
                    (ImportSessions (database (new_context sample_db))) = None)
    by (vm_compute; reflexivity).
  apply (any_failing_call_aborts_upload Sample.lib failing_env five_sheet_upload
           (new_context sample_db) 7 (DbException 1205) (conj eq_refl eq_refl) Hfind).
  - vm_compute. lia.
  - reflexivity.
Defined.

Lemma no_null_sheets uploadData :
  no_null uploadData -> ~ null_in_sheets (up_Sheets uploadData).
Proof.
  intros (_ & Hsheets & Hrows) (kv & Hin & Hnull).
  unfold Values in *. induction (up_Sheets uploadData) as [|kv' sheets IH]; [exact Hin|].
  cbn [map] in Hsheets, Hrows. inversion Hsheets as [|? ? Hkv Hrest]; subst.
  destruct Hin as [->|Hin].
  - destruct (snd kv) as [s|]; [|apply Hkv; reflexivity].
    cbn [present] in Hrows. inversion Hrows as [|? ? Hs _]; subst.
    cbn [null_in_sheet] in Hnull.
    unfold all_present in Hs. rewrite Forall_forall in Hs.
    apply (Hs None Hnull). reflexivity.
  - apply IH; [exact Hrest | | exact Hin].
    destruct (snd kv'); cbn [present] in Hrows; [|exact Hrows].
    inversion Hrows; assumption.
Qed.

(** X5.  Under a configuration with a positive batch size (the only ones an
    [Environment] describes), a new upload whose request holds no [null]
    sheet, row or list of excluded names succeeds whenever no database call
    fails and the sum of the row counts fits a 32-bit integer; it then
    reports that sum and the sheet counts of the request, and has made
    [import_calls] database calls. *)
Theorem upload_succeeds_when_no_call_fails lib env uploadData ctx totalRows :
  idle ctx ->
  find (hash_matches (CalculateFileHash lib uploadData)) (ImportSessions (database ctx))
  = None ->
  (forall k, (ops ctx <= k)%nat -> fault env k = None) ->
  no_null uploadData ->
  total_rows uploadData = Ok totalRows ->
  exists response ctx',
    SaveExcelDataAsync lib env uploadData ctx = (Ok response, ctx')
    /\ r_TotalRows response = totalRows
    /\ r_ProcessedSheets response = Count (up_Sheets uploadData)
    /\ r_ExcludedSheets response = Count (excluded_names uploadData)
    /\ r_Message response = "Excel data saved successfully"
    /\ ops ctx' = (ops ctx + import_calls env uploadData)%nat.
Proof.
  intros Hidle Hf Hclean Hnn Ht.
  pose proof (SaveExcelDataAsync_new lib env uploadData ctx Hidle
                (Hclean _ (Nat.le_refl _)) Hf) as Hn.
  destruct (SaveExcelDataAsync lib env uploadData ctx) as [[response|e] ctx'] eqn:Hrun.
  - exists response, ctx'. split; [reflexivity|].
    destruct (upload_outcome lib env uploadData ctx response ctx' Hidle Hf Hrun)
      as (t & Ht' & _ & Hr & _ & _ & _ & Hop & _).
    rewrite Ht in Ht'. injection Ht' as <-. rewrite Hr.
    repeat split. exact Hop.
  - exfalso. destruct Hn as (_ & _ & [Hbegin | (original & Herr & _)]).
    + rewrite (Hclean (S (ops ctx))) in Hbegin by lia. discriminate.
    + destruct Herr as [(j & Hj & _ & Hfj) | [Hex | [Hsum | [_ Hnull]]]].
      * rewrite (Hclean j Hj) in Hfj. discriminate.
      * unfold excluded_count in Hex. destruct Hnn as (Hnames & _).
        destruct (meta_ExcludedSheets (up_Metadata uploadData));
          [discriminate | apply Hnames; reflexivity].
      * rewrite Ht in Hsum. discriminate.
      * exact (no_null_sheets uploadData Hnn Hnull).
Qed.

Lemma upload_succeeds_when_no_call_fails_witness :
  exists response ctx',
    SaveExcelDataAsync Sample.lib sample_env two_sheet_upload (new_context sample_db)
    = (Ok response, ctx')
    /\ r_TotalRows response = 5
    /\ ops ctx' = 9%nat.
Proof.
  assert (Hfind : find (hash_matches (CalculateFileHash Sample.lib two_sheet_upload))
                    (ImportSessions (database (new_context sample_db))) = None)
    by (vm_compute; reflexivity).
  assert (Hnn : no_null two_sheet_upload).
  { split; [discriminate|].
    split; repeat constructor; discriminate. }
  destruct (upload_succeeds_when_no_call_fails Sample.lib sample_env two_sheet_upload
              (new_context sample_db) 5 (conj eq_refl eq_refl) Hfind
              (fun k _ => eq_refl) Hnn eq_refl)
    as (response & ctx' & Hrun & Ht & _ & _ & _ & Hop).
  exists response, ctx'. split; [exact Hrun|]. split; [exact Ht|].
  rewrite Hop. reflexivity.
Defined.

Lemma batch_count_ceiling fuel b n :
  (0 < b)%nat -> (n <= fuel)%nat ->
  batch_count fuel b n = ((n + b - 1) / b)%nat.
Proof.
  intros Hb. revert n. induction fuel as [|fuel IH]; intros n Hn.
  - replace n with 0%nat by lia. cbn [batch_count Nat.add].
    symmetry. apply Nat.div_small. lia.
  - cbn [batch_count]. destruct (Nat.eqb_spec n 0) as [->|Hnz].
    + cbn [Nat.add]. symmetry. apply Nat.div_small. lia.
    + rewrite IH by lia.
      destruct (Nat.le_gt_cases n b) as [Hle|Hgt].
      * replace (n - b)%nat with 0%nat by lia. cbn [Nat.add].
        rewrite (Nat.div_small (b - 1) b) by lia.
        replace (n + b - 1)%nat with ((n - 1) + 1 * b)%nat by lia.
        rewrite Nat.div_add by lia. rewrite (Nat.div_small (n - 1) b) by lia. reflexivity.
      * replace (n + b - 1)%nat with ((n - b + b - 1) + 1 * b)%nat by lia.
        rewrite Nat.div_add by lia. lia.
Qed.

Lemma import_calls_round_trips env uploadData :
  import_calls env uploadData
  = round_trips (Pos.to_nat (BulkInsertBatchSize env)) (uploaded_sheets uploadData).
Proof.
  unfold import_calls, round_trips, sheets_calls.
  induction (uploaded_sheets uploadData) as [|s sheets IH]; [reflexivity|].
  cbn [fold_right]. unfold sheet_calls at 1.
  rewrite batch_count_ceiling by (try apply Pos2Nat.is_pos; lia). lia.
Qed.

(** X6.  A new upload that succeeds has made exactly five database calls
    (the duplicate lookup, the begin of the transaction, the save of the
    session, the final save and the commit) plus, for every sheet, one call
    and one more per started batch of rows: with batch size [b], a sheet of
    [n] rows costs 1 + ceil(n / b) calls.  Every sheet of the request is
    counted: an upload that succeeds had no [null] sheet. *)
Theorem upload_database_round_trips lib env uploadData ctx response ctx' :
  idle ctx ->
  find (hash_matches (CalculateFileHash lib uploadData)) (ImportSessions (database ctx))
  = None ->
  SaveExcelDataAsync lib env uploadData ctx = (Ok response, ctx') ->
  map Some (uploaded_sheets uploadData) = Values (up_Sheets uploadData)
  /\ ops ctx'
     = (ops ctx + round_trips (Pos.to_nat (BulkInsertBatchSize env))
                    (uploaded_sheets uploadData))%nat.
Proof.
  intros Hidle Hf Hrun.
  destruct (upload_outcome lib env uploadData ctx response ctx' Hidle Hf Hrun)
    as (t & _ & (_ & Hsheets & _) & _ & _ & _ & _ & Hop & _).
  split; [apply present_all; exact Hsheets|].
  rewrite Hop, import_calls_round_trips. reflexivity.
Qed.

Lemma upload_database_round_trips_witness :
  exists response ctx',
    SaveExcelDataAsync Sample.lib (with_batch_size sample_env 2) two_sheet_upload
      (new_context sample_db)
    = (Ok response, ctx')
    /\ ops ctx' = 10%nat.
Proof.
  destruct (SaveExcelDataAsync Sample.lib (with_batch_size sample_env 2) two_sheet_upload
              (new_context sample_db))
    as [[response|e] ctx'] eqn:Hrun.
  2:{ vm_compute in Hrun. discriminate. }
  exists response, ctx'. split; [reflexivity|].
  assert (Hfind : find (hash_matches (CalculateFileHash Sample.lib two_sheet_upload))
                    (ImportSessions (database (new_context sample_db))) = None)
    by (vm_compute; reflexivity).
  destruct (upload_database_round_trips Sample.lib (with_batch_size sample_env 2)
              two_sheet_upload (new_context sample_db) response ctx'
              (conj eq_refl eq_refl) Hfind Hrun) as [_ Hop].
  rewrite Hop. reflexivity.
Defined.

(** ** Deleting a session *)

Lemma find_In_map {A} (key : A -> Z) (g : Z) (l : list A) :
  In g (map key l) -> exists x, find (fun y => key y =? g) l = Some x.
Proof.
  induction l as [|y l IH]; cbn; [contradiction|].
  intros [H|H].
  - rewrite H, Z.eqb_refl. eexists; reflexivity.
  - destruct (key y =? g); [eexists; reflexivity | apply IH, H].
Qed.

Lemma find_not_In_map {A} (key : A -> Z) (g : Z) (l : list A) :
  ~ In g (map key l) -> find (fun y => key y =? g) l = None.
Proof.
  induction l as [|y l IH]; cbn; [reflexivity|].
  intros H. destruct (Z.eqb_spec (key y) g) as [Heq|Hne].
  - exfalso. apply H. left. exact Heq.
  - apply IH. intros Hin. apply H. right. exact Hin.
Qed.

Lemma DeleteSessionAsync_found env sessionId ctx :
  tracked ctx = [] ->
  fault env (ops ctx) = None -> fault env (S (ops ctx)) = None ->
  In sessionId (map s_Id (ImportSessions (database ctx))) ->
  DeleteSessionAsync env sessionId ctx
  = (Ok true, {| database := cascade_delete sessionId (database ctx);
                 snapshot := snapshot ctx; tracked := []; ops := S (S (ops ctx));
                 entities := entities ctx |}).
Proof.
  intros Htr Hlookup Hsave Hin.
  destruct (find_In_map s_Id sessionId _ Hin) as [session Hf].
  unfold DeleteSessionAsync, bind, FindAsync, FirstOrDefaultAsync, db_call.
  rewrite Hlookup. cbv beta iota. cbn [database snapshot tracked ops entities].
  rewrite Hf.
  unfold Add, SaveChangesAsync, db_call, ret.
  cbn [database snapshot tracked ops entities]. rewrite Hsave, Htr.
  destruct (find_some_In _ _ _ Hf) as [_ Hid]. apply Z.eqb_eq in Hid. rewrite Hid.
  reflexivity.
Qed.

Lemma DeleteSessionAsync_missing env sessionId ctx :
  fault env (ops ctx) = None ->
  ~ In sessionId (map s_Id (ImportSessions (database ctx))) ->
  DeleteSessionAsync env sessionId ctx = (Ok false, after_call ctx).
Proof.
  intros Hlookup Hnot.
  unfold DeleteSessionAsync, bind, FindAsync, FirstOrDefaultAsync, db_call.
  rewrite Hlookup. cbv beta iota. cbn [database snapshot tracked ops entities].
  rewrite (find_not_In_map s_Id sessionId _ Hnot). reflexivity.
Qed.

Lemma DeleteSessionAsync_deleted env sessionId ctx ctx' :
  tracked ctx = [] ->
  DeleteSessionAsync env sessionId ctx = (Ok true, ctx') ->
  database ctx' = cascade_delete sessionId (database ctx)
  /\ snapshot ctx' = snapshot ctx /\ tracked ctx' = []
  /\ ops ctx' = S (S (ops ctx)) /\ entities ctx' = entities ctx.
Proof.
  intros Htr Hrun.
  unfold DeleteSessionAsync, bind, FindAsync, FirstOrDefaultAsync, db_call in Hrun.
  destruct (fault env (ops ctx)); [discriminate|]. cbv beta iota in Hrun.
  cbn [database snapshot tracked ops entities] in Hrun.
  destruct (find _ (ImportSessions (database ctx))) as [session|] eqn:Hf;
    [|discriminate].
  destruct (find_some_In _ _ _ Hf) as [_ Hid]. apply Z.eqb_eq in Hid.
  unfold Add, SaveChangesAsync, db_call, ret in Hrun.
  cbn [database snapshot tracked ops entities] in Hrun.
  destruct (fault env (S (ops ctx))); [discriminate|].
  injection Hrun as <-. cbn [database snapshot tracked ops entities].
  rewrite Htr, Hid. repeat split.
Qed.

Lemma existsb_sheet_ids db sessionId g :
  existsb (Z.eqb g) (map sh_Id (filter (fun sh => sh_SessionId sh =? sessionId) (Sheets db)))
  = true
  <-> exists sh, In sh (Sheets db) /\ sh_SessionId sh = sessionId /\ sh_Id sh = g.
Proof.
  rewrite existsb_exists. split.
  - intros (x & Hx & Heq). apply Z.eqb_eq in Heq. apply in_map_iff in Hx.
    destruct Hx as (sh & Hid & Hsh). apply filter_In in Hsh. destruct Hsh as [Hin Hs].
    apply Z.eqb_eq in Hs. exists sh. repeat split; [exact Hin | exact Hs | congruence].
  - intros (sh & Hin & Hs & Hid). exists (sh_Id sh). split.
    + apply in_map, filter_In. split; [exact Hin | apply Z.eqb_eq; exact Hs].
    + apply Z.eqb_eq. symmetry. exact Hid.
Qed.

(** X7.  Deleting a stored session, from a context with nothing tracked and
    when neither of its two database calls, the lookup and the save, fails,
    returns [true] and removes exactly the session, its sheets, the rows of
    those sheets and its excluded-sheet records; every other record stays. *)
Theorem delete_removes_session_and_its_data env sessionId ctx :
  tracked ctx = [] ->
  fault env (ops ctx) = None -> fault env (S (ops ctx)) = None ->
  In sessionId (map s_Id (ImportSessions (database ctx))) ->
  exists ctx',
    DeleteSessionAsync env sessionId ctx = (Ok true, ctx')
    /\ (forall s, In s (ImportSessions (database ctx'))
                  <-> In s (ImportSessions (database ctx)) /\ s_Id s <> sessionId)
    /\ (forall sh, In sh (Sheets (database ctx'))
                   <-> In sh (Sheets (database ctx)) /\ sh_SessionId sh <> sessionId)
    /\ (forall r, In r (SheetDataRows (database ctx'))
                  <-> In r (SheetDataRows (database ctx))
                      /\ ~ row_of_session (database ctx) sessionId r)
    /\ (forall x, In x (ExcludedSheets (database ctx'))
                  <-> In x (ExcludedSheets (database ctx)) /\ ex_SessionId x <> sessionId).
Proof.
  intros Htr Hlookup Hsave Hin.
  eexists. split; [apply DeleteSessionAsync_found; assumption|].
  cbn [database cascade_delete ImportSessions Sheets SheetDataRows ExcludedSheets].
  split; [|split; [|split]].
  - intros s. rewrite filter_In, negb_true_iff, Z.eqb_neq. reflexivity.
  - intros sh. rewrite filter_In, negb_true_iff, Z.eqb_neq. reflexivity.
  - intros r. rewrite filter_In, negb_true_iff. unfold row_of_session.
    rewrite <- existsb_sheet_ids.
    destruct (existsb _ _); split; intros [H1 H2]; split; auto; try discriminate.
    exfalso. apply H2. reflexivity.
  - intros x. rewrite filter_In, negb_true_iff, Z.eqb_neq. reflexivity.
Qed.

Lemma delete_removes_session_and_its_data_witness :
  exists ctx',
    DeleteSessionAsync sample_env 1 (new_context two_session_db) = (Ok true, ctx')
    /\ map sd_Id (SheetDataRows (database ctx')) = [201; 200]
    /\ map sh_Id (Sheets (database ctx')) = [20].
Proof.
  destruct (delete_removes_session_and_its_data sample_env 1 (new_context two_session_db)
              eq_refl eq_refl eq_refl (or_introl eq_refl))
    as (ctx' & Hrun & _).
  exists ctx'. split; [exact Hrun|].
  vm_compute in Hrun. injection Hrun as <-. split; reflexivity.
Defined.

Lemma filter_map_In {A B} (f : A -> option B) (l : list A) (y : B) :
  In y (filter_map f l) -> exists x, In x l /\ f x = Some y.
Proof.
  induction l as [|x l IH]; cbn; [contradiction|].
  destruct (f x) as [z|] eqn:Hx.
  - intros [<-|H]; [exists x; split; [left; reflexivity | exact Hx]|].
    destruct (IH H) as (x' & Hin & Hf). exists x'. split; [right; exact Hin | exact Hf].
  - intros H. destruct (IH H) as (x' & Hin & Hf). exists x'.
    split; [right; exact Hin | exact Hf].
Qed.

Lemma join_row_sheet db sd j :
  join_row db sd = Some j -> In (j_sheet j) (Sheets db) /\ j_row j = sd.
Proof.
  unfold join_row. destruct (find _ (Sheets db)) as [sh|] eqn:Hsh; [|discriminate].
  destruct (find _ (ImportSessions db)) as [s|]; [|discriminate].
  intros H. injection H as <-. cbn. split; [|reflexivity].
  apply (find_some_In _ _ _ Hsh).
Qed.

Lemma NoDup_map_In {A B} (f : A -> B) (l : list A) (x y : A) :
  NoDup (map f l) -> In x l -> In y l -> f x = f y -> x = y.
Proof.
  induction l as [|z l IH]; cbn; [contradiction|].
  intros Hnd Hx Hy Heq. inversion Hnd as [|? ? Hnot Hnd']; subst.
  destruct Hx as [->|Hx], Hy as [->|Hy].
  - reflexivity.
  - exfalso. apply Hnot. rewrite Heq. apply in_map, Hy.
  - exfalso. apply Hnot. rewrite <- Heq. apply in_map, Hx.
  - apply IH; assumption.
Qed.

Lemma filter_none {A} (f : A -> bool) (l : list A) :
  (forall x, In x l -> f x = false) -> filter f l = [].
Proof.
  induction l as [|x l IH]; intros H; [reflexivity|].
  cbn. rewrite (H x (or_introl eq_refl)). apply IH. intros y Hy. apply H. right. exact Hy.
Qed.

(** X8.  After a session was deleted it is gone for every later request on
    the resulting database.  Deleting it again makes one database call, the
    lookup: when that call does not fail the delete returns [false] and
    changes nothing in the database; when it fails, its exception is raised
    and the database is unchanged as well.  The session detail is not found;
    with sheet ids unique, the detail of each of its sheets is not found; a
    search restricted to it matches no row. *)
Theorem deleted_session_is_gone lib env sessionId ctx ctx' :
  tracked ctx = [] ->
  DeleteSessionAsync env sessionId ctx = (Ok true, ctx') ->
  (forall env',
     match fault env' (ops ctx') with
     | None => DeleteSessionAsync env' sessionId ctx' = (Ok false, after_call ctx')
     | Some e => DeleteSessionAsync env' sessionId ctx' = (Throws e, after_call ctx')
     end)
  /\ GetSessionDataAsync lib (database ctx') sessionId = Ok None
  /\ (forall sh, NoDup (map sh_Id (Sheets (database ctx))) ->
        In sh (Sheets (database ctx)) -> sh_SessionId sh = sessionId ->
        GetSheetDetailAsync lib (database ctx') (sh_Id sh) = Ok None)
  /\ (forall searchRequest,
        rq_SessionId searchRequest = Some sessionId ->
        search_query lib (database ctx') searchRequest = []).
Proof.
  intros Htr Hrun.
  destruct (DeleteSessionAsync_deleted env sessionId ctx ctx' Htr Hrun) as (Hdb & _).
  assert (Hgone : ~ In sessionId (map s_Id (ImportSessions (database ctx')))).
  { rewrite Hdb. cbn [cascade_delete ImportSessions]. intros Hin.
    apply in_map_iff in Hin. destruct Hin as (s & Hid & Hs).
    apply filter_In in Hs. destruct Hs as [_ Hne].
    rewrite negb_true_iff, Z.eqb_neq in Hne. contradiction. }
  split; [|split; [|split]].
  - intros env'. destruct (fault env' (ops ctx')) as [e|] eqn:Hlookup.
    + unfold DeleteSessionAsync, bind, FindAsync, FirstOrDefaultAsync, db_call.
      rewrite Hlookup. reflexivity.
    + apply DeleteSessionAsync_missing; assumption.
  - unfold GetSessionDataAsync. rewrite (find_not_In_map s_Id sessionId _ Hgone).
    reflexivity.
  - intros sh Hnd Hin Hs. unfold GetSheetDetailAsync.
    rewrite (find_not_In_map sh_Id (sh_Id sh)); [reflexivity|].
    intros Hin'. apply in_map_iff in Hin'. destruct Hin' as (sh' & Hid & Hsh').
    rewrite Hdb in Hsh'. cbn [cascade_delete Sheets] in Hsh'.
    apply filter_In in Hsh'. destruct Hsh' as [Hin' Hne].
    rewrite negb_true_iff, Z.eqb_neq in Hne.
    rewrite (NoDup_map_In sh_Id _ sh' sh Hnd Hin' Hin Hid) in Hne. contradiction.
  - intros rq Hrq. unfold search_query. rewrite Hrq.
    apply filter_none. intros j Hj. apply filter_In in Hj. destruct Hj as [Hj _].
    destruct (filter_map_In _ _ _ Hj) as (sd & _ & Hjoin).
    destruct (join_row_sheet _ _ _ Hjoin) as [Hsh _].
    rewrite Hdb in Hsh. cbn [cascade_delete Sheets] in Hsh.
    apply filter_In in Hsh. destruct Hsh as [_ Hne].
    apply negb_true_iff in Hne. exact Hne.
Qed.

Lemma deleted_session_is_gone_witness :
  exists ctx',
    DeleteSessionAsync sample_env 1 (new_context two_session_db) = (Ok true, ctx')
    /\ DeleteSessionAsync failing_env 1 ctx' = (Ok false, after_call ctx')
    /\ GetSessionDataAsync Sample.lib (database ctx') 1 = Ok None.
Proof.
  destruct (DeleteSessionAsync sample_env 1 (new_context two_session_db))
    as [[[|]|e] ctx'] eqn:Hrun; try (vm_compute in Hrun; discriminate).
  exists ctx'. split; [reflexivity|].
  destruct (deleted_session_is_gone Sample.lib sample_env 1 (new_context two_session_db)
              ctx' eq_refl Hrun) as (H1 & H2 & _).
  split; [|exact H2].
  specialize (H1 failing_env).
  assert (Hops : ops ctx' = 2%nat) by (vm_compute in Hrun; injection Hrun as <-; reflexivity).
  rewrite Hops in H1. exact H1.
Defined.

(** ** Upload, then delete *)

Lemma rows_of_sheet_id lib env sheetId e i rows :
  Forall (fun r => sd_SheetId r = sheetId) (rows_of lib env sheetId e i rows).
Proof.
  revert e i. induction rows as [|row rows IH]; intros e i; cbn; constructor;
    [reflexivity | apply IH].
Qed.

Lemma import_records_ids lib env sessionId sheets sheetIndex e :
  Forall (fun rec => sh_SessionId (fst rec) = sessionId
                     /\ (exists k, (e <= k)%nat /\ sh_Id (fst rec) = NewGuid env k)
                     /\ Forall (fun r => sd_SheetId r = sh_Id (fst rec)) (snd rec))
         (import_records lib env sessionId sheets sheetIndex e).
Proof.
  revert sheetIndex e. induction sheets as [|kv sheets IH]; intros sheetIndex e;
    cbn [import_records]; constructor.
  - cbn [fst snd sheet_of sh_SessionId sh_Id]. split; [reflexivity|].
    split; [exists e; split; [lia | reflexivity] | apply rows_of_sheet_id].
  - eapply Forall_impl; [|apply IH]. cbn beta.
    intros rec (H1 & (k & Hk & H2) & H3). split; [exact H1|].
    split; [exists k; split; [lia | exact H2] | exact H3].
Qed.

Lemma filter_all {A} (f : A -> bool) (l : list A) :
  (forall x, In x l -> f x = true) -> filter f l = l.
Proof.
  induction l as [|x l IH]; intros H; [reflexivity|].
  cbn. rewrite (H x (or_introl eq_refl)). f_equal. apply IH.
  intros y Hy. apply H. right. exact Hy.
Qed.

Lemma filter_old_new {A} (f : A -> bool) (old new : list A) :
  (forall x, In x old -> f x = true) -> (forall x, In x new -> f x = false) ->
  filter f (old ++ new) = old.
Proof.
  intros Ho Hn. rewrite filter_app, (filter_all f old Ho), (filter_none f new Hn).
  apply app_nil_r.
Qed.

Lemma cascade_delete_import lib env sessionId db session completed sheets names e1 e2 :
  s_Id session = sessionId -> s_Id completed = sessionId ->
  unused_id db sessionId ->
  (forall k, (e2 <= k)%nat -> unused_id db (NewGuid env k)) ->
  let records := import_records lib env sessionId sheets 0 e2 in
  cascade_delete sessionId
    {| ImportSessions := replace_session completed (ImportSessions db ++ [session])%list;
       Sheets := (Sheets db ++ map fst records)%list;
       SheetDataRows := (SheetDataRows db ++ flat_map snd records)%list;
       ExcludedSheets := (ExcludedSheets db ++ excluded_of env sessionId names e1)%list |}
  = db.
Proof.
  intros Hs Hc (U1 & U2 & U3 & U4) Hfresh records.
  pose proof (import_records_ids lib env sessionId sheets 0 e2) as Hids.
  fold records in Hids. rewrite Forall_forall in Hids.
  unfold cascade_delete. cbn [ImportSessions Sheets SheetDataRows ExcludedSheets].
  assert (Hsheets : forall f : Sheet -> bool,
             (forall sh, f sh = negb (sh_SessionId sh =? sessionId)) ->
             filter f (Sheets db ++ map fst records) = Sheets db).
  { intros f Hf. apply filter_old_new; intros sh Hin; rewrite Hf.
    - apply negb_true_iff, Z.eqb_neq. intros Heq. apply U2. rewrite <- Heq.
      apply in_map, Hin.
    - apply in_map_iff in Hin. destruct Hin as (rec & <- & Hrec).
      destruct (Hids rec Hrec) as (H1 & _). rewrite H1, Z.eqb_refl. reflexivity. }
  assert (Hgone : filter (fun sh => sh_SessionId sh =? sessionId)
                    (Sheets db ++ map fst records) = map fst records).
  { rewrite filter_app. rewrite (filter_none _ (Sheets db)).
    - cbn [app]. apply filter_all. intros sh Hin. apply in_map_iff in Hin.
      destruct Hin as (rec & <- & Hrec). destruct (Hids rec Hrec) as (H1 & _).
      rewrite H1. apply Z.eqb_refl.
    - intros sh Hin. apply Z.eqb_neq. intros Heq. apply U2. rewrite <- Heq.
      apply in_map, Hin. }
  rewrite Hgone.
  rewrite (Hsheets _ (fun _ => eq_refl)).
  replace (filter _ (replace_session completed (ImportSessions db ++ [session])))
    with (ImportSessions db).
  2:{ rewrite (replace_session_new completed session)
        by (rewrite ?Hs, ?Hc; solve [reflexivity | exact U1]).
      symmetry. apply filter_old_new.
      - intros s Hin. apply negb_true_iff, Z.eqb_neq. intros Heq. apply U1.
        rewrite <- Heq. apply in_map, Hin.
      - intros s [<-|[]]. rewrite Hc, Z.eqb_refl. reflexivity. }
  replace (filter _ (SheetDataRows db ++ flat_map snd records)) with (SheetDataRows db).
  2:{ symmetry. apply filter_old_new.
      - intros r Hin. apply negb_true_iff.
        destruct (existsb _ _) eqn:Hex; [|reflexivity]. exfalso.
        apply existsb_exists in Hex. destruct Hex as (g & Hg & Heq).
        apply Z.eqb_eq in Heq. rewrite map_map in Hg. apply in_map_iff in Hg.
        destruct Hg as (rec & Hid & Hrec).
        destruct (Hids rec Hrec) as (_ & (k & Hk & Hnew) & _).
        destruct (Hfresh k Hk) as (_ & _ & U3' & _). apply U3'.
        rewrite <- Hnew, Hid, <- Heq. apply in_map, Hin.
      - intros r Hin. apply negb_false_iff, existsb_exists.
        apply in_flat_map in Hin. destruct Hin as (rec & Hrec & Hr).
        destruct (Hids rec Hrec) as (_ & _ & Hrows). rewrite Forall_forall in Hrows.
        exists (sh_Id (fst rec)). split.
        + rewrite map_map. apply (in_map (fun x => sh_Id (fst x))), Hrec.
        + apply Z.eqb_eq, Hrows, Hr. }
  replace (filter _ (ExcludedSheets db ++ excluded_of env sessionId names e1))
    with (ExcludedSheets db).
  2:{ symmetry. apply filter_old_new.
      - intros x Hin. apply negb_true_iff, Z.eqb_neq. intros Heq. apply U4.
        rewrite <- Heq. apply in_map, Hin.
      - intros x Hin. destruct (excluded_of_written env sessionId names e1) as [_ HF].
        rewrite Forall_forall in HF. rewrite (HF x Hin), Z.eqb_refl. reflexivity. }
  destruct db; reflexivity.
Qed.

(** X9.  Upload and delete are inverse on the database: when the identifiers
    drawn for new entities occur nowhere in the database, a successful new
    upload followed by the deletion of the returned session id, neither of
    whose two database calls fails, leaves the database exactly as it was
    before the upload. *)
Theorem delete_undoes_upload lib env env' uploadData ctx response ctx1 :
  idle ctx ->
  (forall k, (entities ctx <= k)%nat -> unused_id (database ctx) (NewGuid env k)) ->
  find (hash_matches (CalculateFileHash lib uploadData)) (ImportSessions (database ctx))
  = None ->
  SaveExcelDataAsync lib env uploadData ctx = (Ok response, ctx1) ->
  fault env' (ops ctx1) = None -> fault env' (S (ops ctx1)) = None ->
  exists ctx2,
    DeleteSessionAsync env' (r_SessionId response) ctx1 = (Ok true, ctx2)
    /\ database ctx2 = database ctx.
Proof.
  intros Hidle Hfresh Hf Hrun Hlookup Hsave.
  destruct (upload_outcome lib env uploadData ctx response ctx1 Hidle Hf Hrun)
    as (t & _ & _ & Hr & Hdb & Htr & _).
  assert (Hid : r_SessionId response = NewGuid env (entities ctx))
    by (rewrite Hr; reflexivity).
  rewrite Hid.
  assert (Hin : In (NewGuid env (entities ctx)) (map s_Id (ImportSessions (database ctx1)))).
  { rewrite Hdb. cbn [ImportSessions]. unfold replace_session. rewrite map_map.
    apply in_map_iff. eexists. split; [|apply in_or_app; right; left; reflexivity].
    cbn [s_Id new_ImportSession session_of]. rewrite Z.eqb_refl. reflexivity. }
  eexists. split; [apply DeleteSessionAsync_found; assumption|].
  cbn [database]. rewrite Hdb.
  apply (cascade_delete_import lib env (NewGuid env (entities ctx)) (database ctx));
    try reflexivity.
  - apply Hfresh. lia.
  - intros k Hk. apply Hfresh. lia.
Qed.

Lemma delete_undoes_upload_witness :
  exists response ctx1 ctx2,
    SaveExcelDataAsync Sample.lib later_env two_sheet_upload (new_context sample_db)
    = (Ok response, ctx1)
    /\ DeleteSessionAsync sample_env (r_SessionId response) ctx1 = (Ok true, ctx2)
    /\ database ctx2 = sample_db
    /\ database ctx1 <> sample_db.
Proof.
  destruct (SaveExcelDataAsync Sample.lib later_env two_sheet_upload (new_context sample_db))
    as [[response|e] ctx1] eqn:Hrun.
  2:{ vm_compute in Hrun. discriminate. }
  assert (Hfind : find (hash_matches (CalculateFileHash Sample.lib two_sheet_upload))
                    (ImportSessions (database (new_context sample_db))) = None)
    by (vm_compute; reflexivity).
  assert (Hfresh : forall k, (entities (new_context sample_db) <= k)%nat ->
                             unused_id (database (new_context sample_db))
                                       (NewGuid later_env k)).
  { intros k _. unfold unused_id, later_env, new_context, sample_db.
    cbn [database NewGuid ImportSessions Sheets SheetDataRows ExcludedSheets map
         s_Id sh_SessionId sd_SheetId ex_SessionId In].
    repeat split; intros [H|[]]; lia. }
  destruct (delete_undoes_upload Sample.lib later_env sample_env two_sheet_upload
              (new_context sample_db) response ctx1
              (conj eq_refl eq_refl) Hfresh Hfind Hrun eq_refl eq_refl)
    as (ctx2 & Hdel & Hdb).
  exists response, ctx1, ctx2.
  split; [reflexivity|]. split; [exact Hdel|]. split; [exact Hdb|].
  vm_compute in Hrun. injection Hrun as _ <-. cbn [database]. discriminate.
Defined.

(** ** The session list *)

Lemma newest_first_total (a b : ImportSession) :
  (s_ImportedAt b <=? s_ImportedAt a) = true \/ (s_ImportedAt a <=? s_ImportedAt b) = true.
Proof. rewrite !Z.leb_le. lia. Qed.

Lemma newest_first_trans (a b c : ImportSession) :
  (s_ImportedAt b <=? s_ImportedAt a) = true ->
  (s_ImportedAt c <=? s_ImportedAt b) = true ->
  (s_ImportedAt c <=? s_ImportedAt a) = true.
Proof. rewrite !Z.leb_le. lia. Qed.

Lemma StronglySorted_weaken {A} (R R' : A -> A -> Prop) (l : list A) :
  (forall a b, R a b -> R' a b) -> StronglySorted R l -> StronglySorted R' l.
Proof.
  intros HR. induction 1 as [|x l Hs IH Hf]; constructor; [exact IH|].
  eapply Forall_impl; [|exact Hf]. intros b. apply HR.
Qed.

Lemma sessions_newest_first l :
  StronglySorted (fun a b => sl_ImportedAt b <= sl_ImportedAt a)
    (map session_list_item (OrderBy (fun a b => s_ImportedAt b <=? s_ImportedAt a) l)).
Proof.
  apply StronglySorted_map. cbn [session_list_item sl_ImportedAt].
  pose proof (OrderBy_StronglySorted (fun a b => s_ImportedAt b <=? s_ImportedAt a)
                newest_first_total newest_first_trans l) as H.
  eapply StronglySorted_weaken; [|exact H].
  intros a b Hab. cbn beta in Hab. apply Z.leb_le. exact Hab.
Qed.

(** X10.  Every page of the session list that is returned is a run of the
    stored sessions taken newest first: its items are in non-increasing
    order of [ImportedAt], there are at most [pageSize] of them, and each is
    the projection of a stored session. *)
Theorem session_page_is_newest_first db pageNumber pageSize response :
  GetSessionsAsync db pageNumber pageSize = Ok response ->
  StronglySorted (fun a b => sl_ImportedAt b <= sl_ImportedAt a) (Data response)
  /\ Count (Data response) <= pageSize
  /\ (forall item, In item (Data response) ->
        exists session, In session (ImportSessions db) /\ item = session_list_item session).
Proof.
  unfold GetSessionsAsync, SkipTake.
  destruct (_ <? 0); [discriminate|].
  destruct (Z.leb_spec pageSize 0) as [|Hs]; [discriminate|].
  cbn [exc_bind]. intros H. injection H as <-. cbn [Data].
  split; [|split].
  - rewrite <- firstn_map, <- skipn_map.
    apply StronglySorted_firstn, StronglySorted_skipn, sessions_newest_first.
  - unfold Count. rewrite List.length_map, List.length_firstn. lia.
  - intros item Hin. apply in_map_iff in Hin. destruct Hin as (session & <- & Hin).
    exists session. split; [|reflexivity].
    apply firstn_In in Hin. apply (OrderBy_In (fun a b => s_ImportedAt b <=? s_ImportedAt a)).
    revert Hin. generalize (OrderBy (fun a b => s_ImportedAt b <=? s_ImportedAt a)
                              (ImportSessions db)).
    generalize (Z.to_nat (wrap32 (wrap32 (pageNumber - 1) * pageSize))).
    intros n l. revert l. induction n as [|n IH]; intros [|x l]; cbn; auto.
Qed.

Lemma session_page_is_newest_first_witness :
  exists response,
    GetSessionsAsync two_session_db 1 1 = Ok response
    /\ map sl_Id (Data response) = [2]
    /\ Count (Data response) <= 1.
Proof.
  destruct (GetSessionsAsync two_session_db 1 1) as [response|e] eqn:Hrun;
    [|vm_compute in Hrun; discriminate].
  exists response. split; [reflexivity|].
  destruct (session_page_is_newest_first two_session_db 1 1 response Hrun) as (_ & Hc & _).
  split; [|exact Hc].
  vm_compute in Hrun. injection Hrun as <-. reflexivity.
Defined.

Lemma concat_pages {A} (s : nat) (l : list A) (m : nat) :
  (0 < s)%nat -> (List.length l <= m * s)%nat ->
  List.concat (map (fun k => firstn s (skipn (k * s) l)) (seq 0 m)) = l.
Proof.
  intros Hs. revert l. induction m as [|m IH]; intros l Hl.
  - destruct l; [reflexivity | cbn in Hl; lia].
  - cbn [seq map List.concat Nat.mul skipn]. rewrite <- seq_shift, map_map.
    transitivity (firstn s l ++ skipn s l)%list; [|apply firstn_skipn]. f_equal.
    rewrite <- (IH (skipn s l)) by (rewrite List.length_skipn; lia).
    f_equal. apply map_ext. intros k. rewrite skipn_skipn. do 2 f_equal. lia.
Qed.

Lemma mapM_pages {A B} (f : A -> Exc B) (g : A -> B) (l : list A) :
  (forall x, In x l -> f x = Ok (g x)) -> mapM f l = Ok (map g l).
Proof. apply mapM_total. Qed.

(** X11.  Reading the session list page by page, from page 1 to the last
    page announced, visits every stored session exactly once, newest first,
    as long as the number of sessions fits an [int].  (With distinct
    [ImportedAt] values this order is the only one the query allows.) *)
Theorem session_pages_cover_all_sessions db pageSize :
  0 < pageSize ->
  Count (ImportSessions db) <= Int32_MaxValue ->
  NoDup (map s_ImportedAt (ImportSessions db)) ->
  exists pages,
    mapM (fun p => GetSessionsAsync db (Z.of_nat p) pageSize)
         (seq 1 (Z.to_nat (Ceiling_div (Count (ImportSessions db)) pageSize)))
    = Ok pages
    /\ Permutation (List.concat (map Data pages)) (map session_list_item (ImportSessions db))
    /\ StronglySorted (fun a b => sl_ImportedAt b <= sl_ImportedAt a)
                      (List.concat (map Data pages)).
Proof.
  intros Hs Hn _.
  set (sorted := OrderBy (fun a b => s_ImportedAt b <=? s_ImportedAt a) (ImportSessions db)).
  set (n := Count (ImportSessions db)) in *.
  pose proof (Ceiling_div_spec n pageSize Hs) as Hceil.
  assert (Hn0 : 0 <= n) by (unfold n, Count; lia).
  assert (Htp : 0 <= Ceiling_div n pageSize) by nia.
  set (page := fun p : nat =>
         {| Data := map session_list_item
                      (firstn (Z.to_nat pageSize)
                         (skipn ((p - 1) * Z.to_nat pageSize) sorted));
            CurrentPage := Z.of_nat p; PageSize := pageSize;
            TotalRecords := Count sorted;
            TotalPages := Ceiling_div (Count sorted) pageSize;
            HasNextPage := Z.of_nat p <? Ceiling_div (Count sorted) pageSize;
            HasPreviousPage := 1 <? Z.of_nat p |}).
  exists (map page (seq 1 (Z.to_nat (Ceiling_div n pageSize)))).
  assert (Hcat : List.concat (map Data (map page (seq 1 (Z.to_nat (Ceiling_div n pageSize)))))
                 = map session_list_item sorted).
  { rewrite map_map. unfold page. cbn [Data].
    rewrite <- seq_shift, map_map.
    transitivity
      (map session_list_item
         (List.concat (map (fun k => firstn (Z.to_nat pageSize)
                                       (skipn (k * Z.to_nat pageSize) sorted))
                         (seq 0 (Z.to_nat (Ceiling_div n pageSize)))))).
    - rewrite concat_map, map_map. f_equal. apply map_ext. intros k.
      replace (S k - 1)%nat with k by lia. reflexivity.
    - f_equal. apply concat_pages; [lia|].
      unfold sorted. rewrite OrderBy_length.
      apply Nat2Z.inj_le. rewrite Nat2Z.inj_mul, !Z2Nat.id by lia.
      apply Hceil. }
  split; [|split].
  - apply mapM_pages. intros p Hp. apply in_seq in Hp.
    unfold GetSessionsAsync. fold sorted.
    rewrite page_offset_valid by (unfold Int32_MaxValue in *; nia).
    rewrite SkipTake_Ok by nia. cbn [exc_bind]. unfold page.
    replace (Z.to_nat ((Z.of_nat p - 1) * pageSize))
      with ((p - 1) * Z.to_nat pageSize)%nat by nia.
    reflexivity.
  - rewrite Hcat. apply Permutation_map. symmetry. apply OrderBy_Permutation.
  - rewrite Hcat. apply sessions_newest_first.
Qed.

Lemma session_pages_cover_all_sessions_witness :
  exists pages,
    mapM (fun p => GetSessionsAsync two_session_db (Z.of_nat p) 1) [1%nat; 2%nat] = Ok pages
    /\ map sl_Id (List.concat (map Data pages)) = [2; 1].
Proof.
  assert (Hnd : NoDup (map s_ImportedAt (ImportSessions two_session_db))).
  { cbn. constructor; [intros [H|[]]; discriminate|].
    constructor; [intros []|constructor]. }
  destruct (session_pages_cover_all_sessions two_session_db 1 eq_refl
              ltac:(vm_compute; discriminate) Hnd)
    as (pages & Hrun & _).
  exists pages. split; [exact Hrun|].
  vm_compute in Hrun. injection Hrun as <-. reflexivity.
Defined.

(** ** The session detail *)






(** ** Reading back what was uploaded *)








